(** * TiDB migration calculator: capacity derivation, cost model, change history

    A shallow embedding of [src/calculator.js] (the React component
    [EnhancedTiDBMigrationCalculator]; the stand-alone HTML page carries the
    same engine) together with the properties the specification states
    about it.

    Modelling conventions.
    - JavaScript numbers are IEEE doubles.  They are modelled by [Num.num]:
      an exact rational, or one of [Infinity], [-Infinity], [NaN], with the
      IEEE rules for the three special values (division by zero, NaN
      propagation, comparisons with NaN being false).  Rounding of finite
      results, overflow and the sign of zero are not modelled: finite
      arithmetic is exact.  A statement that doubles satisfy only while
      nothing overflows and whole numbers stay exact carries the bounds
      [boundedInputs] on the numbers the form supplies.
    - JavaScript objects used as lookup tables are [gmap string _]; a
      missing key gives [None], which is JavaScript's [undefined].  The
      object literals also answer to the names every object inherits
      ([inheritedNames]): with [?.] and a default such a name behaves as
      a missing key, and the two places where it does not
      ([calculateEbsCost], [strictField]) treat it apart.
    - React state is one record [State]; the body of the auto-calculation
      effect is the function [recompute] from the state of the render that
      scheduled it to the state after its three functional updates. *)

From Stdlib Require Import ZArith QArith Qround Lia Lqa Bool Ascii String.
From stdpp Require Import base option list strings gmap sorting.

(** ** JavaScript numbers *)

Module Num.

Inductive num : Type :=
| Fin (q : Q)
| Infinity
| NegInfinity
| NaN.

Definition ofZ (z : Z) : num := Fin (inject_Z z).

Definition isFinite (a : num) : bool :=
  match a with Fin _ => true | _ => false end.

(** Sign of a number, as a comparison with zero; [None] for NaN. *)
Definition sign (a : num) : option comparison :=
  match a with
  | Fin q => Some (q ?= 0)%Q
  | Infinity => Some Gt
  | NegInfinity => Some Lt
  | NaN => None
  end.

Definition opp (a : num) : num :=
  match a with
  | Fin q => Fin (- q)
  | Infinity => NegInfinity
  | NegInfinity => Infinity
  | NaN => NaN
  end.

(** [a + b]. *)
Definition add (a b : num) : num :=
  match a, b with
  | NaN, _ | _, NaN => NaN
  | Fin x, Fin y => Fin (x + y)
  | Infinity, NegInfinity | NegInfinity, Infinity => NaN
  | Infinity, _ | _, Infinity => Infinity
  | NegInfinity, _ | _, NegInfinity => NegInfinity
  end.

(** [a - b]. *)
Definition sub (a b : num) : num := add a (opp b).

(** The infinity of a given sign; an infinity times zero is NaN. *)
Definition infinityOf (c : comparison) : num :=
  match c with Gt => Infinity | Lt => NegInfinity | Eq => NaN end.

Definition signMul (c d : comparison) : comparison :=
  match c, d with
  | Eq, _ | _, Eq => Eq
  | Gt, Gt | Lt, Lt => Gt
  | _, _ => Lt
  end.

(** [a * b]. *)
Definition mul (a b : num) : num :=
  match a, b with
  | Fin x, Fin y => Fin (x * y)
  | _, _ =>
      match sign a, sign b with
      | Some c, Some d => infinityOf (signMul c d)
      | _, _ => NaN
      end
  end.

(** [a / b].  A finite non-zero number over zero is an infinity, zero over
    zero is NaN, a finite number over an infinity is zero. *)
Definition div (a b : num) : num :=
  match a, b with
  | NaN, _ | _, NaN => NaN
  | Fin x, Fin y =>
      if Qeq_bool y 0 then infinityOf (x ?= 0)%Q else Fin (x / y)
  | Fin _, _ => Fin 0
  | _, Fin y => match (y ?= 0)%Q with Lt => opp a | _ => a end
  | _, _ => NaN
  end.

(** [Math.ceil]. *)
Definition ceil (a : num) : num :=
  match a with
  | Fin q => ofZ (Qceiling q)
  | _ => a
  end.

(** Numeric comparison; [None] when an operand is NaN. *)
Definition cmp (a b : num) : option comparison :=
  match a, b with
  | NaN, _ | _, NaN => None
  | Fin x, Fin y => Some (x ?= y)%Q
  | Infinity, Infinity | NegInfinity, NegInfinity => Some Eq
  | Infinity, _ | _, NegInfinity => Some Gt
  | NegInfinity, _ | _, Infinity => Some Lt
  end.

(** [a > b], [a >= b], [a <= b], [a === b] on numbers. *)
Definition gtb (a b : num) : bool :=
  match cmp a b with Some Gt => true | _ => false end.
Definition geb (a b : num) : bool :=
  match cmp a b with Some Gt | Some Eq => true | _ => false end.
Definition leb (a b : num) : bool :=
  match cmp a b with Some Lt | Some Eq => true | _ => false end.
Definition strictEq (a b : num) : bool :=
  match cmp a b with Some Eq => true | _ => false end.

(** [Math.max(a, b)] and [Math.min(a, b)]: NaN if an operand is NaN. *)
Definition max (a b : num) : num :=
  match cmp a b with
  | None => NaN
  | Some Lt => b
  | Some _ => a
  end.
Definition min (a b : num) : num :=
  match cmp a b with
  | None => NaN
  | Some Gt => b
  | Some _ => a
  end.

(** Truthiness of a number: zero and NaN are falsy. *)
Definition truthy (a : num) : bool :=
  match a with
  | Fin q => negb (Qeq_bool q 0)
  | NaN => false
  | _ => true
  end.

(** [v || d] where [v] is a number or [undefined]. *)
Definition orElse (v : option num) (d : num) : num :=
  match v with
  | Some a => if truthy a then a else d
  | None => d
  end.

(** An [undefined] operand of an arithmetic operator converts to NaN. *)
Definition toNumber (v : option num) : num :=
  match v with Some a => a | None => NaN end.

(** Equality of numbers as values: rationals up to [Qeq]. *)
Definition eqv (a b : num) : Prop :=
  match a, b with
  | Fin x, Fin y => (x == y)%Q
  | Infinity, Infinity | NegInfinity, NegInfinity | NaN, NaN => True
  | _, _ => False
  end.

End Num.

Import Num.

Declare Scope num_scope.
Delimit Scope num_scope with num.
Bind Scope num_scope with num.
Notation "a + b" := (add a b) : num_scope.
Notation "a - b" := (sub a b) : num_scope.
Notation "a * b" := (mul a b) : num_scope.
Notation "a / b" := (div a b) : num_scope.
Infix "≃" := eqv (at level 70, no associativity) : num_scope.

(** Decimal literals of the source: [dec 4 10] is [0.4]. *)
Definition dec (p : Z) (d : positive) : num := Fin (p # d).

(** ** Catalogs *)

(** An entry of [ec2InstanceTypes] or [postgresInstanceTypes].  The
    properties [nvme] and [description] exist on some entries only. *)
Module Spec.
Record t : Type := Make {
  vCPU : num;
  memory : num;
  monthlyCost : num;
  nvme : option num;
  description : option string
}.
End Spec.

Definition ec2 (v m c : Z) (d : string) : Spec.t :=
  Spec.Make (ofZ v) (ofZ m) (ofZ c) None (Some d).
Definition ec2nvme (v m c nv : Z) (d : string) : Spec.t :=
  Spec.Make (ofZ v) (ofZ m) (ofZ c) (Some (ofZ nv)) (Some d).
Definition rds (v m c : Z) : Spec.t :=
  Spec.Make (ofZ v) (ofZ m) (ofZ c) None None.

Definition ec2InstanceTypes : gmap string Spec.t :=
  list_to_map [
    ("c5.2xlarge", ec2 8 16 246 "Good for TiDB servers");
    ("c5.4xlarge", ec2 16 32 493 "Recommended for TiDB servers");
    ("c5.9xlarge", ec2 36 72 1109 "High performance TiDB");
    ("r5.2xlarge", ec2 8 64 387 "Memory optimized");
    ("r5.4xlarge", ec2 16 128 774 "High memory");
    ("r5.8xlarge", ec2 32 256 1548 "Very high memory");
    ("m5.2xlarge", ec2 8 32 278 "Good for PD nodes");
    ("m5.4xlarge", ec2 16 64 556 "High performance PD");
    ("i3.2xlarge", ec2nvme 8 61 499 1900 "Recommended for TiKV");
    ("i3.4xlarge", ec2nvme 16 122 998 3800 "High performance TiKV");
    ("i3.8xlarge", ec2nvme 32 244 1995 7600 "Very high performance TiKV");
    ("i3en.2xlarge", ec2nvme 8 64 623 5000 "Storage optimized TiKV");
    ("i3en.3xlarge", ec2nvme 12 96 935 7500 "Storage optimized TiKV+")
  ].

Module Ebs.
Record t : Type := Make {
  basePrice : num;
  throughputPrice : option num;
  iopsPrice : option num
}.
End Ebs.

Definition gp3 : Ebs.t :=
  Ebs.Make (dec 8 100) (Some (dec 4 100)) (Some (dec 5 1000)).

Definition ebsVolumeTypes : gmap string Ebs.t :=
  list_to_map [
    ("gp3", gp3);
    ("gp2", Ebs.Make (dec 10 100) None None);
    ("io1", Ebs.Make (dec 125 1000) None (Some (dec 65 1000)));
    ("io2", Ebs.Make (dec 125 1000) None (Some (dec 65 1000)))
  ].

Definition postgresInstanceTypes : gmap string Spec.t :=
  list_to_map [
    ("db.m5.large", rds 2 8 218);
    ("db.m5.xlarge", rds 4 16 437);
    ("db.m5.2xlarge", rds 8 32 874);
    ("db.r5.large", rds 2 16 276);
    ("db.r5.xlarge", rds 4 32 552);
    ("db.r5.2xlarge", rds 8 64 1104);
    ("db.r5.4xlarge", rds 16 128 2208)
  ].

(** The names of the properties a plain object inherits from
    [Object.prototype].  An object literal read at one of them gives a
    function (for [__proto__], the prototype object): a truthy value that
    has none of the properties of a catalog entry. *)
Definition inheritedNames : list string :=
  [ "constructor"; "hasOwnProperty"; "isPrototypeOf"; "propertyIsEnumerable";
    "toLocaleString"; "toString"; "valueOf"; "__proto__";
    "__defineGetter__"; "__defineSetter__"; "__lookupGetter__";
    "__lookupSetter__" ].
Definition inherited (key : string) : bool :=
  existsb (String.eqb key) inheritedNames.

(** [table[key]?.field]: [undefined] when the key is missing, and also when
    the key is an inherited name, whose value has no such property. *)
Definition field (table : gmap string Spec.t) (key : string)
    (f : Spec.t -> num) : option num :=
  f <$> table !! key.

(** ** Component state *)

Module Postgres.
Record t : Type := Make {
  instanceType : string;
  instanceCount : num;
  storageGB : num;
  iops : num;
  readOps : num;
  writeOps : num;
  monthlyCost : num;
  multiAZ : bool;
  readReplicas : num
}.
End Postgres.

Module Workload.
Record t : Type := Make {
  readWriteRatio : string;
  type : string;
  dataGrowthRate : num;
  concurrentConnections : num;
  trafficSpikes : bool;
  peakRatio : num
}.
End Workload.

Module TidbCluster.
Record t : Type := Make {
  tidbNodes : num;
  tikvNodes : num;
  pdNodes : num;
  tiflashNodes : num;
  useTiflash : bool;
  eksClusterCount : num;
  k8sWorkerNodes : num;
  availabilityZones : num;
  dataReplicationFactor : num
}.
End TidbCluster.

Module Instances.
Record t : Type := Make {
  tidbInstanceType : string;
  tikvInstanceType : string;
  pdInstanceType : string;
  tiflashInstanceType : string;
  monitoringInstanceType : string
}.
End Instances.

Module Storage.
Record t : Type := Make {
  tidbEbsType : string;
  tidbEbsSize : num;
  tikvUseInstanceStore : bool;
  tikvAdditionalEbsType : string;
  tikvAdditionalEbsSize : num;
  pdEbsType : string;
  pdEbsSize : num;
  tiflashEbsType : string;
  tiflashEbsSize : num
}.
End Storage.

Module Operational.
Record t : Type := Make {
  backupToS3 : bool;
  backupSizeGB : num;
  networkTrafficGB : num;
  eksClusterCost : num;
  eksMonitoringCost : num;
  migrationCost : num;
  operationalFTE : num
}.
End Operational.

(** An entry of [comparisonData.history].  The five [...Change] properties
    are template literals [`${a} → ${b}`] in the source; the model keeps
    the two interpolated values.  [id] is an array length. *)
Module Entry.
Record t : Type := Make {
  id : nat;
  from : string;
  to : string;
  vcpuChange : num * num;
  memoryChange : num * num;
  tidbNodesChange : num * num;
  tikvNodesChange : num * num;
  instanceTypeChange : string * string;
  tidbNodes : num;
  tikvNodes : num;
  tidbInstanceType : string;
  monthlyCost : num
}.
End Entry.

Module ComparisonData.
Record t : Type := Make {
  previousInstanceType : string;
  history : list Entry.t;
  costBreakdown : list (string * num)
}.
End ComparisonData.

Record State : Type := MkState {
  postgres : Postgres.t;
  workload : Workload.t;
  tidbCluster : TidbCluster.t;
  instances : Instances.t;
  storage : Storage.t;
  operational : Operational.t;
  comparisonData : ComparisonData.t
}.

(** The initial values passed to [useState]. *)
Definition initialState : State :=
  {| postgres := Postgres.Make "db.r5.2xlarge" (ofZ 2) (ofZ 1000) (ofZ 3000)
       (ofZ 5000) (ofZ 1000) (ofZ 2208 * ofZ 2) true (ofZ 1);
     workload := Workload.Make "80/20" "OLTP" (ofZ 10) (ofZ 200) true (ofZ 3);
     tidbCluster := TidbCluster.Make (ofZ 3) (ofZ 3) (ofZ 3) (ofZ 0) false
       (ofZ 1) (ofZ 6) (ofZ 3) (ofZ 3);
     instances := Instances.Make "c5.4xlarge" "i3.4xlarge" "m5.4xlarge"
       "i3.8xlarge" "c5.2xlarge";
     storage := Storage.Make "gp3" (ofZ 100) true "gp3" (ofZ 0) "gp3"
       (ofZ 100) "gp3" (ofZ 1000);
     operational := Operational.Make true (ofZ 1000) (ofZ 5000) (ofZ 73)
       (ofZ 200) (ofZ 5000) (dec 5 10);
     comparisonData := ComparisonData.Make "db.r5.2xlarge" [] [] |}.

(** ** The auto-calculation effect (Topology Deriver and Change-History
       Recorder)

    Each [const] of the effect body is a function of the state [s] of the
    render whose closure the effect runs in. *)

Local Open Scope num_scope.

Definition postgresVcpu (s : State) : num :=
  orElse (field postgresInstanceTypes (Postgres.instanceType (postgres s)) Spec.vCPU) (ofZ 8).
Definition postgresMemory (s : State) : num :=
  orElse (field postgresInstanceTypes (Postgres.instanceType (postgres s)) Spec.memory) (ofZ 32).
Definition totalPostgresVcpu (s : State) : num :=
  postgresVcpu s * Postgres.instanceCount (postgres s).
Definition totalPostgresMemory (s : State) : num :=
  postgresMemory s * Postgres.instanceCount (postgres s).

Definition readReplicaVcpu (s : State) : num :=
  totalPostgresVcpu s
  * (Postgres.readReplicas (postgres s) / Postgres.instanceCount (postgres s)).
Definition effectivePostgresVcpu (s : State) : num :=
  totalPostgresVcpu s + readReplicaVcpu s.

Definition vcpuPerTidbNode (s : State) : num :=
  orElse (field ec2InstanceTypes (Instances.tidbInstanceType (instances s)) Spec.vCPU) (ofZ 16).
Definition suggestedTidbNodesFromCpu (s : State) : num :=
  max (ofZ 3) (ceil (effectivePostgresVcpu s / vcpuPerTidbNode s)).
Definition suggestedTidbNodesFromConn (s : State) : num :=
  max (ofZ 3) (ceil (Workload.concurrentConnections (workload s) / ofZ 500)).
Definition baseTidbNodes (s : State) : num :=
  max (suggestedTidbNodesFromCpu s) (suggestedTidbNodesFromConn s).

Definition compressionRatio : num := dec 4 10.
Definition storageUsageRatio : num := dec 8 10.
Definition defaultNodeCapacity : num := ofZ 4000.
Definition suggestedTikvNodesForStorage (s : State) : num :=
  ceil ((Postgres.storageGB (postgres s) * compressionRatio
         * TidbCluster.dataReplicationFactor (tidbCluster s))
        / (storageUsageRatio * defaultNodeCapacity * ofZ 3))
  * ofZ 3.

Definition writesPerTikvNode : num := ofZ 5000.
Definition suggestedTikvNodesFromWrites (s : State) : num :=
  max (ofZ 3)
      (ceil (Postgres.writeOps (postgres s) / writesPerTikvNode / ofZ 3) * ofZ 3).
Definition suggestedTikvNodes (s : State) : num :=
  max (ofZ 3) (max (suggestedTikvNodesForStorage s) (suggestedTikvNodesFromWrites s)).

(** [String.prototype.startsWith] is [String.prefix]. *)
Definition writeHeavyFactorOf (readWriteRatio : string) : num :=
  if String.prefix "50" readWriteRatio then dec 15 10
  else if String.prefix "30" readWriteRatio then ofZ 2
  else ofZ 1.
Definition writeHeavyFactor (s : State) : num :=
  writeHeavyFactorOf (Workload.readWriteRatio (workload s)).

Definition useTiflash (s : State) : bool :=
  String.eqb (Workload.type (workload s)) "OLAP"
  || String.eqb (Workload.type (workload s)) "Mixed".
Definition tiflashReplicas (s : State) : num :=
  if useTiflash s then ofZ 2 else ofZ 0.
Definition suggestedTiflashNodes (s : State) : num :=
  if useTiflash s then
    max (ofZ 2)
        (ceil ((Postgres.storageGB (postgres s) * compressionRatio * tiflashReplicas s)
               / (TidbCluster.dataReplicationFactor (tidbCluster s)
                  * storageUsageRatio * defaultNodeCapacity)))
  else ofZ 0.

Definition spikeFactor (s : State) : num :=
  if Workload.trafficSpikes (workload s)
  then min (ofZ 2) (Workload.peakRatio (workload s) / ofZ 2)
  else ofZ 1.

Definition componentsPerWorker : num := dec 15 10.
Definition totalComponents (s : State) : num :=
  ceil (baseTidbNodes s * spikeFactor s)
  + ceil (suggestedTikvNodes s * writeHeavyFactor s)
  + TidbCluster.pdNodes (tidbCluster s)
  + suggestedTiflashNodes s
  + ofZ 1.
Definition suggestedWorkerNodes (s : State) : num :=
  max (ofZ 6) (ceil (totalComponents s / componentsPerWorker)).

(** The updater passed to [setTidbCluster]. *)
Definition updateTidbCluster (s : State) (prev : TidbCluster.t) : TidbCluster.t :=
  {| TidbCluster.tidbNodes := ceil (baseTidbNodes s * spikeFactor s);
     TidbCluster.tikvNodes := ceil (suggestedTikvNodes s * writeHeavyFactor s);
     TidbCluster.pdNodes := TidbCluster.pdNodes prev;
     TidbCluster.tiflashNodes := suggestedTiflashNodes s;
     TidbCluster.useTiflash := useTiflash s;
     TidbCluster.eksClusterCount := TidbCluster.eksClusterCount prev;
     TidbCluster.k8sWorkerNodes := suggestedWorkerNodes s;
     TidbCluster.availabilityZones := TidbCluster.availabilityZones prev;
     TidbCluster.dataReplicationFactor := TidbCluster.dataReplicationFactor prev |}.

(** The SQL-tier instance class chosen from the source memory; the source
    writes this conditional out three times (the [if] chain around
    [setInstances] and twice inside the history entry). *)
Definition suggestedTidbInstanceType (s : State) : string :=
  if geb (postgresMemory s) (ofZ 128) then "r5.4xlarge"
  else if geb (postgresMemory s) (ofZ 64) then "r5.2xlarge"
  else "c5.4xlarge".

(** The updater passed to [setInstances], whichever branch is taken. *)
Definition updateInstances (s : State) (prev : Instances.t) : Instances.t :=
  {| Instances.tidbInstanceType := suggestedTidbInstanceType s;
     Instances.tikvInstanceType := Instances.tikvInstanceType prev;
     Instances.pdInstanceType := Instances.pdInstanceType prev;
     Instances.tiflashInstanceType := Instances.tiflashInstanceType prev;
     Instances.monitoringInstanceType := Instances.monitoringInstanceType prev |}.

(** *** Recording a change of the source instance class *)

Module Recorder.

Definition prevType (s : State) : string :=
  ComparisonData.previousInstanceType (comparisonData s).
Definition prevVcpu (s : State) : num :=
  orElse (field postgresInstanceTypes (prevType s) Spec.vCPU) (ofZ 0).
Definition prevMem (s : State) : num :=
  orElse (field postgresInstanceTypes (prevType s) Spec.memory) (ofZ 0).
Definition newVcpu (s : State) : num :=
  orElse (field postgresInstanceTypes (Postgres.instanceType (postgres s)) Spec.vCPU) (ofZ 0).
Definition newMem (s : State) : num :=
  orElse (field postgresInstanceTypes (Postgres.instanceType (postgres s)) Spec.memory) (ofZ 0).

(** The instance costs read inside the updater come from [instances] of
    the closure, that is, from before [setInstances] takes effect. *)
Definition tidbInstanceCost (s : State) : num :=
  orElse (field ec2InstanceTypes (Instances.tidbInstanceType (instances s)) Spec.monthlyCost) (ofZ 493).
Definition tikvInstanceCost (s : State) : num :=
  orElse (field ec2InstanceTypes (Instances.tikvInstanceType (instances s)) Spec.monthlyCost) (ofZ 998).
Definition pdInstanceCost (s : State) : num :=
  orElse (field ec2InstanceTypes (Instances.pdInstanceType (instances s)) Spec.monthlyCost) (ofZ 278).
Definition tiflashInstanceCost (s : State) : num :=
  orElse (field ec2InstanceTypes (Instances.tiflashInstanceType (instances s)) Spec.monthlyCost) (ofZ 1995).
Definition monitoringInstanceCost (s : State) : num :=
  orElse (field ec2InstanceTypes (Instances.monitoringInstanceType (instances s)) Spec.monthlyCost) (ofZ 246).

Definition totalInstanceCost (s : State) : num :=
  tidbInstanceCost s * ceil (baseTidbNodes s * spikeFactor s)
  + tikvInstanceCost s * ceil (suggestedTikvNodes s * writeHeavyFactor s)
  + pdInstanceCost s * TidbCluster.pdNodes (tidbCluster s)
  + tiflashInstanceCost s * suggestedTiflashNodes s
  + monitoringInstanceCost s.

(** [newHistory] before the push: a copy of the log, with its first entry
    removed ([shift]) when it holds 10 entries or more. *)
Definition newHistory (history : list Entry.t) : list Entry.t :=
  if decide (10 <= length history)%nat then drop 1 history else history.

(** [prev.history.length > 0 ? prev.history[prev.history.length-1].f : d] *)
Definition lastOr {A : Type} (history : list Entry.t) (f : Entry.t -> A) (d : A) : A :=
  match last history with
  | Some e => f e
  | None => d
  end.

(** The object pushed onto [newHistory]. *)
Definition entry (s : State) (prev : ComparisonData.t) : Entry.t :=
  {| Entry.id := length (newHistory (ComparisonData.history prev));
     Entry.from := prevType s;
     Entry.to := Postgres.instanceType (postgres s);
     Entry.vcpuChange := (prevVcpu s, newVcpu s);
     Entry.memoryChange := (prevMem s, newMem s);
     Entry.tidbNodesChange :=
       (lastOr (ComparisonData.history prev) Entry.tidbNodes (ofZ 3),
        ceil (baseTidbNodes s * spikeFactor s));
     Entry.tikvNodesChange :=
       (lastOr (ComparisonData.history prev) Entry.tikvNodes (ofZ 3),
        ceil (suggestedTikvNodes s * writeHeavyFactor s));
     Entry.instanceTypeChange :=
       (lastOr (ComparisonData.history prev) Entry.tidbInstanceType "c5.4xlarge",
        suggestedTidbInstanceType s);
     Entry.tidbNodes := ceil (baseTidbNodes s * spikeFactor s);
     Entry.tikvNodes := ceil (suggestedTikvNodes s * writeHeavyFactor s);
     Entry.tidbInstanceType := suggestedTidbInstanceType s;
     Entry.monthlyCost := totalInstanceCost s |}.

(** The updater passed to [setComparisonData]. *)
Definition record (s : State) (prev : ComparisonData.t) : ComparisonData.t :=
  {| ComparisonData.previousInstanceType := Postgres.instanceType (postgres s);
     ComparisonData.history := newHistory (ComparisonData.history prev) ++ [entry s prev];
     ComparisonData.costBreakdown := ComparisonData.costBreakdown prev |}.

(** [postgres.instanceType !== comparisonData.previousInstanceType] *)
Definition changed (s : State) : bool :=
  negb (String.eqb (Postgres.instanceType (postgres s)) (prevType s)).

End Recorder.

(** One run of the effect.  No other update is pending when it runs, so
    the [prev] each updater receives is the state of the closure. *)
Definition recompute (s : State) : State :=
  {| postgres := postgres s;
     workload := workload s;
     tidbCluster := updateTidbCluster s (tidbCluster s);
     instances := updateInstances s (instances s);
     storage := storage s;
     operational := operational s;
     comparisonData :=
       if Recorder.changed s
       then Recorder.record s (comparisonData s)
       else comparisonData s |}.

(** ** Cost model (the constants computed in the render body) *)

(** [ebsVolumeTypes[type] || ebsVolumeTypes.gp3].  An entry of the table is
    itself; a name the table does not know gives [undefined] and so the gp3
    entry; an inherited name gives a truthy function or object, which is
    kept and has none of the price properties: [None]. *)
Definition ebsTypeOf (type : string) : option Ebs.t :=
  match ebsVolumeTypes !! type with
  | Some e => Some e
  | None => if inherited type then None else Some gp3
  end.

(** [calculateEbsCost(type, sizeGB, iops = 3000, throughput = 125)]. *)
Definition calculateEbsCost (type : string) (sizeGB iops throughput : num) : num :=
  if strictEq sizeGB (ofZ 0) then ofZ 0
  else
    let ebsType := ebsTypeOf type in
    let cost := sizeGB * toNumber (Ebs.basePrice <$> ebsType) in
    let cost :=
      if String.eqb type "gp3" && gtb iops (ofZ 3000)
      then cost + (iops - ofZ 3000) * toNumber (ebsType ≫= Ebs.iopsPrice)
      else cost in
    let cost :=
      if String.eqb type "gp3" && gtb throughput (ofZ 125)
      then cost + (throughput - ofZ 125) * toNumber (ebsType ≫= Ebs.throughputPrice)
      else cost in
    let cost :=
      if (String.eqb type "io1" || String.eqb type "io2") && truthy iops
      then cost + iops * toNumber (ebsType ≫= Ebs.iopsPrice)
      else cost in
    cost.

(** The two-argument calls of the render body take the default [iops] and
    [throughput]. *)
Definition ebsCost (type : string) (sizeGB : num) : num :=
  calculateEbsCost type sizeGB (ofZ 3000) (ofZ 125).

Module Cost.

Definition tidbInstanceCost (s : State) : num :=
  orElse (field ec2InstanceTypes (Instances.tidbInstanceType (instances s)) Spec.monthlyCost) (ofZ 493).
Definition tikvInstanceCost (s : State) : num :=
  orElse (field ec2InstanceTypes (Instances.tikvInstanceType (instances s)) Spec.monthlyCost) (ofZ 998).
Definition pdInstanceCost (s : State) : num :=
  orElse (field ec2InstanceTypes (Instances.pdInstanceType (instances s)) Spec.monthlyCost) (ofZ 278).
Definition tiflashInstanceCost (s : State) : num :=
  orElse (field ec2InstanceTypes (Instances.tiflashInstanceType (instances s)) Spec.monthlyCost) (ofZ 1995).
Definition monitoringInstanceCost (s : State) : num :=
  orElse (field ec2InstanceTypes (Instances.monitoringInstanceType (instances s)) Spec.monthlyCost) (ofZ 246).

Definition totalInstanceCost (s : State) : num :=
  tidbInstanceCost s * TidbCluster.tidbNodes (tidbCluster s)
  + tikvInstanceCost s * TidbCluster.tikvNodes (tidbCluster s)
  + pdInstanceCost s * TidbCluster.pdNodes (tidbCluster s)
  + tiflashInstanceCost s * TidbCluster.tiflashNodes (tidbCluster s)
  + monitoringInstanceCost s.

Definition tidbStorageCost (s : State) : num :=
  ebsCost (Storage.tidbEbsType (storage s)) (Storage.tidbEbsSize (storage s))
  * TidbCluster.tidbNodes (tidbCluster s).
Definition tikvAdditionalStorageCost (s : State) : num :=
  ebsCost (Storage.tikvAdditionalEbsType (storage s)) (Storage.tikvAdditionalEbsSize (storage s))
  * TidbCluster.tikvNodes (tidbCluster s).
Definition pdStorageCost (s : State) : num :=
  ebsCost (Storage.pdEbsType (storage s)) (Storage.pdEbsSize (storage s))
  * TidbCluster.pdNodes (tidbCluster s).
Definition tiflashStorageCost (s : State) : num :=
  ebsCost (Storage.tiflashEbsType (storage s)) (Storage.tiflashEbsSize (storage s))
  * TidbCluster.tiflashNodes (tidbCluster s).
(** [tikvUsingInstanceStore] and [tikvInstanceStorageSize] enter no cost
    and are left out. *)
Definition totalStorageCost (s : State) : num :=
  tidbStorageCost s + tikvAdditionalStorageCost s + pdStorageCost s + tiflashStorageCost s.

Definition s3BackupCost (s : State) : num :=
  if Operational.backupToS3 (operational s)
  then Operational.backupSizeGB (operational s) * dec 23 1000
  else ofZ 0.
Definition networkCost (s : State) : num :=
  Operational.networkTrafficGB (operational s) * dec 1 100.

Definition eksClusterCost (s : State) : num :=
  TidbCluster.eksClusterCount (tidbCluster s) * Operational.eksClusterCost (operational s).
Definition eksMonitoringCost (s : State) : num :=
  Operational.eksMonitoringCost (operational s).
Definition totalKubernetesCost (s : State) : num :=
  eksClusterCost s + eksMonitoringCost s.

Definition totalMonthlyCost (s : State) : num :=
  totalInstanceCost s + totalStorageCost s + s3BackupCost s + networkCost s
  + totalKubernetesCost s.

Definition oneTimeCosts (s : State) : num :=
  Operational.migrationCost (operational s).

Definition postgresMonthlyCost (s : State) : num :=
  Postgres.monthlyCost (postgres s).
Definition monthlySavings (s : State) : num :=
  postgresMonthlyCost s - totalMonthlyCost s.
Definition savingsPercentage (s : State) : num :=
  if gtb (postgresMonthlyCost s) (ofZ 0)
  then (monthlySavings s / postgresMonthlyCost s) * ofZ 100
  else ofZ 0.
Definition paybackPeriodMonths (s : State) : num :=
  if gtb (monthlySavings s) (ofZ 0)
  then oneTimeCosts s / monthlySavings s
  else Infinity.

(** The text inside the payback card:
    [isFinite(p) ? `${p.toFixed(1)} months` : 'N/A'], the numeric text kept
    as the number it renders.  The card itself is rendered under a guard
    on the savings, which is [paybackCard] below; this is the ternary
    alone, and on its own it is not what the page shows. *)
Inductive paybackText : Type :=
| Months (p : num)
| NA.
Definition paybackDisplay (s : State) : paybackText :=
  if isFinite (paybackPeriodMonths s) then Months (paybackPeriodMonths s) else NA.

(** The array built by the cost-breakdown effect. *)
Definition costBreakdownData (s : State) : list (string * num) :=
  [ ("TiDB Nodes", tidbInstanceCost s * TidbCluster.tidbNodes (tidbCluster s));
    ("TiKV Nodes", tikvInstanceCost s * TidbCluster.tikvNodes (tidbCluster s));
    ("PD Nodes", pdInstanceCost s * TidbCluster.pdNodes (tidbCluster s));
    ("TiFlash Nodes", tiflashInstanceCost s * TidbCluster.tiflashNodes (tidbCluster s));
    ("Monitoring", monitoringInstanceCost s);
    ("Storage", totalStorageCost s);
    ("S3 Backup", s3BackupCost s);
    ("Network", networkCost s);
    ("Kubernetes", totalKubernetesCost s) ].

End Cost.

(** The cost-breakdown effect: stores the array in [comparisonData]. *)
Definition updateCostBreakdown (s : State) : State :=
  {| postgres := postgres s;
     workload := workload s;
     tidbCluster := tidbCluster s;
     instances := instances s;
     storage := storage s;
     operational := operational s;
     comparisonData :=
       {| ComparisonData.previousInstanceType :=
            ComparisonData.previousInstanceType (comparisonData s);
          ComparisonData.history := ComparisonData.history (comparisonData s);
          ComparisonData.costBreakdown := Cost.costBreakdownData s |} |}.

(** Sum of the [value]s of a breakdown, left to right from zero. *)
Definition sumValues (breakdown : list (string * num)) : num :=
  fold_left (fun acc item => acc + item.2) breakdown (ofZ 0).

(** ** Callers of the engine *)

(** The [instanceType] branch of [handlePostgresChange]: the new class is
    stored and the source monthly cost is reset from the catalog. *)
Definition selectInstanceType (value : string) (s : State) : State :=
  let prev := postgres s in
  let instanceCost := orElse (field postgresInstanceTypes value Spec.monthlyCost) (ofZ 0) in
  {| postgres :=
       {| Postgres.instanceType := value;
          Postgres.instanceCount := Postgres.instanceCount prev;
          Postgres.storageGB := Postgres.storageGB prev;
          Postgres.iops := Postgres.iops prev;
          Postgres.readOps := Postgres.readOps prev;
          Postgres.writeOps := Postgres.writeOps prev;
          Postgres.monthlyCost :=
            instanceCost * Postgres.instanceCount prev
              * (if Postgres.multiAZ prev then ofZ 2 else ofZ 1)
            + instanceCost * Postgres.readReplicas prev;
          Postgres.multiAZ := Postgres.multiAZ prev;
          Postgres.readReplicas := Postgres.readReplicas prev |};
     workload := workload s;
     tidbCluster := tidbCluster s;
     instances := instances s;
     storage := storage s;
     operational := operational s;
     comparisonData := comparisonData s |}.

(** Selecting a series of source instance classes, the effect running
    after each selection. *)
Definition selectEach (values : list string) (s : State) : State :=
  fold_left (fun s value => recompute (selectInstanceType value s)) values s.

(** Any edit of the inputs: the caller replaces every record but
    [comparisonData], which only the effects write. *)
Definition edit (u s : State) : State :=
  {| postgres := postgres u;
     workload := workload u;
     tidbCluster := tidbCluster u;
     instances := instances u;
     storage := storage u;
     operational := operational u;
     comparisonData := comparisonData s |}.

Definition step (s u : State) : State := recompute (edit u s).

(** A sequence of edits, the effect running after each. *)
Definition run (s : State) (us : list State) : State := fold_left step us s.

(** The source instance classes of a sequence of edits, as transitions
    from the class [c] in place before the first edit. *)
Fixpoint transitions (c : string) (us : list State) : list (string * string) :=
  match us with
  | [] => []
  | u :: us' =>
      (c, Postgres.instanceType (postgres u))
        :: transitions (Postgres.instanceType (postgres u)) us'
  end.

(** Every edit of the sequence selects a class other than the one in place. *)
Fixpoint allChange (c : string) (us : list State) : bool :=
  match us with
  | [] => true
  | u :: us' =>
      negb (String.eqb (Postgres.instanceType (postgres u)) c)
      && allChange (Postgres.instanceType (postgres u)) us'
  end.

Definition fromTo (e : Entry.t) : string * string := (Entry.from e, Entry.to e).

Definition history (s : State) : list Entry.t :=
  ComparisonData.history (comparisonData s).

(** ** Valid inputs *)

(** [a] is a finite number not below [q]. *)
Definition atLeast (q : Q) (a : num) : Prop :=
  exists x, a = Fin x /\ (q <= x)%Q.

(** The ranges the data model gives for what the derivation reads. *)
Record validInputs (s : State) : Prop := MkValid {
  valid_instanceCount : atLeast 1 (Postgres.instanceCount (postgres s));
  valid_readReplicas : atLeast 0 (Postgres.readReplicas (postgres s));
  valid_storageGB : atLeast 0 (Postgres.storageGB (postgres s));
  valid_writeOps : atLeast 0 (Postgres.writeOps (postgres s));
  valid_connections : atLeast 1 (Workload.concurrentConnections (workload s));
  valid_peakRatio : atLeast 1 (Workload.peakRatio (workload s));
  valid_replication : atLeast 3 (TidbCluster.dataReplicationFactor (tidbCluster s));
  valid_pdNodes : atLeast 3 (TidbCluster.pdNodes (tidbCluster s))
}.

(** ** Example states *)

Definition withWorkload (w : Workload.t) (s : State) : State :=
  MkState (postgres s) w (tidbCluster s) (instances s) (storage s)
    (operational s) (comparisonData s).
Definition withPostgres (p : Postgres.t) (s : State) : State :=
  MkState p (workload s) (tidbCluster s) (instances s) (storage s)
    (operational s) (comparisonData s).

(** The initial state with the peak-to-normal ratio set to 1. *)
Definition flatPeakState : State :=
  withWorkload (Workload.Make "80/20" "OLTP" (ofZ 10) (ofZ 200) true (ofZ 1))
    initialState.

(** The initial state with four primary instances (and the source monthly
    cost the form computes for them). *)
Definition fourPrimariesState : State :=
  withPostgres (Postgres.Make "db.r5.2xlarge" (ofZ 4) (ofZ 1000) (ofZ 3000)
    (ofZ 5000) (ofZ 1000) (ofZ 19872) true (ofZ 1)) initialState.

(** Eleven selections alternating between two source classes. *)
Definition elevenSelections : list string :=
  [ "db.m5.large"; "db.r5.2xlarge"; "db.m5.large"; "db.r5.2xlarge";
    "db.m5.large"; "db.r5.2xlarge"; "db.m5.large"; "db.r5.2xlarge";
    "db.m5.large"; "db.r5.2xlarge"; "db.m5.large" ].

(** The four read/write ratios the form offers. *)
Definition enumeratedRatios : list string := ["90/10"; "80/20"; "50/50"; "30/70"].

(** The multiplier as an exact match on the enumerated ratios: 1.5 exactly for "50/50", 2 exactly for
    "30/70", and 1 for every string outside the enumerated set. *)
Definition exactMatchMultiplier : Prop :=
  forall r : string,
    (writeHeavyFactorOf r ≃ dec 15 10 <-> r = "50/50")
    /\ (writeHeavyFactorOf r ≃ ofZ 2 <-> r = "30/70")
    /\ (r ∉ enumeratedRatios -> writeHeavyFactorOf r ≃ ofZ 1).

(** The initial state with the source monthly cost set to 0. *)
Definition zeroCostState : State :=
  withPostgres (Postgres.Make "db.r5.2xlarge" (ofZ 2) (ofZ 1000) (ofZ 3000)
    (ofZ 5000) (ofZ 1000) (ofZ 0) true (ofZ 1)) initialState.

(** The scenario of the specification: an 8 vCPU / 32 GB source class, two
    primaries, one read replica, 200 connections, spikes with ratio 3, and
    the 16 vCPU class on the SQL tier. *)
Definition scenarioState : State :=
  withPostgres (Postgres.Make "db.m5.2xlarge" (ofZ 2) (ofZ 1000) (ofZ 3000)
    (ofZ 5000) (ofZ 1000) (ofZ 4370) true (ofZ 1)) initialState.

(** [a] is a rational number. *)
Definition finite (a : num) : Prop := exists x, a = Fin x.

(** The three numeric properties every catalog entry has are rationals. *)
Definition finiteSpec (e : Spec.t) : bool :=
  isFinite (Spec.vCPU e) && isFinite (Spec.memory e) && isFinite (Spec.monthlyCost e).

(** The initial state with a source class and an SQL-tier class that the
    catalogs do not list. *)
Definition unknownKeysState : State :=
  MkState
    (Postgres.Make "db.x9.mystery" (ofZ 2) (ofZ 1000) (ofZ 3000)
       (ofZ 5000) (ofZ 1000) (ofZ 0) true (ofZ 1))
    (workload initialState) (tidbCluster initialState)
    (Instances.Make "z1.unlisted" "i3.4xlarge" "m5.4xlarge" "i3.8xlarge" "c5.2xlarge")
    (storage initialState) (operational initialState)
    (ComparisonData.Make "db.x9.mystery" [] []).

(** The last ten elements of a list. *)
Definition lastTen {A : Type} (l : list A) : list A := drop (length l - 10) l.

(** The eleven selections as edits of the initial state. *)
Definition elevenEdits : list State :=
  map (fun value => selectInstanceType value initialState) elevenSelections.

(** The initial state after the smallest source class has been selected. *)
Definition smallSourceState : State := selectInstanceType "db.m5.large" initialState.

(** ** The other branches of [handlePostgresChange] *)

(** A change event of the source form, by the [type] of its input: the
    number inputs (whose [value] the handler converts with [Number]), the
    check box, and the select list. *)
Inductive event : Type :=
| NumberInput (name : string) (value : num)
| CheckboxInput (name : string) (checked : bool)
| SelectInput (name : string) (value : string).

(** The inputs the form has: one select list, seven number inputs and one
    check box. *)
Definition numberInputs : list string :=
  ["instanceCount"; "storageGB"; "iops"; "readOps"; "writeOps"; "monthlyCost";
   "readReplicas"].
Definition formEvent (e : event) : Prop :=
  match e with
  | NumberInput name _ => name ∈ numberInputs
  | CheckboxInput name _ => name = "multiAZ"
  | SelectInput name _ => name = "instanceType"
  end.

(** [{...prev, [name]: value}] for a number input of the form. *)
Definition setPostgresNumber (name : string) (value : num) (prev : Postgres.t) : Postgres.t :=
  let upd (field : string) (old : num) := if String.eqb name field then value else old in
  {| Postgres.instanceType := Postgres.instanceType prev;
     Postgres.instanceCount := upd "instanceCount" (Postgres.instanceCount prev);
     Postgres.storageGB := upd "storageGB" (Postgres.storageGB prev);
     Postgres.iops := upd "iops" (Postgres.iops prev);
     Postgres.readOps := upd "readOps" (Postgres.readOps prev);
     Postgres.writeOps := upd "writeOps" (Postgres.writeOps prev);
     Postgres.monthlyCost := upd "monthlyCost" (Postgres.monthlyCost prev);
     Postgres.multiAZ := Postgres.multiAZ prev;
     Postgres.readReplicas := upd "readReplicas" (Postgres.readReplicas prev) |}.

Definition setPostgresMonthlyCost (cost : num) (prev : Postgres.t) : Postgres.t :=
  {| Postgres.instanceType := Postgres.instanceType prev;
     Postgres.instanceCount := Postgres.instanceCount prev;
     Postgres.storageGB := Postgres.storageGB prev;
     Postgres.iops := Postgres.iops prev;
     Postgres.readOps := Postgres.readOps prev;
     Postgres.writeOps := Postgres.writeOps prev;
     Postgres.monthlyCost := cost;
     Postgres.multiAZ := Postgres.multiAZ prev;
     Postgres.readReplicas := Postgres.readReplicas prev |}.

Definition setPostgresMultiAZ (checked : bool) (prev : Postgres.t) : Postgres.t :=
  {| Postgres.instanceType := Postgres.instanceType prev;
     Postgres.instanceCount := Postgres.instanceCount prev;
     Postgres.storageGB := Postgres.storageGB prev;
     Postgres.iops := Postgres.iops prev;
     Postgres.readOps := Postgres.readOps prev;
     Postgres.writeOps := Postgres.writeOps prev;
     Postgres.monthlyCost := Postgres.monthlyCost prev;
     Postgres.multiAZ := checked;
     Postgres.readReplicas := Postgres.readReplicas prev |}.

(** [handlePostgresChange] on the events of the form.  In the second
    branch the cost is computed from [postgres] of the closure, which is
    the [prev] of the updater. *)
Definition handlePostgresChange (e : event) (s : State) : State :=
  match e with
  | SelectInput _ value => selectInstanceType value s
  | NumberInput name value =>
      if String.eqb name "instanceCount" || String.eqb name "readReplicas" then
        let instanceCost :=
          orElse (field postgresInstanceTypes (Postgres.instanceType (postgres s))
                    Spec.monthlyCost) (ofZ 0) in
        let newInstanceCount :=
          if String.eqb name "instanceCount" then value
          else Postgres.instanceCount (postgres s) in
        let newMultiAZ := Postgres.multiAZ (postgres s) in
        let newReadReplicas :=
          if String.eqb name "readReplicas" then value
          else Postgres.readReplicas (postgres s) in
        withPostgres
          (setPostgresMonthlyCost
             (instanceCost * newInstanceCount * (if newMultiAZ then ofZ 2 else ofZ 1)
              + instanceCost * newReadReplicas)
             (setPostgresNumber name value (postgres s))) s
      else withPostgres (setPostgresNumber name value (postgres s)) s
  | CheckboxInput _ checked =>
      let instanceCost :=
        orElse (field postgresInstanceTypes (Postgres.instanceType (postgres s))
                  Spec.monthlyCost) (ofZ 0) in
      let newInstanceCount := Postgres.instanceCount (postgres s) in
      let newMultiAZ := checked in
      let newReadReplicas := Postgres.readReplicas (postgres s) in
      withPostgres
        (setPostgresMonthlyCost
           (instanceCost * newInstanceCount * (if newMultiAZ then ofZ 2 else ofZ 1)
            + instanceCost * newReadReplicas)
           (setPostgresMultiAZ checked (postgres s))) s
  end.

(** The catalog price of a source deployment: the class price for every
    primary, doubled under multi-AZ, plus the class price per replica. *)
Definition catalogPrice (p : Postgres.t) : num :=
  let instanceCost :=
    orElse (field postgresInstanceTypes (Postgres.instanceType p) Spec.monthlyCost) (ofZ 0) in
  instanceCost * Postgres.instanceCount p * (if Postgres.multiAZ p then ofZ 2 else ofZ 1)
  + instanceCost * Postgres.readReplicas p.

(** ** Impact analysis and comparison tables *)

(** [table[key].field] without optional chaining.  Where [table[key]] is
    [undefined] the read throws a TypeError, which is [None] here and
    propagates through the option monad.  At an inherited name
    [table[key]] is a function or object without the property: the read
    gives [undefined] and throws nothing.  Every use below either takes
    the value as a number (a product, a comparison with a number), where
    [undefined] is [NaN], or is reached with listed keys only (the rows of
    the impact table, built from [Object.keys]). *)
Definition strictField (table : gmap string Spec.t) (key : string)
    (f : Spec.t -> num) : option num :=
  match table !! key with
  | Some e => Some (f e)
  | None => if inherited key then Some NaN else None
  end.

(** [Object.keys(postgresInstanceTypes)]: the keys in the order of the
    object literal. *)
Definition postgresInstanceTypeKeys : list string :=
  [ "db.m5.large"; "db.m5.xlarge"; "db.m5.2xlarge"; "db.r5.large";
    "db.r5.xlarge"; "db.r5.2xlarge"; "db.r5.4xlarge" ].

(** The [if] chain on the memory of a source class that both tables use. *)
Definition recommendedInstanceType (pgMemory : num) : string :=
  if geb pgMemory (ofZ 128) then "r5.4xlarge"
  else if geb pgMemory (ofZ 64) then "r5.2xlarge"
  else "c5.4xlarge".

Module Impact.
Record t : Type := Make {
  name : string;
  vCPU : num;
  memory : num;
  tidbNodes : num;
  instanceType : string;
  tidbCost : num
}.
End Impact.

(** The callback of [instanceTypeImpactData]. *)
Definition impactRow (s : State) (type : string) : option Impact.t :=
  pgVcpu ← strictField postgresInstanceTypes type Spec.vCPU;
  pgMemory ← strictField postgresInstanceTypes type Spec.memory;
  let vcpuPerTidbNode := ofZ 16 in
  let estimatedTidbNodes :=
    max (ofZ 3) (ceil ((pgVcpu * Postgres.instanceCount (postgres s)) / vcpuPerTidbNode)) in
  let recommended := recommendedInstanceType pgMemory in
  price ← strictField ec2InstanceTypes recommended Spec.monthlyCost;
  let tidbCost := price * estimatedTidbNodes in
  Some {| Impact.name := type;
          Impact.vCPU := pgVcpu;
          Impact.memory := pgMemory;
          Impact.tidbNodes := estimatedTidbNodes;
          Impact.instanceType := recommended;
          Impact.tidbCost := tidbCost |}.

Definition instanceTypeImpactData (s : State) : option (list Impact.t) :=
  mapM (impactRow s) postgresInstanceTypeKeys.

Module PgConfig.
Record t : Type := Make {
  name : string;
  instanceType : string;
  cpu : num;
  memory : num;
  monthlyCost : num
}.
End PgConfig.

(** One element of the [pgConfigs] literal. *)
Definition pgConfig (name type : string) : option PgConfig.t :=
  cpu ← strictField postgresInstanceTypes type Spec.vCPU;
  memory ← strictField postgresInstanceTypes type Spec.memory;
  cost ← strictField postgresInstanceTypes type Spec.monthlyCost;
  Some (PgConfig.Make name type cpu memory (cost * ofZ 2)).

Definition pgConfigs : option (list PgConfig.t) :=
  mapM (fun c => pgConfig c.1 c.2)
    [ ("Small", "db.m5.large"); ("Medium", "db.r5.xlarge");
      ("Large", "db.r5.2xlarge"); ("X-Large", "db.r5.4xlarge") ].

Module Equivalent.
Record t : Type := Make {
  tidbNodes : num;
  instanceType : string;
  monthlyCost : num;
  savings : num;
  savingsPercentage : num
}.
End Equivalent.

(** [getTidbEquivalentConfig]; [monitoringInstanceCost] is the constant of
    the render body. *)
Definition getTidbEquivalentConfig (s : State) (c : PgConfig.t) : option Equivalent.t :=
  pgVcpu ← strictField postgresInstanceTypes (PgConfig.instanceType c) Spec.vCPU;
  pgMemory ← strictField postgresInstanceTypes (PgConfig.instanceType c) Spec.memory;
  let vcpuPerTidbNode := ofZ 16 in
  let estimatedTidbNodes :=
    max (ofZ 3) (ceil ((pgVcpu * ofZ 2) / vcpuPerTidbNode)) in
  let recommended := recommendedInstanceType pgMemory in
  price ← strictField ec2InstanceTypes recommended Spec.monthlyCost;
  let tidbCost := price * estimatedTidbNodes in
  tikvPrice ← strictField ec2InstanceTypes "i3.4xlarge" Spec.monthlyCost;
  let tikvCost := tikvPrice * ofZ 3 in
  pdPrice ← strictField ec2InstanceTypes "m5.2xlarge" Spec.monthlyCost;
  let pdCost := pdPrice * ofZ 3 in
  let total := tidbCost + tikvCost + pdCost + Cost.monitoringInstanceCost s in
  Some {| Equivalent.tidbNodes := estimatedTidbNodes;
          Equivalent.instanceType := recommended;
          Equivalent.monthlyCost := total;
          Equivalent.savings := PgConfig.monthlyCost c - total;
          Equivalent.savingsPercentage :=
            ((PgConfig.monthlyCost c - total) / PgConfig.monthlyCost c) * ofZ 100 |}.

Definition comparisonConfigs (s : State) : option (list (PgConfig.t * Equivalent.t)) :=
  configs ← pgConfigs;
  mapM (fun c => tidb ← getTidbEquivalentConfig s c; Some (c, tidb)) configs.

(** ** The resource mapping table and the payback card *)

(** [tikvUsingInstanceStore] as a condition, and [tikvInstanceStorageSize]. *)
Definition tikvUsingInstanceStore (s : State) : bool :=
  Storage.tikvUseInstanceStore (storage s)
  && match mjoin (Spec.nvme <$> ec2InstanceTypes !! Instances.tikvInstanceType (instances s)) with
     | Some v => truthy v
     | None => false
     end.
Definition tikvInstanceStorageSize (s : State) : num :=
  if tikvUsingInstanceStore s
  then orElse (mjoin (Spec.nvme <$> ec2InstanceTypes !! Instances.tikvInstanceType (instances s)))
              (ofZ 0)
  else ofZ 0.

(** The TiDB cells of the rows vCPU, Memory and Storage of the mapping
    table; the catalog is read with [?.] and no default. *)
Definition mappingVcpu (s : State) : num :=
  toNumber (field ec2InstanceTypes (Instances.tidbInstanceType (instances s)) Spec.vCPU)
    * TidbCluster.tidbNodes (tidbCluster s)
  + toNumber (field ec2InstanceTypes (Instances.tikvInstanceType (instances s)) Spec.vCPU)
    * TidbCluster.tikvNodes (tidbCluster s)
  + toNumber (field ec2InstanceTypes (Instances.pdInstanceType (instances s)) Spec.vCPU)
    * TidbCluster.pdNodes (tidbCluster s).
Definition mappingMemory (s : State) : num :=
  toNumber (field ec2InstanceTypes (Instances.tidbInstanceType (instances s)) Spec.memory)
    * TidbCluster.tidbNodes (tidbCluster s)
  + toNumber (field ec2InstanceTypes (Instances.tikvInstanceType (instances s)) Spec.memory)
    * TidbCluster.tikvNodes (tidbCluster s)
  + toNumber (field ec2InstanceTypes (Instances.pdInstanceType (instances s)) Spec.memory)
    * TidbCluster.pdNodes (tidbCluster s).
Definition mappingStorage (s : State) : num :=
  TidbCluster.tidbNodes (tidbCluster s) * Storage.tidbEbsSize (storage s)
  + TidbCluster.tikvNodes (tidbCluster s)
    * (tikvInstanceStorageSize s + Storage.tikvAdditionalEbsSize (storage s))
  + TidbCluster.pdNodes (tidbCluster s) * Storage.pdEbsSize (storage s)
  + TidbCluster.tiflashNodes (tidbCluster s) * Storage.tiflashEbsSize (storage s).

(** What the summary shows for the payback period.
    [{monthlySavings > 0 && (...)}] renders the card, with the text of
    [Cost.paybackDisplay] inside it, for positive savings only; otherwise
    nothing is rendered: [None]. *)
Definition paybackCard (s : State) : option Cost.paybackText :=
  if gtb (Cost.monthlySavings s) (ofZ 0) then Some (Cost.paybackDisplay s) else None.

(** ** Vocabulary of the further properties *)

(** [Math.max] and [Math.min] on rationals. *)
Definition maxQ (x y : Q) : Q := match (x ?= y)%Q with Lt => y | _ => x end.
Definition minQ (x y : Q) : Q := match (x ?= y)%Q with Gt => y | _ => x end.

(** [a] is a whole number; [a] is a whole multiple of [m]. *)
Definition integer (a : num) : Prop := exists z : Z, a ≃ ofZ z.
Definition multipleOf (m : Z) (a : num) : Prop := exists k : Z, a ≃ ofZ (m * k).

(** [a <= b] holds. *)
Definition nle (a b : num) : Prop := leb a b = true.

(** The state [s] with another number of write operations, and with
    another number of concurrent connections. *)
Definition withWriteOps (w : num) (s : State) : State :=
  withPostgres (setPostgresNumber "writeOps" w (postgres s)) s.
Definition withConnections (c : num) (s : State) : State :=
  withWorkload
    {| Workload.readWriteRatio := Workload.readWriteRatio (workload s);
       Workload.type := Workload.type (workload s);
       Workload.dataGrowthRate := Workload.dataGrowthRate (workload s);
       Workload.concurrentConnections := c;
       Workload.trafficSpikes := Workload.trafficSpikes (workload s);
       Workload.peakRatio := Workload.peakRatio (workload s) |} s.

(** Entry [e2] follows entry [e1] in the log: it starts from the class,
    the node counts and the SQL-tier class that [e1] arrived at. *)
Definition follows (e1 e2 : Entry.t) : Prop :=
  Entry.from e2 = Entry.to e1
  /\ (Entry.tidbNodesChange e2).1 = Entry.tidbNodes e1
  /\ (Entry.tikvNodesChange e2).1 = Entry.tikvNodes e1
  /\ (Entry.instanceTypeChange e2).1 = Entry.tidbInstanceType e1.

Fixpoint chained (h : list Entry.t) : Prop :=
  match h with
  | e1 :: t => match t with e2 :: _ => follows e1 e2 | [] => True end /\ chained t
  | [] => True
  end.

(** The log is a chain that ends at the recorded previous class. *)
Definition linked (s : State) : Prop :=
  chained (history s)
  /\ forall e, last (history s) = Some e -> Entry.to e = Recorder.prevType s.

(** What the recorder keeps true of the sequence numbers of a log: none
    exceeds 9, they never decrease along the log, and while the log holds
    fewer than ten entries they are below its length. *)
Definition idsKept (h : list Entry.t) : Prop :=
  length h <= 10
  /\ Forall (fun i => i <= 9) (map Entry.id h)
  /\ StronglySorted Nat.le (map Entry.id h)
  /\ (length h < 10 -> Forall (fun i => i < length h) (map Entry.id h)).

(** No entry records a transition from a class to itself. *)
Definition realChanges (h : list Entry.t) : Prop :=
  Forall (fun e => Entry.from e <> Entry.to e) h.

(** The initial state with an EBS volume type no table lists and with a
    TiKV instance class no catalog lists. *)
Definition unknownTikvState : State :=
  MkState (postgres initialState) (workload initialState) (tidbCluster initialState)
    (Instances.Make "c5.4xlarge" "q7.unlisted" "m5.4xlarge" "i3.8xlarge" "c5.2xlarge")
    (storage initialState) (operational initialState) (comparisonData initialState).

(** The initial state with every EBS volume size set to 0. *)
Definition noVolumesState : State :=
  MkState (postgres initialState) (workload initialState) (tidbCluster initialState)
    (instances initialState)
    (Storage.Make "gp3" (ofZ 0) true "io1" (ofZ 0) "gp2" (ofZ 0) "io2" (ofZ 0))
    (operational initialState) (comparisonData initialState).

(** The initial state with a source monthly cost of 20000, above the cost
    of the target cluster. *)
Definition costlySourceState : State :=
  withPostgres (setPostgresMonthlyCost (ofZ 20000) (postgres initialState)) initialState.

(** The same with a source monthly cost of 30000. *)
Definition costlierSourceState : State :=
  withPostgres (setPostgresMonthlyCost (ofZ 30000) (postgres initialState)) initialState.

(** [a] and [b] are rationals with [a <= b]. *)
Definition fle (a b : num) : Prop :=
  exists x y, a = Fin x /\ b = Fin y /\ (x <= y)%Q.

(** The initial state with no data to store and a mixed workload. *)
Definition noDataState : State :=
  MkState
    (setPostgresNumber "storageGB" (ofZ 0) (postgres initialState))
    (Workload.Make "80/20" "Mixed" (ofZ 10) (ofZ 200) true (ofZ 3))
    (tidbCluster initialState) (instances initialState) (storage initialState)
    (operational initialState) (comparisonData initialState).

(** The events that take the second or the first branch of
    [handlePostgresChange], which recompute the source monthly cost. *)
Definition repricing (e : event) : bool :=
  match e with
  | NumberInput name _ => String.eqb name "instanceCount" || String.eqb name "readReplicas"
  | CheckboxInput _ _ => true
  | SelectInput _ _ => true
  end.

(** [a] is a positive rational. *)
Definition positive (a : num) : Prop := exists q, a = Fin q /\ (0 < q)%Q.

(** The three numeric properties of a catalog entry are positive. *)
Definition positiveSpec (e : Spec.t) : Prop :=
  positive (Spec.vCPU e) /\ positive (Spec.memory e) /\ positive (Spec.monthlyCost e).

(** The three SQL-tier classes of the memory rule. *)
Definition recommendedClasses : list string := ["r5.4xlarge"; "r5.2xlarge"; "c5.4xlarge"].

(** A reference configuration with a monthly cost of 0. *)
Definition freeConfig : PgConfig.t :=
  PgConfig.Make "Free" "db.m5.large" (ofZ 2) (ofZ 8) (ofZ 0).

(** The initial state with the source class db.m5.xlarge, two primaries and
    no read replica. *)
Definition noReplicaState : State :=
  withPostgres (Postgres.Make "db.m5.xlarge" (ofZ 2) (ofZ 1000) (ofZ 3000)
    (ofZ 5000) (ofZ 1000) (ofZ 1748) true (ofZ 0)) initialState.

(** The initial state with the number of primaries set to 0. *)
Definition noPrimariesState : State :=
  withPostgres (setPostgresNumber "instanceCount" (ofZ 0) (postgres initialState))
    initialState.

(** The state [s] with the TiKV instance-store check box set to [b]. *)
Definition withInstanceStore (b : bool) (s : State) : State :=
  MkState (postgres s) (workload s) (tidbCluster s) (instances s)
    {| Storage.tidbEbsType := Storage.tidbEbsType (storage s);
       Storage.tidbEbsSize := Storage.tidbEbsSize (storage s);
       Storage.tikvUseInstanceStore := b;
       Storage.tikvAdditionalEbsType := Storage.tikvAdditionalEbsType (storage s);
       Storage.tikvAdditionalEbsSize := Storage.tikvAdditionalEbsSize (storage s);
       Storage.pdEbsType := Storage.pdEbsType (storage s);
       Storage.pdEbsSize := Storage.pdEbsSize (storage s);
       Storage.tiflashEbsType := Storage.tiflashEbsType (storage s);
       Storage.tiflashEbsSize := Storage.tiflashEbsSize (storage s) |}
    (operational s) (comparisonData s).

(** ** Bounded inputs *)

(** [a] is a finite number not above [q]. *)
Definition atMost (q : Q) (a : num) : Prop :=
  exists x, a = Fin x /\ (x <= q)%Q.

(** Upper bounds on the numbers the derivation reads: a billion for the
    counts, sizes and rates, and the data model's 5 for the replication
    factor.  They keep every intermediate result of the derivation far
    inside the range in which doubles neither overflow nor lose whole
    numbers (below 2^53).  The arithmetic of [Num] is exact and needs no
    such bound; the statements that carry [boundedInputs] are the ones
    that doubles satisfy only there. *)
Record boundedInputs (s : State) : Prop := MkBounded {
  bounded_instanceCount : atMost 1000000000 (Postgres.instanceCount (postgres s));
  bounded_readReplicas : atMost 1000000000 (Postgres.readReplicas (postgres s));
  bounded_storageGB : atMost 1000000000 (Postgres.storageGB (postgres s));
  bounded_writeOps : atMost 1000000000 (Postgres.writeOps (postgres s));
  bounded_connections : atMost 1000000000 (Workload.concurrentConnections (workload s));
  bounded_peakRatio : atMost 1000000000 (Workload.peakRatio (workload s));
  bounded_replication : atMost 5 (TidbCluster.dataReplicationFactor (tidbCluster s));
  bounded_pdNodes : atMost 1000000000 (TidbCluster.pdNodes (tidbCluster s))
}.

(** The node counts a run derives are rationals. *)
Definition wellDefinedTopology (s : State) : Prop :=
  finite (TidbCluster.tidbNodes (tidbCluster (recompute s)))
  /\ finite (TidbCluster.tikvNodes (tidbCluster (recompute s)))
  /\ finite (TidbCluster.tiflashNodes (tidbCluster (recompute s)))
  /\ finite (TidbCluster.k8sWorkerNodes (tidbCluster (recompute s))).

(** The state [unknownKeysState] with the number of primaries set to 0. *)
Definition unknownKeysNoPrimariesState : State :=
  withPostgres (setPostgresNumber "instanceCount" (ofZ 0) (postgres unknownKeysState))
    unknownKeysState.

(** The payback period reported as the text 'N/A' whenever the savings are
    not positive. *)
Definition paybackShownNotApplicable : Prop :=
  forall s : State,
    leb (Cost.monthlySavings s) (ofZ 0) = true -> paybackCard s = Some Cost.NA.

(** ** Proof automation *)

(** Closes [atLeast q a] and [atMost q a] on closed numbers. *)
Ltac solve_atLeast :=
  eexists; split; [reflexivity | vm_compute; discriminate].

(** Unfolds the constants of the effect body down to the state. *)
Ltac unfold_derivation :=
  unfold updateTidbCluster, updateInstances, suggestedTidbInstanceType,
    suggestedWorkerNodes, totalComponents, spikeFactor, suggestedTiflashNodes,
    tiflashReplicas, useTiflash, writeHeavyFactor, suggestedTikvNodes,
    suggestedTikvNodesFromWrites, suggestedTikvNodesForStorage, baseTidbNodes,
    suggestedTidbNodesFromConn, suggestedTidbNodesFromCpu, vcpuPerTidbNode,
    effectivePostgresVcpu, readReplicaVcpu, totalPostgresVcpu, postgresMemory,
    postgresVcpu.

(** ** Facts about numbers *)

Section NumFacts.

Implicit Types a b c : num.

Lemma eqv_refl a : a ≃ a.
Proof. destruct a; simpl; auto with qarith. Qed.

Lemma eqv_sym a b : a ≃ b -> b ≃ a.
Proof. destruct a, b; simpl; auto with qarith. Qed.

Lemma eqv_trans a b c : a ≃ b -> b ≃ c -> a ≃ c.
Proof.
  destruct a, b, c; simpl; try tauto.
  intros H1 H2. now rewrite H1.
Qed.

Lemma eqv_of_eq a b : a = b -> a ≃ b.
Proof. intros ->. apply eqv_refl. Qed.

Lemma add_eqv a a' b b' : a ≃ a' -> b ≃ b' -> a + b ≃ a' + b'.
Proof.
  destruct a, a', b, b'; simpl; try tauto.
  intros H1 H2. now rewrite H1, H2.
Qed.

Lemma add_0_l a : ofZ 0 + a ≃ a.
Proof. destruct a; simpl; auto. unfold ofZ. ring. Qed.

(** Arithmetic on finite operands stays in the rationals. *)
Lemma div_Fin (x y : Q) : ~ (y == 0)%Q -> Fin x / Fin y = Fin (x / y).
Proof.
  intros Hy. simpl. destruct (Qeq_bool y 0) eqn:E; [|reflexivity].
  apply Qeq_bool_iff in E. contradiction.
Qed.

Lemma cmp_Fin (x y : Q) : cmp (Fin x) (Fin y) = Some (x ?= y)%Q.
Proof. reflexivity. Qed.

(** [Math.max] of two rationals is a rational above both. *)
Lemma max_Fin_bounds (x y : Q) :
  exists z, max (Fin x) (Fin y) = Fin z /\ (x <= z)%Q /\ (y <= z)%Q.
Proof.
  unfold max. rewrite cmp_Fin.
  destruct (x ?= y)%Q eqn:E.
  - apply Qeq_alt in E. exists x.
    split; [reflexivity | split; [apply Qle_refl | rewrite E; apply Qle_refl]].
  - apply Qlt_alt in E. exists y. repeat split; [now apply Qlt_le_weak | apply Qle_refl].
  - apply Qgt_alt in E. exists x. repeat split; [apply Qle_refl | now apply Qlt_le_weak].
Qed.

(** [Math.min] of two rationals is one of them. *)
Lemma min_Fin_cases (x y : Q) :
  (min (Fin x) (Fin y) = Fin x /\ (x <= y)%Q) \/ (min (Fin x) (Fin y) = Fin y /\ (y < x)%Q).
Proof.
  unfold min. rewrite cmp_Fin.
  destruct (x ?= y)%Q eqn:E.
  - apply Qeq_alt in E. left. split; [reflexivity|]. rewrite E. apply Qle_refl.
  - apply Qlt_alt in E. left. split; [reflexivity | now apply Qlt_le_weak].
  - apply Qgt_alt in E. right. now split.
Qed.

Lemma ceil_Fin (x : Q) : ceil (Fin x) = ofZ (Qceiling x).
Proof. reflexivity. Qed.

Lemma Qceiling_ge (z : Z) (x : Q) : (inject_Z z <= x)%Q -> (z <= Qceiling x)%Z.
Proof.
  intros H. rewrite <- (Qceiling_Z z). now apply Qceiling_resp_le.
Qed.

Lemma atLeast_finite (q : Q) a : atLeast q a -> finite a.
Proof. intros (x & -> & _). now exists x. Qed.

Lemma atLeast_weaken (q q' : Q) a : (q' <= q)%Q -> atLeast q a -> atLeast q' a.
Proof.
  intros Hq (x & -> & Hx). exists x. split; [reflexivity|].
  now apply Qle_trans with q.
Qed.

Lemma atLeast_ofZ (z z' : Z) : (z' <= z)%Z -> atLeast (inject_Z z') (ofZ z).
Proof.
  intros H. exists (inject_Z z). split; [reflexivity|].
  now rewrite <- Zle_Qle.
Qed.

Lemma add_finite a b : finite a -> finite b -> finite (a + b).
Proof. intros [x ->] [y ->]. now exists (x + y)%Q. Qed.

Lemma mul_finite a b : finite a -> finite b -> finite (a * b).
Proof. intros [x ->] [y ->]. now exists (x * y)%Q. Qed.

Lemma div_finite a (y : Q) : finite a -> ~ (y == 0)%Q -> finite (a / Fin y).
Proof. intros [x ->] Hy. exists (x / y)%Q. now apply div_Fin. Qed.

Lemma div_finite_atLeast (q : Q) a b :
  (0 < q)%Q -> finite a -> atLeast q b -> finite (a / b).
Proof.
  intros Hq Ha (y & -> & Hy). apply div_finite; [exact Ha|].
  intros E. rewrite E in Hy. now apply Qle_not_lt in Hy.
Qed.

Lemma ceil_finite a : finite a -> finite (ceil a).
Proof. intros [x ->]. now exists (inject_Z (Qceiling x)). Qed.

Lemma ceil_atLeast (z : Z) a : atLeast (inject_Z z) a -> atLeast (inject_Z z) (ceil a).
Proof.
  intros (x & -> & Hx). exists (inject_Z (Qceiling x)). split; [reflexivity|].
  rewrite <- Zle_Qle. now apply Qceiling_ge.
Qed.

Lemma max_atLeast_l (q : Q) a b : atLeast q a -> finite b -> atLeast q (max a b).
Proof.
  intros (x & -> & Hx) [y ->].
  destruct (max_Fin_bounds x y) as (z & -> & Hxz & _).
  exists z. split; [reflexivity|]. now apply Qle_trans with x.
Qed.

Lemma max_atLeast_r (q : Q) a b : finite a -> atLeast q b -> atLeast q (max a b).
Proof.
  intros [x ->] (y & -> & Hy).
  destruct (max_Fin_bounds x y) as (z & -> & _ & Hyz).
  exists z. split; [reflexivity|]. now apply Qle_trans with y.
Qed.

Lemma mul_atLeast (q : Q) a b :
  (0 <= q)%Q -> atLeast q a -> atLeast 1 b -> atLeast q (a * b).
Proof.
  intros Hq (x & -> & Hx) (y & -> & Hy).
  exists (x * y)%Q. split; [reflexivity|]. nra.
Qed.

(** [v || d] is a non-zero rational when [v], if defined, is a rational
    and the default [d] is a non-zero rational. *)
Lemma orElse_nonzero (v : option num) (d : Q) :
  (forall a, v = Some a -> finite a) -> ~ (d == 0)%Q ->
  exists x, orElse v (Fin d) = Fin x /\ ~ (x == 0)%Q.
Proof.
  intros Hv Hd. destruct v as [a|]; simpl.
  - destruct (Hv a eq_refl) as [x ->]. simpl.
    destruct (Qeq_bool x 0) eqn:E; simpl.
    + now exists d.
    + exists x. split; [reflexivity|]. intros E'.
      apply Qeq_bool_iff in E'. congruence.
  - now exists d.
Qed.

End NumFacts.

(** ** Cost additivity *)

(** C5: the total monthly cost is the sum of the values of the nine entries
    of the cost breakdown built from the same state (the five compute
    entries, then storage, backup, network and Kubernetes), as numbers.
    The entries are in the order in which the source adds them up, so the
    proof only drops the leading zero and never reassociates a sum. *)
Theorem total_is_sum_of_breakdown (s : State) :
  sumValues (Cost.costBreakdownData s) ≃ Cost.totalMonthlyCost s.
Proof.
  unfold sumValues, Cost.costBreakdownData, Cost.totalMonthlyCost,
    Cost.totalInstanceCost. cbn [fold_left snd].
  repeat (apply add_eqv; [|apply eqv_refl]).
  apply add_0_l.
Qed.

(** ** The write-heavy multiplier *)

(** C6, counterexample: "50/51" is outside the enumerated set and still
    gets the multiplier 1.5, so the multiplier is not an exact match on
    the enumerated values. *)
Lemma multiplier_is_not_exact_match :
  ("50/51" ∉ enumeratedRatios)
  /\ writeHeavyFactorOf "50/51" = dec 15 10
  /\ ~ exactMatchMultiplier.
Proof.
  assert (Hout : "50/51" ∉ enumeratedRatios).
  { unfold enumeratedRatios. rewrite !elem_of_cons, elem_of_nil.
    intros [H|[H|[H|[H|[]]]]]; discriminate H. }
  split; [exact Hout|]. split; [reflexivity|].
  intros Hclaim. destruct (Hclaim "50/51") as (_ & _ & H1).
  specialize (H1 Hout). vm_compute in H1. discriminate H1.
Qed.

(** C6, amended: the multiplier is decided by the first two characters of
    the ratio: 1.5 exactly when it starts with "50", 2 exactly when it
    starts with "30", and 1 exactly when it starts with neither; on the four
    enumerated ratios this gives 1, 1, 1.5 and 2. *)
Theorem multiplier_by_prefix (r : string) :
  (writeHeavyFactorOf r ≃ dec 15 10 <-> String.prefix "50" r = true)
  /\ (writeHeavyFactorOf r ≃ ofZ 2 <-> String.prefix "30" r = true)
  /\ (writeHeavyFactorOf r ≃ ofZ 1 <->
      String.prefix "50" r = false /\ String.prefix "30" r = false)
  /\ map writeHeavyFactorOf enumeratedRatios = [ofZ 1; ofZ 1; dec 15 10; ofZ 2].
Proof.
  assert (Hex : String.prefix "50" r = true -> String.prefix "30" r = true -> False).
  { destruct r as [|c r]; cbn [String.prefix]; [discriminate|].
    destruct (ascii_dec "5"%char c) as [<-|]; [|discriminate].
    destruct (ascii_dec "3"%char "5"%char) as [E|]; [discriminate E|discriminate]. }
  unfold writeHeavyFactorOf.
  destruct (String.prefix "50" r) eqn:E50, (String.prefix "30" r) eqn:E30;
    try (exfalso; now apply Hex);
    repeat split; intros; try reflexivity; try discriminate;
    try (match goal with H : _ ≃ _ |- _ => vm_compute in H; discriminate H end);
    try (match goal with H : _ /\ _ |- _ => destruct H; discriminate end).
Qed.

(** ** Savings and payback sentinels *)

Lemma gtb_false_of_strictEq (a b : num) : strictEq a b = true -> gtb a b = false.
Proof. unfold strictEq, gtb. destruct (cmp a b) as [[]|]; congruence. Qed.

Lemma gtb_false_of_leb (a b : num) : leb a b = true -> gtb a b = false.
Proof. unfold leb, gtb. destruct (cmp a b) as [[]|]; congruence. Qed.

(** C7, counterexample: with a source monthly cost of 0 the monthly
    savings are negative.  The payback period the code then holds is the
    number [Infinity], and the summary renders no payback card at all: the
    text N/A is not what is reported for savings that are not positive. *)
Lemma negative_savings_show_no_payback :
  leb (Cost.monthlySavings zeroCostState) (ofZ 0) = true
  /\ Cost.paybackPeriodMonths zeroCostState = Infinity
  /\ paybackCard zeroCostState = None
  /\ ~ paybackShownNotApplicable.
Proof.
  assert (L : leb (Cost.monthlySavings zeroCostState) (ofZ 0) = true)
    by (vm_compute; reflexivity).
  assert (C : paybackCard zeroCostState = None) by (vm_compute; reflexivity).
  split; [exact L|]. split; [vm_compute; reflexivity|]. split; [exact C|].
  intros H. specialize (H zeroCostState L). rewrite C in H. discriminate H.
Qed.

(** C7, amended: when the source monthly cost is 0 the savings percentage
    is the number 0; when the monthly savings are not positive the payback
    period is the number [Infinity], which is no rational number and not
    NaN, and the summary renders no payback card, neither a number of
    months nor the text N/A. *)
Theorem savings_zero_and_payback_hidden (s : State) :
  (strictEq (Cost.postgresMonthlyCost s) (ofZ 0) = true ->
     Cost.savingsPercentage s = ofZ 0)
  /\ (leb (Cost.monthlySavings s) (ofZ 0) = true ->
        Cost.paybackPeriodMonths s = Infinity
        /\ (forall q, Cost.paybackPeriodMonths s <> Fin q)
        /\ Cost.paybackPeriodMonths s <> NaN
        /\ paybackCard s = None).
Proof.
  split.
  - intros H. unfold Cost.savingsPercentage.
    now rewrite (gtb_false_of_strictEq _ _ H).
  - intros H.
    assert (E : Cost.paybackPeriodMonths s = Infinity).
    { unfold Cost.paybackPeriodMonths. now rewrite (gtb_false_of_leb _ _ H). }
    rewrite E. repeat split; try discriminate.
    unfold paybackCard. now rewrite (gtb_false_of_leb _ _ H).
Qed.

Lemma savings_zero_and_payback_hidden_witness :
  Cost.savingsPercentage zeroCostState = ofZ 0
  /\ Cost.paybackPeriodMonths zeroCostState = Infinity
  /\ paybackCard zeroCostState = None.
Proof.
  destruct (savings_zero_and_payback_hidden zeroCostState) as [H1 H2].
  split; [apply H1; vm_compute; reflexivity|].
  destruct H2 as (E1 & _ & _ & E2); [vm_compute; reflexivity|].
  split; [exact E1 | exact E2].
Defined.

(** ** The worked scenario *)

(** C8: with a source class of 8 vCPU and 32 GB, two primaries, one read
    replica, a 16 vCPU class selected for the SQL tier, 200 connections and
    traffic spikes with peak ratio 3, the CPU candidate is 3, the connection
    candidate is 3, the spike multiplier is 1.5 and the derived number of
    SQL nodes is 5. *)
Theorem scenario_sql_nodes (s : State) :
  field postgresInstanceTypes (Postgres.instanceType (postgres s)) Spec.vCPU = Some (ofZ 8) ->
  field postgresInstanceTypes (Postgres.instanceType (postgres s)) Spec.memory = Some (ofZ 32) ->
  Postgres.instanceCount (postgres s) = ofZ 2 ->
  Postgres.readReplicas (postgres s) = ofZ 1 ->
  field ec2InstanceTypes (Instances.tidbInstanceType (instances s)) Spec.vCPU = Some (ofZ 16) ->
  Workload.concurrentConnections (workload s) = ofZ 200 ->
  Workload.trafficSpikes (workload s) = true ->
  Workload.peakRatio (workload s) = ofZ 3 ->
  effectivePostgresVcpu s / vcpuPerTidbNode s ≃ (ofZ 8 * ofZ 2 * dec 15 10) / ofZ 16
  /\ suggestedTidbNodesFromCpu s = ofZ 3
  /\ suggestedTidbNodesFromConn s = ofZ 3
  /\ spikeFactor s ≃ dec 15 10
  /\ TidbCluster.tidbNodes (tidbCluster (recompute s)) = ofZ 5.
Proof.
  intros Hv Hm Hc Hr Ht Hn Hs Hp.
  assert (E1 : effectivePostgresVcpu s = Fin (8 * 2 + 8 * 2 * (1 / 2))).
  { unfold effectivePostgresVcpu, readReplicaVcpu, totalPostgresVcpu, postgresVcpu.
    rewrite Hv, Hc, Hr. reflexivity. }
  assert (E2 : vcpuPerTidbNode s = ofZ 16).
  { unfold vcpuPerTidbNode. rewrite Ht. reflexivity. }
  assert (E3 : suggestedTidbNodesFromCpu s = ofZ 3).
  { unfold suggestedTidbNodesFromCpu. rewrite E1, E2. reflexivity. }
  assert (E4 : suggestedTidbNodesFromConn s = ofZ 3).
  { unfold suggestedTidbNodesFromConn. rewrite Hn. reflexivity. }
  assert (E5 : spikeFactor s = Fin (3 / 2)).
  { unfold spikeFactor. rewrite Hs, Hp. reflexivity. }
  repeat split.
  - rewrite E1, E2. reflexivity.
  - exact E3.
  - exact E4.
  - rewrite E5. reflexivity.
  - cbn [recompute tidbCluster updateTidbCluster TidbCluster.tidbNodes].
    unfold baseTidbNodes. rewrite E3, E4, E5. reflexivity.
Qed.

Lemma scenario_sql_nodes_witness :
  suggestedTidbNodesFromCpu scenarioState = ofZ 3
  /\ suggestedTidbNodesFromConn scenarioState = ofZ 3
  /\ spikeFactor scenarioState ≃ dec 15 10
  /\ TidbCluster.tidbNodes (tidbCluster (recompute scenarioState)) = ofZ 5.
Proof.
  destruct (scenario_sql_nodes scenarioState) as (_ & H); try reflexivity.
  exact H.
Defined.

(** ** Bounds on the derived topology *)

Lemma ec2_finite (k : string) (e : Spec.t) :
  ec2InstanceTypes !! k = Some e -> finiteSpec e = true.
Proof.
  revert k e.
  change (map_Forall (fun _ e => finiteSpec e = true) ec2InstanceTypes).
  apply map_Forall_to_list. vm_compute. repeat constructor.
Qed.

Lemma postgres_finite (k : string) (e : Spec.t) :
  postgresInstanceTypes !! k = Some e -> finiteSpec e = true.
Proof.
  revert k e.
  change (map_Forall (fun _ e => finiteSpec e = true) postgresInstanceTypes).
  apply map_Forall_to_list. vm_compute. repeat constructor.
Qed.

Lemma finite_of_isFinite (a : num) : isFinite a = true -> finite a.
Proof. destruct a; try discriminate. intros _. now exists q. Qed.

Lemma field_finite (table : gmap string Spec.t) (k : string) (f : Spec.t -> num) (a : num) :
  (forall k e, table !! k = Some e -> finiteSpec e = true) ->
  (forall e, finiteSpec e = true -> isFinite (f e) = true) ->
  field table k f = Some a -> finite a.
Proof.
  intros Ht Hf. unfold field. destruct (table !! k) as [e|] eqn:E; [|discriminate].
  intros [= <-]. apply finite_of_isFinite, Hf. now apply (Ht k).
Qed.

Lemma finiteSpec_vCPU (e : Spec.t) : finiteSpec e = true -> isFinite (Spec.vCPU e) = true.
Proof. unfold finiteSpec. intros H. now apply andb_prop in H as [H%andb_prop _]. Qed.

Lemma finiteSpec_memory (e : Spec.t) : finiteSpec e = true -> isFinite (Spec.memory e) = true.
Proof. unfold finiteSpec. intros H. now apply andb_prop in H as [H%andb_prop _]. Qed.

Lemma finiteSpec_monthlyCost (e : Spec.t) :
  finiteSpec e = true -> isFinite (Spec.monthlyCost e) = true.
Proof. unfold finiteSpec. intros H. now apply andb_prop in H as [_ H]. Qed.

Section Bounds.

Variable s : State.
Hypothesis valid : validInputs s.

Lemma postgresVcpu_finite : finite (postgresVcpu s).
Proof.
  destruct (orElse_nonzero
    (field postgresInstanceTypes (Postgres.instanceType (postgres s)) Spec.vCPU) 8)
    as (x & E & _).
  - intros a. apply field_finite; [apply postgres_finite | apply finiteSpec_vCPU].
  - discriminate.
  - exists x. exact E.
Qed.

Lemma vcpuPerTidbNode_nonzero :
  exists x, vcpuPerTidbNode s = Fin x /\ ~ (x == 0)%Q.
Proof.
  apply (orElse_nonzero _ 16).
  - intros a. apply field_finite; [apply ec2_finite | apply finiteSpec_vCPU].
  - discriminate.
Qed.

Lemma effectivePostgresVcpu_finite : finite (effectivePostgresVcpu s).
Proof.
  assert (Ht : finite (totalPostgresVcpu s)).
  { apply mul_finite; [apply postgresVcpu_finite|].
    exact (atLeast_finite _ _ (valid_instanceCount s valid)). }
  apply add_finite; [exact Ht|].
  apply mul_finite; [exact Ht|].
  apply (div_finite_atLeast 1); [reflexivity | | exact (valid_instanceCount s valid)].
  exact (atLeast_finite _ _ (valid_readReplicas s valid)).
Qed.

Lemma baseTidbNodes_atLeast : atLeast 3 (baseTidbNodes s).
Proof.
  unfold baseTidbNodes. apply max_atLeast_l.
  - unfold suggestedTidbNodesFromCpu. apply max_atLeast_l.
    + now apply (atLeast_ofZ 3 3).
    + apply ceil_finite. destruct vcpuPerTidbNode_nonzero as (x & -> & Hx).
      apply div_finite; [apply effectivePostgresVcpu_finite | exact Hx].
  - apply (atLeast_finite 3). unfold suggestedTidbNodesFromConn. apply max_atLeast_l.
    + now apply (atLeast_ofZ 3 3).
    + apply ceil_finite, div_finite; [|discriminate].
      exact (atLeast_finite _ _ (valid_connections s valid)).
Qed.

(** The spike multiplier lies between one half and two. *)
Lemma spikeFactor_range :
  exists f, spikeFactor s = Fin f /\ (1 # 2 <= f)%Q /\ (f <= 2)%Q.
Proof.
  unfold spikeFactor. destruct (Workload.trafficSpikes (workload s)).
  - destruct (valid_peakRatio s valid) as (p & -> & Hp).
    unfold ofZ. rewrite div_Fin by discriminate.
    destruct (min_Fin_cases (inject_Z 2) (p / inject_Z 2)) as [[-> H]|[-> H]].
    + exists (inject_Z 2). split; [reflexivity|]. split; discriminate.
    + exists (p / inject_Z 2)%Q. split; [reflexivity|].
      split; [|now apply Qlt_le_weak].
      apply Qle_shift_div_l; [reflexivity|].
      now apply Qle_trans with 1%Q.
  - exists 1%Q. split; [reflexivity|]. split; discriminate.
Qed.

(** Without spikes, or with a peak ratio of at least 2, the spike
    multiplier is at least 1. *)
Lemma spikeFactor_atLeast_one :
  Workload.trafficSpikes (workload s) = false
  \/ atLeast 2 (Workload.peakRatio (workload s)) ->
  atLeast 1 (spikeFactor s).
Proof.
  unfold spikeFactor. intros [->|(p & Ep & Hp)].
  - now apply (atLeast_ofZ 1 1).
  - destruct (Workload.trafficSpikes (workload s)); [|now apply (atLeast_ofZ 1 1)].
    rewrite Ep. unfold ofZ. rewrite div_Fin by discriminate.
    destruct (min_Fin_cases (inject_Z 2) (p / inject_Z 2)) as [[-> H]|[-> H]].
    + exists (inject_Z 2). split; [reflexivity|discriminate].
    + exists (p / inject_Z 2)%Q. split; [reflexivity|].
      apply Qle_shift_div_l; [reflexivity|].
      now apply Qle_trans with 2%Q.
Qed.

Lemma writeHeavyFactor_atLeast_one : atLeast 1 (writeHeavyFactor s).
Proof.
  unfold writeHeavyFactor, writeHeavyFactorOf.
  destruct (String.prefix "50" _); [|destruct (String.prefix "30" _)].
  - exists (15 # 10). split; [reflexivity|discriminate].
  - now apply (atLeast_ofZ 2 1).
  - now apply (atLeast_ofZ 1 1).
Qed.

Lemma suggestedTikvNodes_atLeast : atLeast 3 (suggestedTikvNodes s).
Proof.
  unfold suggestedTikvNodes. apply max_atLeast_l; [now apply (atLeast_ofZ 3 3)|].
  apply (atLeast_finite 3), max_atLeast_r.
  - unfold suggestedTikvNodesForStorage.
    apply mul_finite; [|now exists (inject_Z 3)].
    apply ceil_finite, div_finite; [|discriminate].
    apply mul_finite; [|exact (atLeast_finite _ _ (valid_replication s valid))].
    apply mul_finite; [|now eexists].
    exact (atLeast_finite _ _ (valid_storageGB s valid)).
  - unfold suggestedTikvNodesFromWrites. apply max_atLeast_l; [now apply (atLeast_ofZ 3 3)|].
    apply mul_finite; [|now exists (inject_Z 3)].
    apply ceil_finite, div_finite; [|discriminate].
    apply div_finite; [|discriminate].
    exact (atLeast_finite _ _ (valid_writeOps s valid)).
Qed.

(** The storage tier never gets fewer than three nodes. *)
Lemma tikvNodes_atLeast_three :
  atLeast 3 (TidbCluster.tikvNodes (tidbCluster (recompute s))).
Proof.
  cbn [recompute tidbCluster updateTidbCluster TidbCluster.tikvNodes].
  apply (ceil_atLeast 3), mul_atLeast; [discriminate | |].
  - apply suggestedTikvNodes_atLeast.
  - apply writeHeavyFactor_atLeast_one.
Qed.

(** The analytics tier is off with zero nodes, or on with at least two. *)
Lemma tiflashNodes_zero_or_two :
  (TidbCluster.useTiflash (tidbCluster (recompute s)) = false
   /\ TidbCluster.tiflashNodes (tidbCluster (recompute s)) = ofZ 0)
  \/ (TidbCluster.useTiflash (tidbCluster (recompute s)) = true
      /\ atLeast 2 (TidbCluster.tiflashNodes (tidbCluster (recompute s)))).
Proof.
  cbn [recompute tidbCluster updateTidbCluster TidbCluster.tiflashNodes
       TidbCluster.useTiflash].
  unfold suggestedTiflashNodes, tiflashReplicas.
  destruct (useTiflash s); [right|left; now split].
  split; [reflexivity|].
  apply max_atLeast_l; [now apply (atLeast_ofZ 2 2)|].
  apply ceil_finite.
  destruct (valid_replication s valid) as (r & -> & Hr).
  destruct (valid_storageGB s valid) as (g & -> & _).
  apply div_finite; [now eexists|].
  intros E. change (r * (8 # 10) * 4000 == 0)%Q in E.
  change (inject_Z 3) with 3%Q in Hr. lra.
Qed.

(** The placement tier is carried over from the previous topology. *)
Lemma pdNodes_kept :
  TidbCluster.pdNodes (tidbCluster (recompute s)) = TidbCluster.pdNodes (tidbCluster s).
Proof. reflexivity. Qed.

(** The SQL tier gets at least three nodes when the spike multiplier does
    not damp it, and at least two nodes in every case. *)
Lemma tidbNodes_atLeast_three :
  Workload.trafficSpikes (workload s) = false
  \/ atLeast 2 (Workload.peakRatio (workload s)) ->
  atLeast 3 (TidbCluster.tidbNodes (tidbCluster (recompute s))).
Proof.
  intros H.
  cbn [recompute tidbCluster updateTidbCluster TidbCluster.tidbNodes].
  apply (ceil_atLeast 3), mul_atLeast; [discriminate | |].
  - apply baseTidbNodes_atLeast.
  - now apply spikeFactor_atLeast_one.
Qed.

Lemma sqlNodes_atLeast_two : atLeast 2 (ceil (baseTidbNodes s * spikeFactor s)).
Proof.
  destruct baseTidbNodes_atLeast as (b & -> & Hb).
  destruct spikeFactor_range as (f & -> & Hf & _).
  exists (inject_Z (Qceiling (b * f))). split; [reflexivity|].
  change 2%Q with (inject_Z 2). rewrite <- Zle_Qle.
  assert (Hlt : (inject_Z 1 < inject_Z (Qceiling (b * f)))%Q).
  { apply Qlt_le_trans with (b * f)%Q; [|apply Qle_ceiling].
    change (inject_Z 1) with 1%Q. nra. }
  rewrite <- Zlt_Qlt in Hlt. lia.
Qed.

Lemma tidbNodes_atLeast_two :
  atLeast 2 (TidbCluster.tidbNodes (tidbCluster (recompute s))).
Proof.
  cbn [recompute tidbCluster updateTidbCluster TidbCluster.tidbNodes].
  apply sqlNodes_atLeast_two.
Qed.

Lemma totalComponents_finite : finite (totalComponents s).
Proof.
  unfold totalComponents. repeat apply add_finite.
  - exact (atLeast_finite _ _ sqlNodes_atLeast_two).
  - apply ceil_finite, mul_finite.
    + exact (atLeast_finite _ _ suggestedTikvNodes_atLeast).
    + exact (atLeast_finite _ _ writeHeavyFactor_atLeast_one).
  - exact (atLeast_finite _ _ (valid_pdNodes s valid)).
  - pose proof tiflashNodes_zero_or_two as H.
    cbn [recompute tidbCluster updateTidbCluster TidbCluster.tiflashNodes] in H.
    destruct H as [[_ ->]|[_ H]]; [now eexists | exact (atLeast_finite _ _ H)].
  - now eexists.
Qed.

Lemma k8sWorkerNodes_atLeast_six :
  atLeast 6 (TidbCluster.k8sWorkerNodes (tidbCluster (recompute s))).
Proof.
  cbn [recompute tidbCluster updateTidbCluster TidbCluster.k8sWorkerNodes].
  unfold suggestedWorkerNodes. apply max_atLeast_l; [now apply (atLeast_ofZ 6 6)|].
  apply ceil_finite, div_finite; [apply totalComponents_finite|discriminate].
Qed.

End Bounds.

(** ** The minimum of three SQL nodes *)

Lemma initialState_valid : validInputs initialState.
Proof. split; solve_atLeast. Qed.

Lemma initialState_bounded : boundedInputs initialState.
Proof. split; solve_atLeast. Qed.

(** C1, at the failing input: the initial state with the peak-to-normal
    ratio lowered to 1 is a valid input; its base SQL node count is 3 and
    its spike multiplier is 0.5, so the derivation sets 2 SQL nodes, below
    the minimum of three, while the storage and placement tiers get 3 nodes
    and the analytics tier 0. *)
Theorem flat_peak_gives_two_sql_nodes :
  validInputs flatPeakState
  /\ baseTidbNodes flatPeakState = ofZ 3
  /\ spikeFactor flatPeakState ≃ dec 5 10
  /\ TidbCluster.tidbNodes (tidbCluster (recompute flatPeakState)) = ofZ 2
  /\ TidbCluster.tikvNodes (tidbCluster (recompute flatPeakState)) = ofZ 3
  /\ TidbCluster.pdNodes (tidbCluster (recompute flatPeakState)) = ofZ 3
  /\ TidbCluster.tiflashNodes (tidbCluster (recompute flatPeakState)) = ofZ 0.
Proof.
  split; [split; solve_atLeast|].
  repeat split; vm_compute; reflexivity.
Qed.

(** ** Missing catalog keys *)

(** C9, counterexample: a source class and an SQL-tier class that the
    catalogs do not list, and no primary instance.  Nothing is thrown and
    the fallbacks of 8 vCPU and of 16 vCPU per node apply, yet the derived
    numbers of SQL nodes and of worker nodes are NaN: the run does not
    yield a topology for every input. *)
Lemma zero_primaries_yield_no_topology :
  postgresInstanceTypes !! Postgres.instanceType (postgres unknownKeysNoPrimariesState) = None
  /\ ec2InstanceTypes !! Instances.tidbInstanceType (instances unknownKeysNoPrimariesState)
     = None
  /\ postgresVcpu unknownKeysNoPrimariesState = ofZ 8
  /\ vcpuPerTidbNode unknownKeysNoPrimariesState = ofZ 16
  /\ TidbCluster.tidbNodes (tidbCluster (recompute unknownKeysNoPrimariesState)) = NaN
  /\ TidbCluster.k8sWorkerNodes (tidbCluster (recompute unknownKeysNoPrimariesState)) = NaN
  /\ ~ wellDefinedTopology unknownKeysNoPrimariesState.
Proof.
  assert (E : TidbCluster.tidbNodes (tidbCluster (recompute unknownKeysNoPrimariesState))
              = NaN) by (vm_compute; reflexivity).
  do 4 (split; [vm_compute; reflexivity|]).
  split; [exact E|]. split; [vm_compute; reflexivity|].
  intros ([x Hx] & _). rewrite E in Hx. discriminate Hx.
Qed.

(** C9, amended: the derivation is a total function of the state; its
    catalog reads are optional with a default, so none of them can throw.
    A source class missing from the catalog reads as 8 vCPU and 32 GB (so
    the default compute-optimized class is selected), an SQL-tier class
    missing from the catalog reads as 16 vCPU per node, and on valid inputs
    within the bounds, whatever the keys, the derived node counts are
    rational numbers and the placement tier is the one of the previous
    topology. *)
Theorem missing_keys_fall_back_on_valid_inputs (s : State) :
  (postgresInstanceTypes !! Postgres.instanceType (postgres s) = None ->
     postgresVcpu s = ofZ 8 /\ postgresMemory s = ofZ 32
     /\ Instances.tidbInstanceType (instances (recompute s)) = "c5.4xlarge")
  /\ (ec2InstanceTypes !! Instances.tidbInstanceType (instances s) = None ->
        vcpuPerTidbNode s = ofZ 16)
  /\ (validInputs s -> boundedInputs s ->
        wellDefinedTopology s
        /\ TidbCluster.pdNodes (tidbCluster (recompute s))
           = TidbCluster.pdNodes (tidbCluster s)).
Proof.
  split; [|split].
  - intros H.
    assert (Ev : postgresVcpu s = ofZ 8).
    { unfold postgresVcpu, field. now rewrite H. }
    assert (Em : postgresMemory s = ofZ 32).
    { unfold postgresMemory, field. now rewrite H. }
    repeat split; [exact Ev | exact Em |].
    cbn [recompute instances updateInstances Instances.tidbInstanceType].
    unfold suggestedTidbInstanceType. now rewrite Em.
  - intros H. unfold vcpuPerTidbNode, field. now rewrite H.
  - intros Hv _. unfold wellDefinedTopology. repeat split.
    + exact (atLeast_finite _ _ (tidbNodes_atLeast_two s Hv)).
    + exact (atLeast_finite _ _ (tikvNodes_atLeast_three s Hv)).
    + destruct (tiflashNodes_zero_or_two s Hv) as [[_ ->]|[_ H]];
        [now eexists | exact (atLeast_finite _ _ H)].
    + exact (atLeast_finite _ _ (k8sWorkerNodes_atLeast_six s Hv)).
Qed.

Lemma missing_keys_fall_back_on_valid_inputs_witness :
  postgresVcpu unknownKeysState = ofZ 8
  /\ postgresMemory unknownKeysState = ofZ 32
  /\ vcpuPerTidbNode unknownKeysState = ofZ 16
  /\ wellDefinedTopology unknownKeysState.
Proof.
  destruct (missing_keys_fall_back_on_valid_inputs unknownKeysState) as (H1 & H2 & H3).
  destruct H1 as (E1 & E2 & _); [reflexivity|].
  specialize (H2 eq_refl).
  destruct H3 as (F & _); [split; solve_atLeast | split; solve_atLeast|].
  split; [exact E1|]. split; [exact E2|]. split; [exact H2 | exact F].
Defined.

(** ** Sequence numbers of the change history *)

(** The [id] of a new entry is the length of the log after the eviction:
    the length of the log while it holds fewer than 10 entries, and 9 from
    then on. *)
Lemma entry_id (s : State) (prev : ComparisonData.t) :
  length (ComparisonData.history prev) <= 10 ->
  Entry.id (Recorder.entry s prev) = Nat.min (length (ComparisonData.history prev)) 9.
Proof.
  intros H. cbn [Recorder.entry Entry.id]. unfold Recorder.newHistory.
  destruct (decide (10 <= length (ComparisonData.history prev))).
  - rewrite length_drop. lia.
  - lia.
Qed.

(** C3, at the failing input: ten changes of the source class from the
    initial state number the entries 0 to 9; the eleventh change evicts the
    oldest entry and numbers the new one 9, the number the entry before it
    already has. *)
Theorem eleventh_change_reuses_id :
  map Entry.id (history (selectEach (take 10 elevenSelections) initialState))
    = [0; 1; 2; 3; 4; 5; 6; 7; 8; 9]
  /\ map Entry.id (history (selectEach elevenSelections initialState))
    = [1; 2; 3; 4; 5; 6; 7; 8; 9; 9].
Proof. split; vm_compute; reflexivity. Qed.

(** ** Running the effect again *)

(** The derived topology depends on the state only through the source and
    workload profiles, the selected SQL-tier class, the replication factor
    and the number of placement nodes. *)
Lemma updateTidbCluster_ext (s1 s2 : State) (prev : TidbCluster.t) :
  postgres s1 = postgres s2 ->
  workload s1 = workload s2 ->
  Instances.tidbInstanceType (instances s1) = Instances.tidbInstanceType (instances s2) ->
  TidbCluster.dataReplicationFactor (tidbCluster s1)
    = TidbCluster.dataReplicationFactor (tidbCluster s2) ->
  TidbCluster.pdNodes (tidbCluster s1) = TidbCluster.pdNodes (tidbCluster s2) ->
  updateTidbCluster s1 prev = updateTidbCluster s2 prev.
Proof.
  intros Hp Hw Hi Hr Hd. unfold_derivation.
  now rewrite Hp, Hw, Hi, Hr, Hd.
Qed.

Lemma suggestedTidbInstanceType_ext (s1 s2 : State) :
  postgres s1 = postgres s2 ->
  suggestedTidbInstanceType s1 = suggestedTidbInstanceType s2.
Proof. intros Hp. unfold_derivation. now rewrite Hp. Qed.

(** After a run the recorded previous class is the current source class. *)
Lemma changed_recompute (s : State) : Recorder.changed (recompute s) = false.
Proof.
  unfold Recorder.changed at 1, Recorder.prevType.
  cbn [recompute postgres comparisonData].
  destruct (Recorder.changed s) eqn:E.
  - cbn [Recorder.record ComparisonData.previousInstanceType].
    now rewrite String.eqb_refl.
  - unfold Recorder.changed, Recorder.prevType in E.
    now apply negb_false_iff in E as ->.
Qed.

Lemma state_eta (r : State) :
  MkState (postgres r) (workload r) (tidbCluster r) (instances r) (storage r)
    (operational r) (comparisonData r) = r.
Proof. now destruct r. Qed.

Lemma recompute_fixed (s : State) :
  Instances.tidbInstanceType (instances s) = suggestedTidbInstanceType s ->
  recompute (recompute s) = recompute s.
Proof.
  intros Hi.
  assert (Et : updateTidbCluster (recompute s) (tidbCluster (recompute s))
               = tidbCluster (recompute s)).
  { rewrite (updateTidbCluster_ext (recompute s) s).
    - cbn [recompute tidbCluster]. unfold updateTidbCluster.
      now cbn [TidbCluster.pdNodes TidbCluster.eksClusterCount
               TidbCluster.availabilityZones TidbCluster.dataReplicationFactor].
    - reflexivity.
    - reflexivity.
    - cbn [recompute instances updateInstances Instances.tidbInstanceType].
      now symmetry.
    - reflexivity.
    - reflexivity. }
  assert (Ei : updateInstances (recompute s) (instances (recompute s))
               = instances (recompute s)).
  { cbn [recompute instances]. unfold updateInstances.
    cbn [Instances.tikvInstanceType Instances.pdInstanceType
         Instances.tiflashInstanceType Instances.monitoringInstanceType].
    now rewrite (suggestedTidbInstanceType_ext (recompute s) s). }
  unfold recompute at 1. rewrite changed_recompute, Et, Ei.
  apply state_eta.
Qed.

(** C2, counterexample: with four primaries and the 16 vCPU class selected
    for the SQL tier, a run records no change of the source class, derives
    5 SQL nodes and selects the 8 vCPU class; the second run reads that
    class and derives 8 SQL nodes and another total monthly cost. *)
Lemma second_run_differs :
  Recorder.changed fourPrimariesState = false
  /\ TidbCluster.tidbNodes (tidbCluster (recompute fourPrimariesState)) = ofZ 5
  /\ TidbCluster.tidbNodes (tidbCluster (recompute (recompute fourPrimariesState))) = ofZ 8
  /\ ~ (Cost.totalMonthlyCost (recompute (recompute fourPrimariesState))
        ≃ Cost.totalMonthlyCost (recompute fourPrimariesState))
  /\ recompute (recompute fourPrimariesState) <> recompute fourPrimariesState.
Proof.
  repeat split; try (vm_compute; reflexivity).
  - vm_compute. discriminate.
  - intros E. apply (f_equal (fun s => TidbCluster.tidbNodes (tidbCluster s))) in E.
    vm_compute in E. discriminate E.
Qed.

(** C2, amended: a second run yields the state of the first, hence the same
    topology, selection and costs, whenever the SQL-tier class selected
    before the first run is the one the memory rule selects; in every case
    a third run yields the state of the second, the second run appends
    nothing to the history log, and neither does the first when the source
    class did not change. *)
Theorem recompute_stable (s : State) :
  (Instances.tidbInstanceType (instances s) = suggestedTidbInstanceType s ->
     recompute (recompute s) = recompute s)
  /\ recompute (recompute (recompute s)) = recompute (recompute s)
  /\ history (recompute (recompute s)) = history (recompute s)
  /\ (Recorder.changed s = false -> history (recompute s) = history s).
Proof.
  split; [apply recompute_fixed|]. split; [|split].
  - apply recompute_fixed.
    cbn [recompute instances updateInstances Instances.tidbInstanceType].
    now apply suggestedTidbInstanceType_ext.
  - unfold history. unfold recompute at 1. cbn [comparisonData].
    now rewrite changed_recompute.
  - intros H. unfold history, recompute. cbn [comparisonData]. now rewrite H.
Qed.

Lemma recompute_stable_witness :
  recompute (recompute (recompute initialState)) = recompute (recompute initialState)
  /\ history (recompute initialState) = history initialState.
Proof.
  destruct (recompute_stable initialState) as (_ & H3 & _ & H0).
  split; [exact H3 | apply H0; reflexivity].
Defined.

(** ** The bound of ten entries *)

Section LastTen.

Context {A : Type}.
Implicit Types l k : list A.

Lemma lastTen_short l : length l <= 10 -> lastTen l = l.
Proof.
  intros H. unfold lastTen. now replace (length l - 10)%nat with 0%nat by lia.
Qed.

Lemma lastTen_length l : 10 <= length l -> length (lastTen l) = 10.
Proof. intros H. unfold lastTen. rewrite length_drop. lia. Qed.

(** Dropping the head of the log before appending does not change the last
    ten elements once more than ten are at hand. *)
Lemma lastTen_shift l k :
  10 <= length l -> 0 < length k -> lastTen (drop 1 l ++ k) = lastTen (l ++ k).
Proof.
  intros Hl Hk. unfold lastTen.
  destruct l as [|x l]; simpl in Hl; [lia|].
  cbn [drop]. rewrite drop_0.
  rewrite !length_app. cbn [length app].
  replace (S (length l) + length k - 10)%nat with (S (length l + length k - 10))%nat by lia.
  reflexivity.
Qed.

Lemma lastTen_app_r l k : 10 <= length k -> lastTen (l ++ k) = lastTen k.
Proof.
  intros Hk. unfold lastTen. rewrite length_app, drop_app_ge by lia.
  f_equal. lia.
Qed.

End LastTen.

Lemma transitions_length (c : string) (us : list State) :
  length (transitions c us) = length us.
Proof. revert c. induction us as [|u us IH]; intros c; simpl; [|rewrite IH]; reflexivity. Qed.

Lemma newHistory_length (h : list Entry.t) :
  length h <= 10 -> length (Recorder.newHistory h) <= 9.
Proof.
  intros H. unfold Recorder.newHistory.
  destruct (decide (10 <= length h)); [rewrite length_drop|]; lia.
Qed.

(** One edit that changes the source class: the log loses its head if it
    was full and gains the transition at its end. *)
Lemma history_step (s u : State) :
  Recorder.changed (edit u s) = true ->
  history (step s u)
    = Recorder.newHistory (history s) ++ [Recorder.entry (edit u s) (comparisonData s)]
  /\ Recorder.prevType (step s u) = Postgres.instanceType (postgres u)
  /\ fromTo (Recorder.entry (edit u s) (comparisonData s))
     = (Recorder.prevType s, Postgres.instanceType (postgres u)).
Proof.
  intros H. unfold step, history, Recorder.prevType, recompute.
  cbn [comparisonData]. rewrite H. repeat split.
Qed.

Lemma history_run (us : list State) :
  forall s,
    length (history s) <= 10 ->
    allChange (Recorder.prevType s) us = true ->
    map fromTo (history (run s us))
      = lastTen (map fromTo (history s) ++ transitions (Recorder.prevType s) us).
Proof.
  induction us as [|u us IH]; intros s Hlen Hall.
  - cbn [run fold_left transitions]. rewrite app_nil_r, lastTen_short; [reflexivity|].
    now rewrite length_map.
  - cbn [allChange] in Hall. apply andb_prop in Hall as [Hc Hall].
    assert (Hch : Recorder.changed (edit u s) = true) by exact Hc.
    destruct (history_step s u Hch) as (Eh & Ep & Ef).
    cbn [run fold_left transitions]. fold (run (step s u) us).
    rewrite IH.
    + rewrite Ep, Eh, map_app. cbn [map]. rewrite Ef, <- app_assoc. cbn [app].
      unfold Recorder.newHistory.
      destruct (decide (10 <= length (history s))) as [Hfull|]; [|reflexivity].
      rewrite <- skipn_map. apply lastTen_shift; [now rewrite length_map|simpl; lia].
    + rewrite Eh, length_app. cbn [length].
      pose proof (newHistory_length _ Hlen). lia.
    + now rewrite Ep.
Qed.

(** C4: from a log of at most ten entries (as every log the recorder
    builds is), after more than ten edits each changing the source class
    the log holds exactly ten entries, and they are the last ten
    transitions in the order they occurred; a run in which the source class
    did not change leaves the log as it was. *)
Theorem history_holds_last_ten (s : State) (us : list State) :
  length (history s) <= 10 ->
  allChange (Recorder.prevType s) us = true ->
  10 < length us ->
  length (history (run s us)) = 10
  /\ map fromTo (history (run s us))
     = drop (length us - 10) (transitions (Recorder.prevType s) us)
  /\ (forall s', Recorder.changed s' = false -> history (recompute s') = history s').
Proof.
  intros Hlen Hall Hus.
  pose proof (history_run us s Hlen Hall) as E.
  rewrite lastTen_app_r in E by (rewrite transitions_length; lia).
  unfold lastTen in E. rewrite transitions_length in E.
  split; [|split].
  - rewrite <- (length_map fromTo), E, length_drop, transitions_length. lia.
  - exact E.
  - intros s' H. unfold history, recompute. cbn [comparisonData]. now rewrite H.
Qed.

Lemma history_holds_last_ten_witness :
  length (history (run initialState elevenEdits)) = 10
  /\ map fromTo (history (run initialState elevenEdits))
     = drop (length elevenEdits - 10)
         (transitions (Recorder.prevType initialState) elevenEdits).
Proof.
  destruct (history_holds_last_ten initialState elevenEdits) as (H1 & H2 & _).
  - vm_compute. lia.
  - vm_compute. reflexivity.
  - vm_compute. lia.
  - split; [exact H1 | exact H2].
Defined.

(** The log never grows beyond ten entries. *)
Lemma history_bounded (s : State) :
  length (history s) <= 10 -> length (history (recompute s)) <= 10.
Proof.
  intros H. unfold history in *. unfold recompute. cbn [comparisonData].
  destruct (Recorder.changed s); [|exact H].
  cbn [Recorder.record ComparisonData.history]. rewrite length_app. cbn [length].
  pose proof (newHistory_length _ H). lia.
Qed.

(** ** The cost recorded in a history entry *)

(** C10: the entry appended when the source class changes records, as its
    monthly cost, the compute cost alone: for each tier the monthly cost of
    the instance class selected when the run starts times the node count of
    the derived topology, plus one monitoring instance.  Storage, backup,
    network and Kubernetes costs are not part of it: when the run keeps the
    SQL-tier class, the total monthly cost of the resulting state is the
    recorded cost plus those four. *)
Theorem entry_records_compute_cost (s : State) :
  Recorder.changed s = true ->
  exists e,
    last (history (recompute s)) = Some e
    /\ Entry.monthlyCost e
       = Cost.tidbInstanceCost s * TidbCluster.tidbNodes (tidbCluster (recompute s))
         + Cost.tikvInstanceCost s * TidbCluster.tikvNodes (tidbCluster (recompute s))
         + Cost.pdInstanceCost s * TidbCluster.pdNodes (tidbCluster (recompute s))
         + Cost.tiflashInstanceCost s * TidbCluster.tiflashNodes (tidbCluster (recompute s))
         + Cost.monitoringInstanceCost s
    /\ (Instances.tidbInstanceType (instances s) = suggestedTidbInstanceType s ->
        Cost.totalMonthlyCost (recompute s)
        = Entry.monthlyCost e
          + Cost.totalStorageCost (recompute s)
          + Cost.s3BackupCost (recompute s)
          + Cost.networkCost (recompute s)
          + Cost.totalKubernetesCost (recompute s)).
Proof.
  intros H. exists (Recorder.entry s (comparisonData s)).
  split; [|split].
  - unfold history, recompute. cbn [comparisonData]. rewrite H.
    cbn [Recorder.record ComparisonData.history]. apply last_snoc.
  - cbn [Recorder.entry Entry.monthlyCost recompute tidbCluster updateTidbCluster
         TidbCluster.tidbNodes TidbCluster.tikvNodes TidbCluster.pdNodes
         TidbCluster.tiflashNodes].
    unfold Recorder.totalInstanceCost, Recorder.tidbInstanceCost,
      Recorder.tikvInstanceCost, Recorder.pdInstanceCost,
      Recorder.tiflashInstanceCost, Recorder.monitoringInstanceCost,
      Cost.tidbInstanceCost, Cost.tikvInstanceCost, Cost.pdInstanceCost,
      Cost.tiflashInstanceCost, Cost.monitoringInstanceCost.
    reflexivity.
  - intros Hi. unfold Cost.totalMonthlyCost. do 4 f_equal.
    unfold Cost.totalInstanceCost, Cost.tidbInstanceCost, Cost.tikvInstanceCost,
      Cost.pdInstanceCost, Cost.tiflashInstanceCost, Cost.monitoringInstanceCost.
    cbn [recompute instances updateInstances Instances.tidbInstanceType
         Instances.tikvInstanceType Instances.pdInstanceType
         Instances.tiflashInstanceType Instances.monitoringInstanceType].
    rewrite <- Hi. reflexivity.
Qed.

Lemma entry_records_compute_cost_witness :
  exists e,
    last (history (recompute smallSourceState)) = Some e
    /\ Entry.monthlyCost e
       = Cost.tidbInstanceCost smallSourceState
           * TidbCluster.tidbNodes (tidbCluster (recompute smallSourceState))
         + Cost.tikvInstanceCost smallSourceState
           * TidbCluster.tikvNodes (tidbCluster (recompute smallSourceState))
         + Cost.pdInstanceCost smallSourceState
           * TidbCluster.pdNodes (tidbCluster (recompute smallSourceState))
         + Cost.tiflashInstanceCost smallSourceState
           * TidbCluster.tiflashNodes (tidbCluster (recompute smallSourceState))
         + Cost.monitoringInstanceCost smallSourceState.
Proof.
  destruct (entry_records_compute_cost smallSourceState) as (e & H1 & H2 & _).
  - vm_compute. reflexivity.
  - exists e. split; [exact H1 | exact H2].
Defined.

(** ** Further facts about numbers *)

Section OrderFacts.

Implicit Types a b c : num.

Lemma mul_Fin (x y : Q) : Fin x * Fin y = Fin (x * y).
Proof. reflexivity. Qed.

Lemma add_Fin (x y : Q) : Fin x + Fin y = Fin (x + y).
Proof. reflexivity. Qed.

Lemma sub_Fin (x y : Q) : Fin x - Fin y = Fin (x + - y).
Proof. reflexivity. Qed.

Lemma max_Fin_eq (x y : Q) : max (Fin x) (Fin y) = Fin (maxQ x y).
Proof. unfold max, maxQ. rewrite cmp_Fin. now destruct (x ?= y)%Q. Qed.

Lemma min_Fin_eq (x y : Q) : min (Fin x) (Fin y) = Fin (minQ x y).
Proof. unfold min, minQ. rewrite cmp_Fin. now destruct (x ?= y)%Q. Qed.

Lemma maxQ_spec (x y : Q) :
  (maxQ x y = x /\ (y <= x)%Q) \/ (maxQ x y = y /\ (x < y)%Q).
Proof.
  unfold maxQ. destruct (x ?= y)%Q eqn:E.
  - left. split; [reflexivity|]. apply Qeq_alt in E. rewrite E. apply Qle_refl.
  - right. split; [reflexivity|]. now apply Qlt_alt.
  - left. split; [reflexivity|]. apply Qgt_alt in E. now apply Qlt_le_weak.
Qed.

Lemma minQ_spec (x y : Q) :
  (minQ x y = x /\ (x <= y)%Q) \/ (minQ x y = y /\ (y < x)%Q).
Proof.
  unfold minQ. destruct (x ?= y)%Q eqn:E.
  - left. split; [reflexivity|]. apply Qeq_alt in E. rewrite E. apply Qle_refl.
  - left. split; [reflexivity|]. apply Qlt_alt in E. now apply Qlt_le_weak.
  - right. split; [reflexivity|]. now apply Qgt_alt.
Qed.

Lemma maxQ_mono (x y x' y' : Q) :
  (x <= x')%Q -> (y <= y')%Q -> (maxQ x y <= maxQ x' y')%Q.
Proof.
  intros Hx Hy.
  destruct (maxQ_spec x y) as [[-> H]|[-> H]], (maxQ_spec x' y') as [[-> H']|[-> H']]; lra.
Qed.

Lemma leb_Fin (x y : Q) : leb (Fin x) (Fin y) = true <-> (x <= y)%Q.
Proof.
  unfold leb. rewrite cmp_Fin. destruct (x ?= y)%Q eqn:E.
  - apply Qeq_alt in E. split; [intros _; rewrite E; apply Qle_refl | reflexivity].
  - apply Qlt_alt in E. split; [intros _; now apply Qlt_le_weak | reflexivity].
  - apply Qgt_alt in E. split; [discriminate | intros H; now apply Qle_not_lt in H].
Qed.

Lemma gtb_Fin (x y : Q) : gtb (Fin x) (Fin y) = true <-> (y < x)%Q.
Proof.
  unfold gtb. rewrite cmp_Fin. destruct (x ?= y)%Q eqn:E.
  - apply Qeq_alt in E. split; [discriminate | intros H; rewrite E in H; now apply Qlt_irrefl in H].
  - apply Qlt_alt in E. split; [discriminate | intros H; lra].
  - apply Qgt_alt in E. split; [intros _; exact E | reflexivity].
Qed.

Lemma geb_Fin (x y : Q) : geb (Fin x) (Fin y) = true <-> (y <= x)%Q.
Proof.
  unfold geb. rewrite cmp_Fin. destruct (x ?= y)%Q eqn:E.
  - apply Qeq_alt in E. split; [intros _; rewrite E; apply Qle_refl | reflexivity].
  - apply Qlt_alt in E. split; [discriminate | intros H; now apply Qle_not_lt in H].
  - apply Qgt_alt in E. split; [intros _; now apply Qlt_le_weak | reflexivity].
Qed.

Lemma fle_nle a b : fle a b -> nle a b.
Proof. intros (x & y & -> & -> & H). now apply leb_Fin. Qed.

Lemma fle_refl a : finite a -> fle a a.
Proof. intros [x ->]. exists x, x. repeat split. apply Qle_refl. Qed.

Lemma fle_Fin (x y : Q) : (x <= y)%Q -> fle (Fin x) (Fin y).
Proof. intros H. now exists x, y. Qed.

Lemma fle_ceil a b : fle a b -> fle (ceil a) (ceil b).
Proof.
  intros (x & y & -> & -> & H). apply fle_Fin.
  rewrite <- Zle_Qle. now apply Qceiling_resp_le.
Qed.

Lemma fle_max a a' b b' : fle a a' -> fle b b' -> fle (max a b) (max a' b').
Proof.
  intros (x & x' & -> & -> & Hx) (y & y' & -> & -> & Hy).
  rewrite !max_Fin_eq. apply fle_Fin. now apply maxQ_mono.
Qed.

Lemma fle_mul_r a b c : fle a b -> atLeast 0 c -> fle (a * c) (b * c).
Proof.
  intros (x & y & -> & -> & H) (z & -> & Hz). apply fle_Fin. nra.
Qed.

Lemma fle_div_r a b (q : Q) : fle a b -> (0 < q)%Q -> fle (a / Fin q) (b / Fin q).
Proof.
  intros (x & y & -> & -> & H) Hq.
  assert (Hnz : ~ (q == 0)%Q) by (intros E; rewrite E in Hq; now apply Qlt_irrefl in Hq).
  rewrite !div_Fin by exact Hnz. apply fle_Fin.
  unfold Qdiv. apply Qmult_le_compat_r; [exact H|].
  apply Qlt_le_weak, Qinv_lt_0_compat, Hq.
Qed.

Lemma integer_ofZ (z : Z) : integer (ofZ z).
Proof. exists z. apply eqv_refl. Qed.

Lemma integer_ceil a : finite a -> integer (ceil a).
Proof. intros [x ->]. apply integer_ofZ. Qed.

Lemma integer_max a b : integer a -> integer b -> integer (max a b).
Proof.
  intros [z Hz] [z' Hz'].
  destruct a as [x| | |], b as [y| | |]; simpl in Hz, Hz'; try contradiction.
  rewrite max_Fin_eq.
  destruct (maxQ_spec x y) as [[-> _]|[-> _]]; [now exists z | now exists z'].
Qed.

(** An integer is its own ceiling. *)
Lemma ceil_integer a : integer a -> ceil a ≃ a.
Proof.
  intros [z Hz]. destruct a as [x| | |]; simpl in Hz; try contradiction.
  simpl. rewrite (Qceiling_comp _ _ Hz), Qceiling_Z. now symmetry.
Qed.

End OrderFacts.

(** ** More on the derived topology *)

Lemma suggestedTikvNodesForStorage_finite (s : State) :
  validInputs s -> finite (suggestedTikvNodesForStorage s).
Proof.
  intros valid. unfold suggestedTikvNodesForStorage.
  apply mul_finite; [|now exists (inject_Z 3)].
  apply ceil_finite, div_finite; [|discriminate].
  apply mul_finite; [|exact (atLeast_finite _ _ (valid_replication s valid))].
  apply mul_finite; [|now eexists].
  exact (atLeast_finite _ _ (valid_storageGB s valid)).
Qed.

Lemma atLeast_zero_of (q : Q) (a : num) : (0 <= q)%Q -> atLeast q a -> atLeast 0 a.
Proof. intros H. now apply atLeast_weaken. Qed.

(** X1: on valid inputs, raising the number of write operations per
    second, everything else unchanged, never lowers the derived number of
    storage nodes. *)
Theorem tikvNodes_monotone_in_writeOps (s : State) (w w' : Q) :
  validInputs s -> (w <= w')%Q ->
  nle (TidbCluster.tikvNodes (tidbCluster (recompute (withWriteOps (Fin w) s))))
      (TidbCluster.tikvNodes (tidbCluster (recompute (withWriteOps (Fin w') s)))).
Proof.
  intros valid Hww.
  cbn [recompute tidbCluster updateTidbCluster TidbCluster.tikvNodes].
  apply fle_nle, fle_ceil.
  change (writeHeavyFactor (withWriteOps (Fin w) s)) with (writeHeavyFactor s).
  change (writeHeavyFactor (withWriteOps (Fin w') s)) with (writeHeavyFactor s).
  apply fle_mul_r;
    [|exact (atLeast_zero_of 1 _ ltac:(discriminate) (writeHeavyFactor_atLeast_one s))].
  unfold suggestedTikvNodes.
  apply fle_max; [apply fle_refl; now eexists|].
  apply fle_max.
  - change (suggestedTikvNodesForStorage (withWriteOps (Fin w) s))
      with (suggestedTikvNodesForStorage s).
    change (suggestedTikvNodesForStorage (withWriteOps (Fin w') s))
      with (suggestedTikvNodesForStorage s).
    apply fle_refl. now apply suggestedTikvNodesForStorage_finite.
  - unfold suggestedTikvNodesFromWrites.
    apply fle_max; [apply fle_refl; now eexists|].
    apply fle_mul_r; [|now apply (atLeast_ofZ 3 0)].
    change (Postgres.writeOps (postgres (withWriteOps (Fin w) s))) with (Fin w).
    change (Postgres.writeOps (postgres (withWriteOps (Fin w') s))) with (Fin w').
    apply fle_ceil, fle_div_r; [|reflexivity].
    apply fle_div_r; [|reflexivity].
    now apply fle_Fin.
Qed.

Lemma tikvNodes_monotone_in_writeOps_witness :
  nle (TidbCluster.tikvNodes (tidbCluster (recompute (withWriteOps (Fin 1000) initialState))))
      (TidbCluster.tikvNodes (tidbCluster (recompute (withWriteOps (Fin 90000) initialState)))).
Proof.
  apply (tikvNodes_monotone_in_writeOps initialState 1000 90000).
  - split; solve_atLeast.
  - vm_compute. discriminate.
Defined.

Lemma suggestedTidbNodesFromCpu_atLeast (s : State) :
  validInputs s -> atLeast 3 (suggestedTidbNodesFromCpu s).
Proof.
  intros valid. unfold suggestedTidbNodesFromCpu. apply max_atLeast_l.
  - now apply (atLeast_ofZ 3 3).
  - apply ceil_finite. destruct (vcpuPerTidbNode_nonzero s) as (x & -> & Hx).
    apply div_finite; [now apply effectivePostgresVcpu_finite | exact Hx].
Qed.

Lemma spikeFactor_nonneg (s : State) : validInputs s -> atLeast 0 (spikeFactor s).
Proof.
  intros valid. destruct (spikeFactor_range s valid) as (f & -> & Hf & _).
  exists f. split; [reflexivity|]. lra.
Qed.

(** X2: on valid inputs within the bounds, raising the number of
    concurrent connections to at most a billion, everything else
    unchanged, never lowers the derived number of SQL nodes. *)
Theorem tidbNodes_monotone_in_connections (s : State) (c c' : Q) :
  validInputs s -> boundedInputs s -> (c <= c')%Q -> (c' <= 1000000000)%Q ->
  nle (TidbCluster.tidbNodes (tidbCluster (recompute (withConnections (Fin c) s))))
      (TidbCluster.tidbNodes (tidbCluster (recompute (withConnections (Fin c') s)))).
Proof.
  intros valid _ Hcc _.
  cbn [recompute tidbCluster updateTidbCluster TidbCluster.tidbNodes].
  apply fle_nle, fle_ceil.
  change (spikeFactor (withConnections (Fin c) s)) with (spikeFactor s).
  change (spikeFactor (withConnections (Fin c') s)) with (spikeFactor s).
  apply fle_mul_r; [|now apply spikeFactor_nonneg].
  unfold baseTidbNodes. apply fle_max.
  - change (suggestedTidbNodesFromCpu (withConnections (Fin c) s))
      with (suggestedTidbNodesFromCpu s).
    change (suggestedTidbNodesFromCpu (withConnections (Fin c') s))
      with (suggestedTidbNodesFromCpu s).
    apply fle_refl.
    exact (atLeast_finite _ _ (suggestedTidbNodesFromCpu_atLeast s valid)).
  - unfold suggestedTidbNodesFromConn.
    apply fle_max; [apply fle_refl; now eexists|].
    change (Workload.concurrentConnections (workload (withConnections (Fin c) s)))
      with (Fin c).
    change (Workload.concurrentConnections (workload (withConnections (Fin c') s)))
      with (Fin c').
    apply fle_ceil, fle_div_r; [|reflexivity]. now apply fle_Fin.
Qed.

Lemma tidbNodes_monotone_in_connections_witness :
  nle (TidbCluster.tidbNodes (tidbCluster (recompute (withConnections (Fin 200) initialState))))
      (TidbCluster.tidbNodes (tidbCluster (recompute (withConnections (Fin 9000) initialState)))).
Proof.
  apply (tidbNodes_monotone_in_connections initialState 200 9000).
  - split; solve_atLeast.
  - split; solve_atLeast.
  - vm_compute. discriminate.
  - vm_compute. discriminate.
Defined.

Lemma baseTidbNodes_integer (s : State) : validInputs s -> integer (baseTidbNodes s).
Proof.
  intros valid. unfold baseTidbNodes. apply integer_max.
  - unfold suggestedTidbNodesFromCpu. apply integer_max; [apply integer_ofZ|].
    apply integer_ceil. destruct (vcpuPerTidbNode_nonzero s) as (x & -> & Hx).
    apply div_finite; [now apply effectivePostgresVcpu_finite | exact Hx].
  - unfold suggestedTidbNodesFromConn. apply integer_max; [apply integer_ofZ|].
    apply integer_ceil, div_finite; [|discriminate].
    exact (atLeast_finite _ _ (valid_connections s valid)).
Qed.

Lemma tiflashQuotient_finite (s : State) :
  validInputs s ->
  finite ((Postgres.storageGB (postgres s) * compressionRatio * tiflashReplicas s)
          / (TidbCluster.dataReplicationFactor (tidbCluster s)
             * storageUsageRatio * defaultNodeCapacity)).
Proof.
  intros valid.
  destruct (valid_replication s valid) as (r & -> & Hr).
  destruct (valid_storageGB s valid) as (g & -> & _).
  apply div_finite.
  - unfold tiflashReplicas. destruct (useTiflash s); now eexists.
  - intros E. change (r * (8 # 10) * 4000 == 0)%Q in E.
    change (inject_Z 3) with 3%Q in Hr. lra.
Qed.

(** X3: on valid inputs within the bounds every derived node count is a
    whole number: at least two SQL nodes, at least three storage nodes, no
    analytics node or at least two, and at least six worker nodes. *)
Theorem derived_counts_are_whole (s : State) :
  validInputs s -> boundedInputs s ->
  (integer (TidbCluster.tidbNodes (tidbCluster (recompute s)))
   /\ atLeast 2 (TidbCluster.tidbNodes (tidbCluster (recompute s))))
  /\ (integer (TidbCluster.tikvNodes (tidbCluster (recompute s)))
      /\ atLeast 3 (TidbCluster.tikvNodes (tidbCluster (recompute s))))
  /\ (integer (TidbCluster.tiflashNodes (tidbCluster (recompute s)))
      /\ (TidbCluster.tiflashNodes (tidbCluster (recompute s)) = ofZ 0
          \/ atLeast 2 (TidbCluster.tiflashNodes (tidbCluster (recompute s)))))
  /\ (integer (TidbCluster.k8sWorkerNodes (tidbCluster (recompute s)))
      /\ atLeast 6 (TidbCluster.k8sWorkerNodes (tidbCluster (recompute s)))).
Proof.
  intros valid _. repeat apply conj.
  - cbn [recompute tidbCluster updateTidbCluster TidbCluster.tidbNodes].
    apply integer_ceil, mul_finite.
    + exact (atLeast_finite _ _ (baseTidbNodes_atLeast s valid)).
    + exact (atLeast_finite _ _ (spikeFactor_nonneg s valid)).
  - now apply tidbNodes_atLeast_two.
  - cbn [recompute tidbCluster updateTidbCluster TidbCluster.tikvNodes].
    apply integer_ceil, mul_finite.
    + exact (atLeast_finite _ _ (suggestedTikvNodes_atLeast s valid)).
    + exact (atLeast_finite _ _ (writeHeavyFactor_atLeast_one s)).
  - now apply tikvNodes_atLeast_three.
  - cbn [recompute tidbCluster updateTidbCluster TidbCluster.tiflashNodes].
    unfold suggestedTiflashNodes. destruct (useTiflash s); [|apply integer_ofZ].
    apply integer_max; [apply integer_ofZ|].
    now apply integer_ceil, tiflashQuotient_finite.
  - destruct (tiflashNodes_zero_or_two s valid) as [[_ H]|[_ H]]; [now left | now right].
  - cbn [recompute tidbCluster updateTidbCluster TidbCluster.k8sWorkerNodes].
    unfold suggestedWorkerNodes. apply integer_max; [apply integer_ofZ|].
    apply integer_ceil, div_finite; [now apply totalComponents_finite | discriminate].
  - now apply k8sWorkerNodes_atLeast_six.
Qed.

Lemma derived_counts_are_whole_witness :
  integer (TidbCluster.tidbNodes (tidbCluster (recompute initialState)))
  /\ integer (TidbCluster.tikvNodes (tidbCluster (recompute initialState)))
  /\ integer (TidbCluster.k8sWorkerNodes (tidbCluster (recompute initialState))).
Proof.
  destruct (derived_counts_are_whole initialState) as ((H1 & _) & (H2 & _) & _ & (H3 & _)).
  - split; solve_atLeast.
  - split; solve_atLeast.
  - repeat split; assumption.
Defined.

Lemma multipleOf_max (m : Z) (a b : num) :
  multipleOf m a -> multipleOf m b -> multipleOf m (max a b).
Proof.
  intros [k Hk] [k' Hk'].
  destruct a as [x| | |], b as [y| | |]; simpl in Hk, Hk'; try contradiction.
  rewrite max_Fin_eq.
  destruct (maxQ_spec x y) as [[-> _]|[-> _]]; [now exists k | now exists k'].
Qed.

Lemma multipleOf_ceil_times (m : Z) (a : num) :
  finite a -> multipleOf m (ceil a * ofZ m).
Proof.
  intros [x ->]. exists (Qceiling x). simpl.
  rewrite <- inject_Z_mult. now rewrite Z.mul_comm.
Qed.

Lemma multipleOf_times (m z : Z) (a : num) :
  multipleOf m a -> multipleOf m (a * ofZ z).
Proof.
  intros [k Hk]. destruct a as [x| | |]; simpl in Hk; try contradiction.
  exists (k * z)%Z. simpl. rewrite Hk, <- inject_Z_mult.
  now rewrite Z.mul_assoc.
Qed.

Lemma multipleOf_ceil (m : Z) (a : num) : multipleOf m a -> multipleOf m (ceil a).
Proof.
  intros [k Hk]. exists k.
  apply eqv_trans with a; [|exact Hk].
  apply ceil_integer. now exists (m * k)%Z.
Qed.

Lemma suggestedTikvNodes_multiple (s : State) :
  validInputs s -> multipleOf 3 (suggestedTikvNodes s).
Proof.
  intros valid. unfold suggestedTikvNodes.
  assert (H3 : multipleOf 3 (ofZ 3)) by (exists 1%Z; apply eqv_refl).
  apply multipleOf_max; [exact H3|]. apply multipleOf_max.
  - unfold suggestedTikvNodesForStorage. apply multipleOf_ceil_times.
    apply div_finite; [|discriminate].
    apply mul_finite; [|exact (atLeast_finite _ _ (valid_replication s valid))].
    apply mul_finite; [|now eexists].
    exact (atLeast_finite _ _ (valid_storageGB s valid)).
  - unfold suggestedTikvNodesFromWrites. apply multipleOf_max; [exact H3|].
    apply multipleOf_ceil_times.
    apply div_finite; [|discriminate]. apply div_finite; [|discriminate].
    exact (atLeast_finite _ _ (valid_writeOps s valid)).
Qed.

(** X4: on valid inputs within the bounds the storage tier is sized in
    whole multiples of three nodes, one share per availability zone, unless
    the read/write ratio starts with "50": the factor 1.5 of that case is
    the only one that can break the multiple. *)
Theorem tikvNodes_multiple_of_three (s : State) :
  validInputs s -> boundedInputs s ->
  String.prefix "50" (Workload.readWriteRatio (workload s)) = false ->
  multipleOf 3 (TidbCluster.tikvNodes (tidbCluster (recompute s))).
Proof.
  intros valid _ H50.
  cbn [recompute tidbCluster updateTidbCluster TidbCluster.tikvNodes].
  apply multipleOf_ceil.
  unfold writeHeavyFactor, writeHeavyFactorOf. rewrite H50.
  destruct (String.prefix "30" _); apply multipleOf_times;
    now apply suggestedTikvNodes_multiple.
Qed.

Lemma tikvNodes_multiple_of_three_witness :
  multipleOf 3 (TidbCluster.tikvNodes (tidbCluster (recompute initialState))).
Proof.
  apply tikvNodes_multiple_of_three.
  - split; solve_atLeast.
  - split; solve_atLeast.
  - reflexivity.
Defined.

(** X5: on valid inputs within the bounds the derived number of worker
    nodes, at 1.5 components per worker, has room for every component of
    the derived topology: the SQL, storage, placement and analytics nodes
    and the monitoring instance. *)
Theorem workers_host_all_components (s : State) :
  validInputs s -> boundedInputs s ->
  nle (TidbCluster.tidbNodes (tidbCluster (recompute s))
       + TidbCluster.tikvNodes (tidbCluster (recompute s))
       + TidbCluster.pdNodes (tidbCluster (recompute s))
       + TidbCluster.tiflashNodes (tidbCluster (recompute s))
       + ofZ 1)
      (TidbCluster.k8sWorkerNodes (tidbCluster (recompute s)) * componentsPerWorker).
Proof.
  intros valid _.
  cbn [recompute tidbCluster updateTidbCluster TidbCluster.tidbNodes
       TidbCluster.tikvNodes TidbCluster.pdNodes TidbCluster.tiflashNodes
       TidbCluster.k8sWorkerNodes].
  pose proof (totalComponents_finite s valid) as Ht.
  unfold suggestedWorkerNodes. unfold totalComponents in *.
  destruct Ht as [t ->].
  unfold componentsPerWorker, dec, ofZ.
  rewrite div_Fin by discriminate. rewrite ceil_Fin. unfold ofZ.
  rewrite max_Fin_eq, mul_Fin. apply leb_Fin.
  pose proof (Qle_ceiling (t / (15 # 10))) as Hc.
  assert (Ht : (t <= inject_Z (Qceiling (t / (15 # 10))) * (15 # 10))%Q).
  { assert (E : (t == t / (15 # 10) * (15 # 10))%Q) by (field; discriminate).
    rewrite E at 1. apply Qmult_le_compat_r; [exact Hc | discriminate]. }
  destruct (maxQ_spec (inject_Z 6) (inject_Z (Qceiling (t / (15 # 10)))))
    as [[-> H]|[-> H]]; [|exact Ht].
  eapply Qle_trans; [exact Ht|].
  apply Qmult_le_compat_r; [exact H | discriminate].
Qed.

Lemma workers_host_all_components_witness :
  nle (TidbCluster.tidbNodes (tidbCluster (recompute initialState))
       + TidbCluster.tikvNodes (tidbCluster (recompute initialState))
       + TidbCluster.pdNodes (tidbCluster (recompute initialState))
       + TidbCluster.tiflashNodes (tidbCluster (recompute initialState))
       + ofZ 1)
      (TidbCluster.k8sWorkerNodes (tidbCluster (recompute initialState)) * componentsPerWorker).
Proof.
  apply workers_host_all_components; split; solve_atLeast.
Defined.

(** X6: on valid inputs within the bounds the spike multiplier at most
    doubles the SQL tier, and without traffic spikes the SQL tier is
    exactly the larger of the CPU and the connection candidate. *)
Theorem spikes_at_most_double (s : State) :
  validInputs s -> boundedInputs s ->
  nle (TidbCluster.tidbNodes (tidbCluster (recompute s))) (ofZ 2 * baseTidbNodes s)
  /\ (Workload.trafficSpikes (workload s) = false ->
      TidbCluster.tidbNodes (tidbCluster (recompute s)) ≃ baseTidbNodes s).
Proof.
  intros valid _.
  cbn [recompute tidbCluster updateTidbCluster TidbCluster.tidbNodes].
  destruct (baseTidbNodes_integer s valid) as [z Hz].
  destruct (baseTidbNodes_atLeast s valid) as (b & Eb & Hb).
  rewrite Eb in *. simpl in Hz. split.
  - destruct (spikeFactor_range s valid) as (f & -> & _ & Hf).
    rewrite mul_Fin, ceil_Fin. unfold ofZ. rewrite mul_Fin. apply leb_Fin.
    assert (E : (inject_Z 2 * b == inject_Z (2 * z))%Q).
    { rewrite inject_Z_mult, Hz. reflexivity. }
    rewrite E, <- Zle_Qle, <- (Qceiling_Z (2 * z)).
    apply Qceiling_resp_le. rewrite <- E.
    change (inject_Z 2) with 2%Q. change (inject_Z 3) with 3%Q in Hb. nra.
  - intros Hs. unfold spikeFactor. rewrite Hs.
    unfold ofZ. rewrite mul_Fin, ceil_Fin. unfold ofZ. simpl.
    assert (E : (b * inject_Z 1 == inject_Z z)%Q).
    { rewrite Hz. change (inject_Z 1) with 1%Q. ring. }
    rewrite (Qceiling_comp _ _ E), Qceiling_Z. now symmetry.
Qed.

Lemma spikes_at_most_double_witness :
  nle (TidbCluster.tidbNodes (tidbCluster (recompute initialState)))
      (ofZ 2 * baseTidbNodes initialState).
Proof.
  destruct (spikes_at_most_double initialState) as [H _].
  - split; solve_atLeast.
  - split; solve_atLeast.
  - exact H.
Defined.

(** X7: whatever SQL-tier class the caller had selected, a run replaces
    it by one of the three classes of the memory rule, each of which the
    catalog lists with 8 or 16 vCPU, so the run that follows never sizes
    the SQL tier by the 16 vCPU default of a missing class; the classes of
    the other four roles stay as the caller set them. *)
Theorem selection_is_in_catalog (s : State) :
  (exists e,
     ec2InstanceTypes !! Instances.tidbInstanceType (instances (recompute s)) = Some e
     /\ vcpuPerTidbNode (recompute s) = Spec.vCPU e
     /\ (Spec.vCPU e = ofZ 8 \/ Spec.vCPU e = ofZ 16))
  /\ Instances.tikvInstanceType (instances (recompute s))
     = Instances.tikvInstanceType (instances s)
  /\ Instances.pdInstanceType (instances (recompute s))
     = Instances.pdInstanceType (instances s)
  /\ Instances.tiflashInstanceType (instances (recompute s))
     = Instances.tiflashInstanceType (instances s)
  /\ Instances.monitoringInstanceType (instances (recompute s))
     = Instances.monitoringInstanceType (instances s).
Proof.
  split; [|repeat split].
  unfold vcpuPerTidbNode.
  cbn [recompute instances updateInstances Instances.tidbInstanceType].
  unfold suggestedTidbInstanceType.
  destruct (geb (postgresMemory s) (ofZ 128)); [|destruct (geb (postgresMemory s) (ofZ 64))];
    eexists; (split; [vm_compute; reflexivity|]); split;
    try (vm_compute; reflexivity); (left; reflexivity) || (right; reflexivity).
Qed.

(** ** Operations respect equality of numbers *)

Lemma mul_eqv (a a' b b' : num) : a ≃ a' -> b ≃ b' -> a * b ≃ a' * b'.
Proof.
  destruct a as [x| | |], a' as [x'| | |], b as [y| | |], b' as [y'| | |];
    simpl; try tauto; intros H1 H2;
    try (now rewrite H1, H2); try (rewrite H1; apply eqv_refl);
    try (rewrite H2; apply eqv_refl).
Qed.

Lemma ceil_eqv (a a' : num) : a ≃ a' -> ceil a ≃ ceil a'.
Proof.
  destruct a as [x| | |], a' as [x'| | |]; simpl; try tauto.
  intros H. now rewrite (Qceiling_comp _ _ H).
Qed.

Lemma max_eqv (a a' b b' : num) : a ≃ a' -> b ≃ b' -> max a b ≃ max a' b'.
Proof.
  destruct a as [x| | |], a' as [x'| | |], b as [y| | |], b' as [y'| | |];
    simpl; try tauto; intros H1 H2; try exact H1; try exact H2.
  rewrite !max_Fin_eq. unfold maxQ. rewrite H1, H2.
  now destruct (x' ?= y')%Q.
Qed.

(** The larger of two rationals, when the second is not below the first. *)
Lemma max_absorb (a b : num) : fle a b -> max a b ≃ b.
Proof.
  intros (x & y & -> & -> & H). rewrite max_Fin_eq. simpl.
  destruct (maxQ_spec x y) as [[-> H']|[-> _]]; [|reflexivity].
  now apply Qle_antisym.
Qed.

(** X8: on valid inputs with no data to store, the capacity sizing of the
    storage tier contributes nothing: the storage tier is sized by the
    write operations alone, and an active analytics tier gets its minimum
    of two nodes. *)
Theorem no_data_leaves_write_sizing (s : State) :
  validInputs s ->
  Postgres.storageGB (postgres s) ≃ ofZ 0 ->
  suggestedTikvNodesForStorage s ≃ ofZ 0
  /\ TidbCluster.tikvNodes (tidbCluster (recompute s))
     ≃ ceil (suggestedTikvNodesFromWrites s * writeHeavyFactor s)
  /\ (useTiflash s = true ->
      TidbCluster.tiflashNodes (tidbCluster (recompute s)) ≃ ofZ 2).
Proof.
  intros valid Hg.
  destruct (valid_replication s valid) as (r & Er & Hr).
  destruct (Postgres.storageGB (postgres s)) as [g| | |] eqn:Eg; simpl in Hg; try contradiction.
  change (inject_Z 0) with 0%Q in Hg.
  assert (HS : suggestedTikvNodesForStorage s ≃ ofZ 0).
  { unfold suggestedTikvNodesForStorage. rewrite Eg, Er.
    unfold compressionRatio, storageUsageRatio, defaultNodeCapacity, dec, ofZ.
    rewrite !mul_Fin, div_Fin by discriminate. rewrite ceil_Fin. unfold ofZ.
    rewrite mul_Fin. simpl.
    assert (E : (g * (4 # 10) * r / ((8 # 10) * inject_Z 4000 * inject_Z 3) == inject_Z 0)%Q).
    { rewrite Hg. unfold Qdiv. ring. }
    rewrite (Qceiling_comp _ _ E), Qceiling_Z. reflexivity. }
  split; [exact HS|]. split.
  - cbn [recompute tidbCluster updateTidbCluster TidbCluster.tikvNodes].
    apply ceil_eqv, mul_eqv; [|apply eqv_refl].
    unfold suggestedTikvNodes.
    destruct (suggestedTikvNodesForStorage s) as [x| | |]; simpl in HS; try contradiction.
    assert (HW : atLeast 3 (suggestedTikvNodesFromWrites s)).
    { unfold suggestedTikvNodesFromWrites. apply max_atLeast_l; [now apply (atLeast_ofZ 3 3)|].
      apply mul_finite; [|now eexists].
      apply ceil_finite, div_finite; [|discriminate]. apply div_finite; [|discriminate].
      exact (atLeast_finite _ _ (valid_writeOps s valid)). }
    destruct HW as (w & -> & Hw).
    apply eqv_trans with (max (ofZ 3) (Fin w)).
    + apply max_eqv; [apply eqv_refl|]. apply max_absorb, fle_Fin.
      rewrite HS. change (inject_Z 0) with 0%Q. lra.
    + apply max_absorb, fle_Fin. exact Hw.
  - intros Hu.
    cbn [recompute tidbCluster updateTidbCluster TidbCluster.tiflashNodes].
    unfold suggestedTiflashNodes, tiflashReplicas. rewrite Hu, Eg, Er.
    unfold compressionRatio, storageUsageRatio, defaultNodeCapacity, dec, ofZ.
    assert (Hnz : ~ (r * (8 # 10) * inject_Z 4000 == 0)%Q).
    { change (inject_Z 4000) with 4000%Q. lra. }
    rewrite !mul_Fin, div_Fin by exact Hnz. rewrite ceil_Fin. unfold ofZ.
    rewrite max_Fin_eq. simpl.
    assert (E : (g * (4 # 10) * inject_Z 2 / (r * (8 # 10) * inject_Z 4000) == inject_Z 0)%Q).
    { rewrite Hg. unfold Qdiv. ring. }
    rewrite (Qceiling_comp _ _ E), Qceiling_Z. reflexivity.
Qed.

Lemma no_data_leaves_write_sizing_witness :
  suggestedTikvNodesForStorage noDataState ≃ ofZ 0
  /\ TidbCluster.tiflashNodes (tidbCluster (recompute noDataState)) ≃ ofZ 2.
Proof.
  destruct (no_data_leaves_write_sizing noDataState) as (H1 & _ & H3).
  - split; solve_atLeast.
  - vm_compute. reflexivity.
  - split; [exact H1 | apply H3; reflexivity].
Defined.

(** ** More on the change history *)

(** X9: a run that records a change lengthens a log of fewer than ten
    entries by one and keeps a log of ten entries at ten; a run that
    records no change keeps the length. *)
Theorem history_length_after_run (s : State) :
  length (history s) <= 10 ->
  length (history (recompute s))
  = if Recorder.changed s then Nat.min (length (history s) + 1) 10
    else length (history s).
Proof.
  intros H. unfold history in *. unfold recompute. cbn [comparisonData].
  destruct (Recorder.changed s); [|reflexivity].
  cbn [Recorder.record ComparisonData.history]. rewrite length_app. cbn [length].
  unfold Recorder.newHistory.
  destruct (decide (10 <= length (ComparisonData.history (comparisonData s)))).
  - rewrite length_drop. lia.
  - lia.
Qed.

Lemma history_length_after_run_witness :
  length (history (recompute smallSourceState)) = 1.
Proof.
  rewrite (history_length_after_run smallSourceState).
  - vm_compute. reflexivity.
  - vm_compute. lia.
Defined.

Lemma chained_tail (h : list Entry.t) : chained h -> chained (drop 1 h).
Proof. destruct h as [|e t]; [trivial|]. cbn [drop]. rewrite drop_0. now intros [_ H]. Qed.

Lemma chained_snoc (h : list Entry.t) (e : Entry.t) :
  chained h ->
  (forall l, last h = Some l -> follows l e) ->
  chained (h ++ [e]).
Proof.
  induction h as [|e1 t IH]; intros Hc Hl.
  - simpl. auto.
  - destruct Hc as [H1 Hc]. destruct t as [|e2 t'].
    + simpl. split; [|auto]. now apply Hl.
    + change ((e1 :: e2 :: t') ++ [e]) with (e1 :: (e2 :: t') ++ [e]).
      cbn [chained]. change ((e2 :: t') ++ [e]) with (e2 :: t' ++ [e]).
      split; [exact H1|]. apply IH; [exact Hc|].
      intros l Hlast. apply Hl. rewrite last_cons, Hlast. reflexivity.
Qed.

Lemma chained_lookup (h : list Entry.t) (i : nat) (e1 e2 : Entry.t) :
  chained h -> h !! i = Some e1 -> h !! S i = Some e2 -> follows e1 e2.
Proof.
  revert i. induction h as [|e t IH]; intros i Hc H1 H2; [discriminate|].
  destruct Hc as [Hf Hc]. destruct i as [|i].
  - injection H1 as <-. destruct t as [|e' t']; [discriminate|].
    injection H2 as <-. exact Hf.
  - exact (IH i Hc H1 H2).
Qed.

Lemma last_newHistory (h : list Entry.t) (l : Entry.t) :
  last (Recorder.newHistory h) = Some l -> last h = Some l.
Proof.
  unfold Recorder.newHistory. destruct (decide (10 <= length h)); [|trivial].
  destruct h as [|e t]; [discriminate|]. cbn [drop]. rewrite drop_0.
  intros H. rewrite last_cons, H. reflexivity.
Qed.

Lemma chained_newHistory (h : list Entry.t) : chained h -> chained (Recorder.newHistory h).
Proof.
  unfold Recorder.newHistory. destruct (decide (10 <= length h)); [|trivial].
  apply chained_tail.
Qed.

Lemma linked_recompute (s : State) : linked s -> linked (recompute s).
Proof.
  intros [Hc Hl]. unfold linked, history, Recorder.prevType in *.
  unfold recompute. cbn [comparisonData]. destruct (Recorder.changed s) eqn:E.
  - cbn [Recorder.record ComparisonData.history ComparisonData.previousInstanceType].
    split.
    + apply chained_snoc; [now apply chained_newHistory|].
      intros l Hlast%last_newHistory.
      unfold follows, Recorder.entry, Recorder.lastOr, Recorder.prevType.
      cbn [Entry.from Entry.tidbNodesChange Entry.tikvNodesChange
           Entry.instanceTypeChange fst]. rewrite Hlast.
      repeat split. symmetry. now apply Hl.
    + intros e. rewrite last_snoc. now intros [= <-].
  - now split.
Qed.

Lemma linked_run (us : list State) : forall s, linked s -> linked (run s us).
Proof.
  induction us as [|u us IH]; intros s H; [exact H|].
  cbn [run fold_left]. apply IH. unfold step. apply linked_recompute.
  exact H.
Qed.

(** X10: the recorder keeps the log a chain.  After any sequence of edits
    from a state whose log is such a chain (the empty log is one), every
    entry starts from the source class, the SQL and storage node counts and
    the SQL-tier class that the entry before it arrived at, also across
    evictions, and the last entry arrives at the recorded previous
    class. *)
Theorem history_is_a_chain (s : State) (us : list State) :
  linked s ->
  (forall i e1 e2,
     history (run s us) !! i = Some e1 ->
     history (run s us) !! S i = Some e2 ->
     follows e1 e2)
  /\ (forall e,
        last (history (run s us)) = Some e ->
        Entry.to e = Recorder.prevType (run s us)).
Proof.
  intros H. destruct (linked_run us s H) as [Hc Hl]. split.
  - intros i e1 e2. now apply chained_lookup.
  - exact Hl.
Qed.

Lemma initialState_linked : linked initialState.
Proof. split; [exact I | intros e H; discriminate H]. Qed.

Lemma history_is_a_chain_witness :
  exists e1 e2,
    history (run initialState elevenEdits) !! 8 = Some e1
    /\ history (run initialState elevenEdits) !! 9 = Some e2
    /\ follows e1 e2.
Proof.
  destruct (history_is_a_chain initialState elevenEdits) as [H _].
  - split; [exact I | intros e He; discriminate He].
  - eexists. eexists.
    split; [vm_compute; reflexivity|]. split; [vm_compute; reflexivity|].
    apply (H 8); vm_compute; reflexivity.
Defined.

Lemma changed_true (s : State) :
  Recorder.changed s = true ->
  Recorder.prevType s <> Postgres.instanceType (postgres s).
Proof.
  unfold Recorder.changed. intros H%negb_true_iff E.
  rewrite E, String.eqb_refl in H. discriminate H.
Qed.

Lemma realChanges_recompute (s : State) :
  realChanges (history s) -> realChanges (history (recompute s)).
Proof.
  unfold realChanges, history, recompute. cbn [comparisonData]. intros H.
  destruct (Recorder.changed s) eqn:E; [|exact H].
  cbn [Recorder.record ComparisonData.history].
  apply Forall_app. split.
  - unfold Recorder.newHistory. destruct (decide _); [now apply Forall_drop | exact H].
  - constructor; [|constructor]. cbn [Recorder.entry Entry.from Entry.to].
    now apply changed_true.
Qed.

(** X11: the recorder never logs a transition from a source class to
    itself: after any sequence of edits from a log without such an entry no
    entry of the log has equal from and to classes. *)
Theorem history_has_real_changes (s : State) (us : list State) :
  realChanges (history s) ->
  forall e, e ∈ history (run s us) -> Entry.from e <> Entry.to e.
Proof.
  intros H. apply Forall_forall. revert s H.
  induction us as [|u us IH]; intros s H; [exact H|].
  cbn [run fold_left]. apply IH. unfold step.
  apply realChanges_recompute. exact H.
Qed.

Lemma history_has_real_changes_witness :
  exists e,
    history (run initialState elevenEdits) !! 0 = Some e
    /\ Entry.from e <> Entry.to e.
Proof.
  eexists. split; [vm_compute; reflexivity|].
  apply (history_has_real_changes initialState elevenEdits).
  - constructor.
  - apply list_elem_of_lookup. exists 0. vm_compute. reflexivity.
Defined.

Lemma StronglySorted_snoc (l : list nat) (x : nat) :
  StronglySorted Nat.le l -> Forall (fun i => i <= x) l ->
  StronglySorted Nat.le (l ++ [x]).
Proof.
  induction 1 as [|y l Hs IH Hy]; intros Hx.
  - simpl. repeat constructor.
  - apply Forall_cons in Hx as [Hyx Hx]. simpl. constructor; [now apply IH|].
    apply Forall_app. split; [exact Hy|]. now repeat constructor.
Qed.

Lemma StronglySorted_tail (l : list nat) :
  StronglySorted Nat.le l -> StronglySorted Nat.le (drop 1 l).
Proof.
  destruct l as [|y l]; [trivial|]. cbn [drop]. rewrite drop_0.
  now intros [? _]%StronglySorted_inv.
Qed.

Lemma StronglySorted_lookup (l : list nat) (i j x y : nat) :
  StronglySorted Nat.le l -> i < j -> l !! i = Some x -> l !! j = Some y -> x <= y.
Proof.
  intros Hs. revert i j. induction Hs as [|z l Hs IH Hz]; intros i j Hij Hi Hj.
  - discriminate Hi.
  - destruct j as [|j]; [lia|]. destruct i as [|i].
    + injection Hi as <-. exact (Forall_lookup_1 _ _ _ _ Hz Hj).
    + apply (IH i j); [lia | exact Hi | exact Hj].
Qed.

Lemma idsKept_recompute (s : State) : idsKept (history s) -> idsKept (history (recompute s)).
Proof.
  intros (Hlen & H9 & Hs & Hlt). unfold history in *. unfold recompute.
  cbn [comparisonData]. destruct (Recorder.changed s); [|now repeat split].
  cbn [Recorder.record ComparisonData.history].
  set (h := ComparisonData.history (comparisonData s)) in *.
  unfold idsKept. rewrite map_app. cbn [map].
  rewrite (entry_id s (comparisonData s) Hlen). fold h.
  unfold Recorder.newHistory. destruct (decide (10 <= length h)) as [Hfull|Hnot].
  - assert (E : Nat.min (length h) 9 = 9) by lia. rewrite E.
    rewrite <- skipn_map. repeat split.
    + rewrite length_app, length_drop. cbn [length]. lia.
    + apply Forall_app. split; [now apply Forall_drop | constructor; [lia | constructor]].
    + apply StronglySorted_snoc; [now apply StronglySorted_tail | now apply Forall_drop].
    + rewrite length_app, length_drop. cbn [length]. lia.
  - assert (E : Nat.min (length h) 9 = length h) by lia. rewrite E.
    assert (Hl : Forall (fun i => i < length h) (map Entry.id h)) by (apply Hlt; lia).
    repeat split.
    + rewrite length_app. cbn [length]. lia.
    + apply Forall_app. split; [exact H9 | constructor; [lia | constructor]].
    + apply StronglySorted_snoc; [exact Hs|].
      eapply Forall_impl; [exact Hl|]. cbv beta. lia.
    + intros _. rewrite length_app. cbn [length]. apply Forall_app. split.
      * eapply Forall_impl; [exact Hl|]. cbv beta. lia.
      * constructor; [lia | constructor].
Qed.

(** X12: what the sequence numbers do keep.  After any sequence of edits
    from a log that satisfies it (the empty log does), the log holds at most
    ten entries, no sequence number exceeds 9, and the numbers never
    decrease along the log: an entry further down the log has a number at
    least as large. *)
Theorem ids_never_decrease (s : State) (us : list State) :
  idsKept (history s) ->
  length (history (run s us)) <= 10
  /\ (forall i j e1 e2,
        i < j ->
        history (run s us) !! i = Some e1 ->
        history (run s us) !! j = Some e2 ->
        Entry.id e1 <= Entry.id e2 <= 9).
Proof.
  intros H.
  assert (Hk : idsKept (history (run s us))).
  { revert s H. induction us as [|u us IH]; intros s H; [exact H|].
    cbn [run fold_left]. apply IH. unfold step. apply idsKept_recompute. exact H. }
  destruct Hk as (Hlen & H9 & Hs & _). split; [exact Hlen|].
  intros i j e1 e2 Hij H1 H2.
  assert (G1 : map Entry.id (history (run s us)) !! i = Some (Entry.id e1)).
  { rewrite list_lookup_fmap, H1. reflexivity. }
  assert (G2 : map Entry.id (history (run s us)) !! j = Some (Entry.id e2)).
  { rewrite list_lookup_fmap, H2. reflexivity. }
  split.
  - exact (StronglySorted_lookup _ i j _ _ Hs Hij G1 G2).
  - exact (Forall_lookup_1 _ _ _ _ H9 G2).
Qed.

Lemma initialState_idsKept : idsKept (history initialState).
Proof.
  repeat split; try constructor. simpl. lia.
Qed.

Lemma ids_never_decrease_witness :
  length (history (run initialState elevenEdits)) <= 10.
Proof.
  destruct (ids_never_decrease initialState elevenEdits) as [H _].
  - repeat split; try constructor. simpl. lia.
  - exact H.
Defined.

(** ** More on the cost model *)

Lemma mul_zero_l (a b : num) : strictEq a (ofZ 0) = true -> finite b -> a * b ≃ ofZ 0.
Proof.
  intros Ha [y ->]. destruct a as [x| | |]; try discriminate Ha.
  unfold strictEq, ofZ in Ha. rewrite cmp_Fin in Ha.
  destruct (x ?= inject_Z 0)%Q eqn:E; try discriminate Ha.
  apply Qeq_alt in E. simpl. rewrite E. change (inject_Z 0) with 0%Q. ring.
Qed.

Lemma ebsCost_zero (type : string) (sizeGB : num) :
  strictEq sizeGB (ofZ 0) = true -> ebsCost type sizeGB = ofZ 0.
Proof. intros H. unfold ebsCost, calculateEbsCost. now rewrite H. Qed.

(** X13: a volume of size 0 costs nothing whatever its type, requested
    IOPS and throughput; and when the four EBS sizes are 0 and the four node
    counts are rational numbers, the total storage cost is 0. *)
Theorem no_volumes_no_storage_cost (s : State) :
  (forall type iops throughput, calculateEbsCost type (ofZ 0) iops throughput = ofZ 0)
  /\ (strictEq (Storage.tidbEbsSize (storage s)) (ofZ 0) = true ->
      strictEq (Storage.tikvAdditionalEbsSize (storage s)) (ofZ 0) = true ->
      strictEq (Storage.pdEbsSize (storage s)) (ofZ 0) = true ->
      strictEq (Storage.tiflashEbsSize (storage s)) (ofZ 0) = true ->
      finite (TidbCluster.tidbNodes (tidbCluster s)) ->
      finite (TidbCluster.tikvNodes (tidbCluster s)) ->
      finite (TidbCluster.pdNodes (tidbCluster s)) ->
      finite (TidbCluster.tiflashNodes (tidbCluster s)) ->
      Cost.totalStorageCost s ≃ ofZ 0).
Proof.
  split; [reflexivity|].
  intros H1 H2 H3 H4 F1 F2 F3 F4.
  unfold Cost.totalStorageCost, Cost.tidbStorageCost, Cost.tikvAdditionalStorageCost,
    Cost.pdStorageCost, Cost.tiflashStorageCost.
  rewrite (ebsCost_zero _ _ H1), (ebsCost_zero _ _ H2), (ebsCost_zero _ _ H3),
    (ebsCost_zero _ _ H4).
  assert (Z0 : strictEq (ofZ 0) (ofZ 0) = true) by reflexivity.
  pose proof (mul_zero_l _ _ Z0 F1) as E1. pose proof (mul_zero_l _ _ Z0 F2) as E2.
  pose proof (mul_zero_l _ _ Z0 F3) as E3. pose proof (mul_zero_l _ _ Z0 F4) as E4.
  apply eqv_trans with (ofZ 0 + ofZ 0 + ofZ 0 + ofZ 0); [|reflexivity].
  repeat apply add_eqv; assumption.
Qed.

Lemma no_volumes_no_storage_cost_witness :
  Cost.totalStorageCost noVolumesState ≃ ofZ 0.
Proof.
  destruct (no_volumes_no_storage_cost noVolumesState) as [_ H].
  apply H; try reflexivity; now eexists.
Defined.

Lemma strictEq_Fin_false (x : Q) : ~ (x == 0)%Q -> strictEq (Fin x) (ofZ 0) = false.
Proof.
  intros H. unfold strictEq, ofZ. rewrite cmp_Fin.
  destruct (x ?= inject_Z 0)%Q eqn:E; try reflexivity.
  apply Qeq_alt in E. contradiction.
Qed.

Lemma eqb_false_of_lookup (type key : string) (e : Ebs.t) :
  ebsVolumeTypes !! type = None -> ebsVolumeTypes !! key = Some e ->
  String.eqb type key = false.
Proof.
  intros Hn Hs. destruct (String.eqb type key) eqn:E; [|reflexivity].
  apply String.eqb_eq in E. subst. congruence.
Qed.

Lemma ebsCost_nonzero (type : string) (x : Q) :
  ~ (x == 0)%Q ->
  ebsCost type (Fin x)
  = if String.eqb type "io1" || String.eqb type "io2"
    then Fin x * toNumber (Ebs.basePrice <$> ebsTypeOf type)
         + ofZ 3000 * toNumber (ebsTypeOf type ≫= Ebs.iopsPrice)
    else Fin x * toNumber (Ebs.basePrice <$> ebsTypeOf type).
Proof.
  intros Hx. unfold ebsCost, calculateEbsCost.
  rewrite (strictEq_Fin_false x Hx).
  change (gtb (ofZ 3000) (ofZ 3000)) with false.
  change (gtb (ofZ 125) (ofZ 125)) with false.
  change (truthy (ofZ 3000)) with true.
  rewrite !andb_false_r, andb_true_r. reflexivity.
Qed.

Lemma ebsVolumeTypes_entries :
  ebsVolumeTypes !! "gp3" = Some gp3
  /\ ebsVolumeTypes !! "gp2" = Some (Ebs.Make (dec 10 100) None None)
  /\ ebsVolumeTypes !! "io1" = Some (Ebs.Make (dec 125 1000) None (Some (dec 65 1000)))
  /\ ebsVolumeTypes !! "io2" = Some (Ebs.Make (dec 125 1000) None (Some (dec 65 1000))).
Proof. repeat split; vm_compute; reflexivity. Qed.

Lemma ebsTypeOf_listed (type : string) (e : Ebs.t) :
  ebsVolumeTypes !! type = Some e -> ebsTypeOf type = Some e.
Proof. intros H. unfold ebsTypeOf. now rewrite H. Qed.

Lemma ebsTypeOf_unknown (type : string) :
  ebsVolumeTypes !! type = None -> inherited type = false -> ebsTypeOf type = Some gp3.
Proof. intros H Hi. unfold ebsTypeOf. now rewrite H, Hi. Qed.

(** No catalog or price table has an entry under an inherited name. *)
Lemma inherited_not_listed (type : string) :
  inherited type = true ->
  ebsVolumeTypes !! type = None
  /\ postgresInstanceTypes !! type = None
  /\ ec2InstanceTypes !! type = None.
Proof.
  unfold inherited, inheritedNames. cbn [existsb]. intros H.
  repeat (apply orb_prop in H as [H|H];
          [apply String.eqb_eq in H; subst type; repeat split; vm_compute; reflexivity|]).
  discriminate H.
Qed.

Lemma ebsTypeOf_inherited (type : string) :
  inherited type = true -> ebsTypeOf type = None.
Proof.
  intros H. destruct (inherited_not_listed type H) as (E & _).
  unfold ebsTypeOf. now rewrite E, H.
Qed.

(** X14: what the two-argument calls of the render body charge for a
    volume of non-zero size [x]: 0.08 per GB for gp3, 0.10 per GB for gp2,
    0.125 per GB plus the default 3000 IOPS at 0.065 for io1 and io2, and
    the gp3 rate of 0.08 per GB for a type the price table does not know;
    under the name of an inherited object property the price table
    answers with an object that has no price, and the charge is NaN. *)
Theorem ebs_cost_by_type (x : Q) (type : string) :
  ~ (x == 0)%Q ->
  ebsCost "gp3" (Fin x) ≃ Fin (x * (8 # 100))
  /\ ebsCost "gp2" (Fin x) ≃ Fin (x * (10 # 100))
  /\ ebsCost "io1" (Fin x) ≃ Fin (x * (125 # 1000) + 3000 * (65 # 1000))
  /\ ebsCost "io2" (Fin x) ≃ Fin (x * (125 # 1000) + 3000 * (65 # 1000))
  /\ (ebsVolumeTypes !! type = None -> inherited type = false ->
      ebsCost type (Fin x) ≃ Fin (x * (8 # 100)))
  /\ (inherited type = true -> ebsCost type (Fin x) = NaN).
Proof.
  intros Hx. destruct ebsVolumeTypes_entries as (E1 & E2 & E3 & E4).
  rewrite !ebsCost_nonzero by exact Hx.
  rewrite (ebsTypeOf_listed _ _ E1), (ebsTypeOf_listed _ _ E2),
    (ebsTypeOf_listed _ _ E3), (ebsTypeOf_listed _ _ E4).
  change (String.eqb "gp3" "io1" || String.eqb "gp3" "io2") with false.
  change (String.eqb "gp2" "io1" || String.eqb "gp2" "io2") with false.
  change (String.eqb "io1" "io1" || String.eqb "io1" "io2") with true.
  change (String.eqb "io2" "io1" || String.eqb "io2" "io2") with true.
  cbn [fmap option_fmap option_map mbind option_bind].
  unfold gp3. cbn [Ebs.basePrice Ebs.iopsPrice toNumber].
  unfold dec, ofZ. rewrite !mul_Fin, !add_Fin.
  repeat split; try apply eqv_refl.
  - intros Hn Hi.
    rewrite (eqb_false_of_lookup type "io1" _ Hn E3).
    rewrite (eqb_false_of_lookup type "io2" _ Hn E4).
    rewrite (ebsTypeOf_unknown type Hn Hi).
    cbn [orb fmap option_fmap option_map]. unfold gp3.
    cbn [Ebs.basePrice toNumber]. unfold dec.
    rewrite mul_Fin. apply eqv_refl.
  - intros Hi. destruct (inherited_not_listed type Hi) as (Hn & _).
    rewrite (eqb_false_of_lookup type "io1" _ Hn E3).
    rewrite (eqb_false_of_lookup type "io2" _ Hn E4).
    rewrite (ebsTypeOf_inherited type Hi). reflexivity.
Qed.

Lemma ebs_cost_by_type_witness :
  ebsCost "io1" (Fin 100) ≃ Fin (100 * (125 # 1000) + 3000 * (65 # 1000))
  /\ ebsCost "st1" (Fin 100) ≃ Fin (100 * (8 # 100)).
Proof.
  destruct (ebs_cost_by_type 100 "st1") as (_ & _ & H & _ & U & _).
  - vm_compute. discriminate.
  - split; [exact H|]. apply U; vm_compute; reflexivity.
Defined.

Lemma add_atLeast_zero (a b : num) : atLeast 0 a -> atLeast 0 b -> atLeast 0 (a + b).
Proof.
  intros (x & -> & Hx) (y & -> & Hy). exists (x + y)%Q. split; [reflexivity|]. lra.
Qed.

Lemma mul_atLeast_zero (a b : num) : atLeast 0 a -> atLeast 0 b -> atLeast 0 (a * b).
Proof.
  intros (x & -> & Hx) (y & -> & Hy). exists (x * y)%Q. split; [reflexivity|]. nra.
Qed.

Lemma sub_atLeast_zero (x y : Q) : gtb (Fin x) (Fin y) = true -> atLeast 0 (Fin x - Fin y).
Proof.
  intros H%gtb_Fin. exists (x + - y)%Q. split; [reflexivity|]. lra.
Qed.

Lemma basePrice_nonneg (type : string) :
  inherited type = false ->
  atLeast 0 (toNumber (Ebs.basePrice <$> ebsTypeOf type)).
Proof.
  intros Hi.
  assert (H : map_Forall (fun _ e => exists q, Ebs.basePrice e = Fin q /\ (0 <= q)%Q)
                ebsVolumeTypes).
  { apply map_Forall_to_list. vm_compute.
    repeat constructor; eexists; (split; [reflexivity | discriminate]). }
  destruct (ebsVolumeTypes !! type) as [e|] eqn:E.
  - rewrite (ebsTypeOf_listed _ _ E). exact (H type e E).
  - rewrite (ebsTypeOf_unknown _ E Hi).
    exists (8 # 100). split; [reflexivity | discriminate].
Qed.

(** X15: for a size, a number of IOPS and a throughput that are
    non-negative rationals, the cost of a volume of any type, known to the
    price table or not, other than the name of an inherited object
    property, is a non-negative rational: never negative, infinite or
    NaN. *)
Theorem ebs_cost_is_nonnegative (type : string) (sizeGB iops throughput : num) :
  inherited type = false ->
  atLeast 0 sizeGB -> atLeast 0 iops -> atLeast 0 throughput ->
  atLeast 0 (calculateEbsCost type sizeGB iops throughput).
Proof.
  intros Hinh Hs (i & -> & Hi) (t & -> & Ht).
  destruct ebsVolumeTypes_entries as (E1 & E2 & E3 & E4).
  apply ebsTypeOf_listed in E1, E3, E4.
  unfold calculateEbsCost.
  destruct (strictEq sizeGB (ofZ 0)); [now apply (atLeast_ofZ 0 0)|].
  pose proof (mul_atLeast_zero _ _ Hs (basePrice_nonneg type Hinh)) as H0.
  set (cost0 := sizeGB * toNumber (Ebs.basePrice <$> ebsTypeOf type)) in *.
  assert (H1 : atLeast 0
    (if String.eqb type "gp3" && gtb (Fin i) (ofZ 3000)
     then cost0 + (Fin i - ofZ 3000) * toNumber (ebsTypeOf type ≫= Ebs.iopsPrice)
     else cost0)).
  { destruct (String.eqb type "gp3") eqn:Eg; [|exact H0].
    apply String.eqb_eq in Eg. subst type. rewrite E1. cbn [andb].
    destruct (gtb (Fin i) (ofZ 3000)) eqn:G; [|exact H0].
    apply add_atLeast_zero; [exact H0|]. apply mul_atLeast_zero.
    - now apply sub_atLeast_zero.
    - eexists. split; [reflexivity | discriminate]. }
  set (cost1 := if String.eqb type "gp3" && gtb (Fin i) (ofZ 3000) then _ else _) in *.
  assert (H2 : atLeast 0
    (if String.eqb type "gp3" && gtb (Fin t) (ofZ 125)
     then cost1 + (Fin t - ofZ 125) * toNumber (ebsTypeOf type ≫= Ebs.throughputPrice)
     else cost1)).
  { destruct (String.eqb type "gp3") eqn:Eg; [|exact H1].
    apply String.eqb_eq in Eg. subst type. rewrite E1. cbn [andb].
    destruct (gtb (Fin t) (ofZ 125)) eqn:G; [|exact H1].
    apply add_atLeast_zero; [exact H1|]. apply mul_atLeast_zero.
    - now apply sub_atLeast_zero.
    - eexists. split; [reflexivity | discriminate]. }
  set (cost2 := if String.eqb type "gp3" && gtb (Fin t) (ofZ 125) then _ else _) in *.
  cbv zeta.
  destruct ((String.eqb type "io1" || String.eqb type "io2") && truthy (Fin i)) eqn:Eio;
    [|exact H2].
  apply andb_prop in Eio as [Eio _].
  apply add_atLeast_zero; [exact H2|]. apply mul_atLeast_zero.
  - now exists i.
  - apply orb_prop in Eio as [Eio|Eio]; apply String.eqb_eq in Eio; subst type.
    + rewrite E3. eexists. split; [reflexivity | discriminate].
    + rewrite E4. eexists. split; [reflexivity | discriminate].
Qed.

Lemma ebs_cost_is_nonnegative_witness :
  atLeast 0 (calculateEbsCost "gp3" (ofZ 500) (ofZ 4000) (ofZ 250)).
Proof.
  apply ebs_cost_is_nonnegative; [reflexivity | solve_atLeast ..].
Defined.

(** X16: larger savings never lengthen the payback.  Of two states with
    the same rational, non-negative migration cost and positive rational
    monthly savings, the one with the larger savings has a payback period
    that is not longer. *)
Theorem payback_shrinks_with_savings (s s' : State) (v v' m : Q) :
  Cost.monthlySavings s = Fin v -> Cost.monthlySavings s' = Fin v' ->
  (0 < v)%Q -> (v <= v')%Q ->
  Cost.oneTimeCosts s = Fin m -> Cost.oneTimeCosts s' = Fin m -> (0 <= m)%Q ->
  nle (Cost.paybackPeriodMonths s') (Cost.paybackPeriodMonths s).
Proof.
  intros Hv Hv' Hpos Hle Hm Hm' Hm0.
  assert (Hpos' : (0 < v')%Q) by lra.
  assert (G : gtb (Fin v) (ofZ 0) = true) by now apply gtb_Fin.
  assert (G' : gtb (Fin v') (ofZ 0) = true) by now apply gtb_Fin.
  unfold Cost.paybackPeriodMonths. rewrite Hv, Hv', G, G', Hm, Hm'.
  rewrite !div_Fin by lra. apply leb_Fin.
  apply Qle_shift_div_r; [exact Hpos'|].
  assert (Hk : (0 <= m / v)%Q) by (apply Qle_shift_div_l; [exact Hpos | lra]).
  assert (E : (m == m / v * v)%Q) by (field; lra).
  set (k := (m / v)%Q) in *. clearbody k. nra.
Qed.

Lemma payback_shrinks_with_savings_witness :
  nle (Cost.paybackPeriodMonths costlierSourceState)
      (Cost.paybackPeriodMonths costlySourceState).
Proof.
  eapply (payback_shrinks_with_savings costlySourceState costlierSourceState).
  - vm_compute. reflexivity.
  - vm_compute. reflexivity.
  - vm_compute. reflexivity.
  - vm_compute. discriminate.
  - vm_compute. reflexivity.
  - vm_compute. reflexivity.
  - vm_compute. discriminate.
Defined.


(** X18: for a positive rational source cost and a rational total cost,
    the savings percentage is non-negative exactly when the monthly savings
    are, so the two summary figures always get the same colour. *)
Theorem savings_figures_agree_in_sign (s : State) (c t : Q) :
  Cost.postgresMonthlyCost s = Fin c -> (0 < c)%Q ->
  Cost.totalMonthlyCost s = Fin t ->
  geb (Cost.savingsPercentage s) (ofZ 0) = geb (Cost.monthlySavings s) (ofZ 0).
Proof.
  intros Hc Hpos Ht.
  assert (Hnz : ~ (c == 0)%Q) by (intros E; rewrite E in Hpos; now apply Qlt_irrefl in Hpos).
  assert (G : gtb (Fin c) (ofZ 0) = true) by now apply gtb_Fin.
  unfold Cost.savingsPercentage, Cost.monthlySavings. rewrite Hc, G, Ht.
  rewrite sub_Fin. unfold ofZ. rewrite div_Fin by exact Hnz. rewrite mul_Fin.
  apply eq_true_iff_eq. rewrite !geb_Fin.
  change (inject_Z 0) with 0%Q. change (inject_Z 100) with 100%Q.
  set (d := (c + - t)%Q).
  assert (Hinv : (0 < / c)%Q) by now apply Qinv_lt_0_compat.
  unfold Qdiv. split; intros H.
  - assert (E : (d == d * / c * 100 * (c * (1 # 100)))%Q) by (field; exact Hnz).
    rewrite E. apply Qmult_le_0_compat; [exact H | nra].
  - apply Qmult_le_0_compat; [|discriminate].
    apply Qmult_le_0_compat; [exact H | lra].
Qed.

Lemma savings_figures_agree_in_sign_witness :
  geb (Cost.savingsPercentage costlySourceState) (ofZ 0)
  = geb (Cost.monthlySavings costlySourceState) (ofZ 0).
Proof.
  destruct (Cost.totalMonthlyCost costlySourceState) as [t| | |] eqn:Et;
    try (vm_compute in Et; discriminate Et).
  apply (savings_figures_agree_in_sign costlySourceState 20000 t).
  - reflexivity.
  - reflexivity.
  - exact Et.
Defined.

(** ** The source form *)

(** X19: after the form changes the source class, the number of
    primaries, the number of read replicas or the multi-AZ flag, the stored
    source monthly cost is the catalog price of the deployment as it now
    stands; a change of any other input of the form leaves that catalog
    price as it was, and leaves the stored cost alone unless the input is the
    cost itself. *)
Theorem form_keeps_catalog_price (e : event) (s : State) :
  formEvent e ->
  (repricing e = true ->
     Postgres.monthlyCost (postgres (handlePostgresChange e s))
     = catalogPrice (postgres (handlePostgresChange e s)))
  /\ (repricing e = false ->
        catalogPrice (postgres (handlePostgresChange e s)) = catalogPrice (postgres s)
        /\ forall name value,
             e = NumberInput name value ->
             Postgres.monthlyCost (postgres (handlePostgresChange e s))
             = if String.eqb name "monthlyCost" then value
               else Postgres.monthlyCost (postgres s)).
Proof.
  intros Hf. destruct e as [name value|name checked|name value]; cbn [formEvent] in Hf.
  - unfold numberInputs in Hf. rewrite !elem_of_cons, elem_of_nil in Hf.
    destruct Hf as [->|[->|[->|[->|[->|[->|[->|[]]]]]]]]; split; intros Hr;
      try discriminate Hr; try reflexivity;
      (split; [reflexivity|]); intros n v [= <- <-]; reflexivity.
  - subst name. split; [reflexivity | discriminate].
  - subst name. split; [reflexivity | discriminate].
Qed.

Lemma form_keeps_catalog_price_witness :
  Postgres.monthlyCost (postgres (handlePostgresChange (NumberInput "instanceCount" (ofZ 4)) initialState))
  = catalogPrice (postgres (handlePostgresChange (NumberInput "instanceCount" (ofZ 4)) initialState)).
Proof.
  destruct (form_keeps_catalog_price (NumberInput "instanceCount" (ofZ 4)) initialState)
    as [H _].
  - unfold formEvent, numberInputs. apply list_elem_of_here.
  - apply H. reflexivity.
Defined.

(** ** The impact and comparison tables *)

Lemma ec2_positive (k : string) (e : Spec.t) :
  ec2InstanceTypes !! k = Some e -> positiveSpec e.
Proof.
  revert k e.
  change (map_Forall (fun _ e => positiveSpec e) ec2InstanceTypes).
  apply map_Forall_to_list. vm_compute.
  repeat constructor; eexists; (split; [reflexivity | reflexivity]).
Qed.

Lemma postgres_positive (k : string) (e : Spec.t) :
  postgresInstanceTypes !! k = Some e -> positiveSpec e.
Proof.
  revert k e.
  change (map_Forall (fun _ e => positiveSpec e) postgresInstanceTypes).
  apply map_Forall_to_list. vm_compute.
  repeat constructor; eexists; (split; [reflexivity | reflexivity]).
Qed.

Lemma positive_finite (a : num) : positive a -> finite a.
Proof. intros (q & -> & _). now exists q. Qed.

Lemma orElse_positive (a d : num) : positive a -> orElse (Some a) d = a.
Proof.
  intros (q & -> & Hq). simpl. destruct (Qeq_bool q 0) eqn:E; [|reflexivity].
  apply Qeq_bool_iff in E. rewrite E in Hq. now apply Qlt_irrefl in Hq.
Qed.

(** The class the memory rule names is in the catalog. *)
Lemma recommended_in_catalog (pgMemory : num) :
  recommendedInstanceType pgMemory ∈ recommendedClasses
  /\ exists e, ec2InstanceTypes !! recommendedInstanceType pgMemory = Some e.
Proof.
  unfold recommendedInstanceType, recommendedClasses.
  destruct (geb pgMemory (ofZ 128)); [|destruct (geb pgMemory (ofZ 64))];
    (split; [rewrite !elem_of_cons; tauto | eexists; vm_compute; reflexivity]).
Qed.

Lemma add_NaN_l (a : num) : NaN + a = NaN.
Proof. now destruct a. Qed.

Lemma add_NaN_r (a : num) : a + NaN = NaN.
Proof. now destruct a. Qed.

Lemma mul_NaN_l (a : num) : NaN * a = NaN.
Proof. now destruct a. Qed.

Lemma strictField_listed (table : gmap string Spec.t) (key : string)
    (f : Spec.t -> num) (e : Spec.t) :
  table !! key = Some e -> strictField table key f = Some (f e).
Proof. intros H. unfold strictField. now rewrite H. Qed.

Lemma strictField_unknown (table : gmap string Spec.t) (key : string) (f : Spec.t -> num) :
  table !! key = None -> inherited key = false -> strictField table key f = None.
Proof. intros H Hi. unfold strictField. now rewrite H, Hi. Qed.

Lemma strictField_inherited (key : string) (f : Spec.t -> num) :
  inherited key = true -> strictField postgresInstanceTypes key f = Some NaN.
Proof.
  intros Hi. destruct (inherited_not_listed key Hi) as (_ & E & _).
  unfold strictField. now rewrite E, Hi.
Qed.

Lemma impactRow_eq (s : State) (type : string) (e : Spec.t) :
  postgresInstanceTypes !! type = Some e ->
  exists p,
    positive p
    /\ field ec2InstanceTypes (recommendedInstanceType (Spec.memory e)) Spec.monthlyCost = Some p
    /\ impactRow s type
       = Some {| Impact.name := type;
                 Impact.vCPU := Spec.vCPU e;
                 Impact.memory := Spec.memory e;
                 Impact.tidbNodes :=
                   max (ofZ 3)
                     (ceil ((Spec.vCPU e * Postgres.instanceCount (postgres s)) / ofZ 16));
                 Impact.instanceType := recommendedInstanceType (Spec.memory e);
                 Impact.tidbCost :=
                   p * max (ofZ 3)
                         (ceil ((Spec.vCPU e * Postgres.instanceCount (postgres s)) / ofZ 16)) |}.
Proof.
  intros He.
  destruct (recommended_in_catalog (Spec.memory e)) as (_ & e' & He').
  exists (Spec.monthlyCost e'). split; [exact (proj2 (proj2 (ec2_positive _ _ He')))|].
  unfold impactRow, field.
  rewrite !(strictField_listed _ _ _ _ He). cbn [mbind option_bind].
  rewrite !(strictField_listed _ _ _ _ He'), He'. split; reflexivity.
Qed.

Lemma estimate_whole (v c : num) :
  finite v -> finite c ->
  integer (max (ofZ 3) (ceil ((v * c) / ofZ 16)))
  /\ atLeast 3 (max (ofZ 3) (ceil ((v * c) / ofZ 16))).
Proof.
  intros Hv Hc.
  assert (F : finite (ceil ((v * c) / ofZ 16))).
  { apply ceil_finite, div_finite; [now apply mul_finite | discriminate]. }
  split.
  - apply integer_max; [apply integer_ofZ|].
    apply integer_ceil, div_finite; [now apply mul_finite | discriminate].
  - apply max_atLeast_l; [now apply (atLeast_ofZ 3 3) | exact F].
Qed.

Lemma Forall2_impl_elem {A B : Type} (P Q : A -> B -> Prop) (l : list A) (k : list B) :
  Forall2 P l k -> (forall x y, x ∈ l -> P x y -> Q x y) -> Forall2 Q l k.
Proof.
  induction 1 as [|x y l k Hxy H IH]; intros HPQ; constructor.
  - apply HPQ; [apply list_elem_of_here | exact Hxy].
  - apply IH. intros x' y' Hin. apply HPQ. now apply list_elem_of_further.
Qed.

(** X20: the impact table never fails with a TypeError: for every state
    it has one row per source class of the catalog, in the order of the
    catalog, carrying the vCPU and memory of that class and a recommended
    class out of the three of the memory rule; when the number of primaries
    is at least one and at most a billion, the estimated SQL node count of
    every row is a whole number of at least three. *)
Theorem impact_table_is_defined (s : State) :
  exists rows,
    instanceTypeImpactData s = Some rows
    /\ Forall2
         (fun type row =>
            Impact.name row = type
            /\ (exists e,
                  postgresInstanceTypes !! type = Some e
                  /\ Impact.vCPU row = Spec.vCPU e
                  /\ Impact.memory row = Spec.memory e
                  /\ Impact.instanceType row = recommendedInstanceType (Spec.memory e))
            /\ Impact.instanceType row ∈ recommendedClasses
            /\ (atLeast 1 (Postgres.instanceCount (postgres s)) ->
                atMost 1000000000 (Postgres.instanceCount (postgres s)) ->
                integer (Impact.tidbNodes row) /\ atLeast 3 (Impact.tidbNodes row)))
         postgresInstanceTypeKeys rows.
Proof.
  assert (Hk : Forall (fun type => is_Some (postgresInstanceTypes !! type))
                 postgresInstanceTypeKeys).
  { unfold postgresInstanceTypeKeys. repeat constructor; eexists; vm_compute; reflexivity. }
  assert (Hs : is_Some (instanceTypeImpactData s)).
  { apply mapM_is_Some. eapply Forall_impl; [exact Hk|].
    intros type [e He]. destruct (impactRow_eq s type e He) as (p & _ & _ & E).
    unfold compose. rewrite E. eauto. }
  destruct Hs as [rows Hrows]. exists rows. split; [exact Hrows|].
  apply mapM_Some in Hrows.
  eapply Forall2_impl_elem; [exact Hrows|]. clear Hrows.
  intros type row Hin Hrow.
  destruct (proj1 (Forall_forall _ _) Hk type Hin) as [e He].
  destruct (impactRow_eq s type e He) as (p & Hp & _ & E).
  cbv beta in Hrow. rewrite E in Hrow. injection Hrow as <-.
  cbn [Impact.name Impact.vCPU Impact.memory Impact.instanceType Impact.tidbNodes].
  split; [reflexivity|]. split; [now exists e|].
  split; [apply recommended_in_catalog|].
  intros Hc _. apply estimate_whole; [|exact (atLeast_finite _ _ Hc)].
  exact (positive_finite _ (proj1 (postgres_positive _ _ He))).
Qed.

Lemma monitoring_positive (s : State) : positive (Cost.monitoringInstanceCost s).
Proof.
  unfold Cost.monitoringInstanceCost, field.
  destruct (ec2InstanceTypes !! _) as [e|] eqn:E.
  - cbn [fmap option_fmap option_map].
    pose proof (proj2 (proj2 (ec2_positive _ _ E))) as Hp.
    now rewrite (orElse_positive _ _ Hp).
  - exists 246%Q. split; reflexivity.
Qed.

Lemma getTidbEquivalentConfig_eq (s : State) (c : PgConfig.t) (e : Spec.t) :
  postgresInstanceTypes !! PgConfig.instanceType c = Some e ->
  exists p,
    positive p
    /\ field ec2InstanceTypes (recommendedInstanceType (Spec.memory e)) Spec.monthlyCost = Some p
    /\ getTidbEquivalentConfig s c
       = let nodes := max (ofZ 3) (ceil ((Spec.vCPU e * ofZ 2) / ofZ 16)) in
         let total := p * nodes + ofZ 998 * ofZ 3 + ofZ 278 * ofZ 3
                      + Cost.monitoringInstanceCost s in
         Some {| Equivalent.tidbNodes := nodes;
                 Equivalent.instanceType := recommendedInstanceType (Spec.memory e);
                 Equivalent.monthlyCost := total;
                 Equivalent.savings := PgConfig.monthlyCost c - total;
                 Equivalent.savingsPercentage :=
                   ((PgConfig.monthlyCost c - total) / PgConfig.monthlyCost c) * ofZ 100 |}.
Proof.
  intros He.
  destruct (recommended_in_catalog (Spec.memory e)) as (_ & e' & He').
  exists (Spec.monthlyCost e'). split; [exact (proj2 (proj2 (ec2_positive _ _ He')))|].
  unfold getTidbEquivalentConfig, field.
  rewrite !(strictField_listed _ _ _ _ He). cbn [mbind option_bind].
  rewrite !(strictField_listed _ _ _ _ He').
  assert (E1 : strictField ec2InstanceTypes "i3.4xlarge" Spec.monthlyCost = Some (ofZ 998))
    by (vm_compute; reflexivity).
  assert (E2 : strictField ec2InstanceTypes "m5.2xlarge" Spec.monthlyCost = Some (ofZ 278))
    by (vm_compute; reflexivity).
  rewrite E1, E2, He'. split; reflexivity.
Qed.

Lemma getTidbEquivalentConfig_inherited (s : State) (c : PgConfig.t) :
  inherited (PgConfig.instanceType c) = true ->
  getTidbEquivalentConfig s c
  = Some {| Equivalent.tidbNodes := NaN;
            Equivalent.instanceType := "c5.4xlarge";
            Equivalent.monthlyCost := NaN;
            Equivalent.savings := PgConfig.monthlyCost c - NaN;
            Equivalent.savingsPercentage :=
              ((PgConfig.monthlyCost c - NaN) / PgConfig.monthlyCost c) * ofZ 100 |}.
Proof.
  intros Hi. unfold getTidbEquivalentConfig.
  rewrite !(strictField_inherited _ _ Hi).
  cbn [mbind option_bind].
  change (recommendedInstanceType NaN) with "c5.4xlarge".
  assert (E0 : strictField ec2InstanceTypes "c5.4xlarge" Spec.monthlyCost = Some (ofZ 493))
    by (vm_compute; reflexivity).
  assert (E1 : strictField ec2InstanceTypes "i3.4xlarge" Spec.monthlyCost = Some (ofZ 998))
    by (vm_compute; reflexivity).
  assert (E2 : strictField ec2InstanceTypes "m5.2xlarge" Spec.monthlyCost = Some (ofZ 278))
    by (vm_compute; reflexivity).
  rewrite E0, E1, E2. cbn [mbind option_bind].
  change (max (ofZ 3) (ceil (NaN * ofZ 2 / ofZ 16))) with NaN.
  change (ofZ 493 * NaN) with NaN.
  rewrite !add_NaN_l. reflexivity.
Qed.

Lemma mapM_pairs {A B : Type} (f : A -> option B) (l : list A) (rows : list (A * B)) :
  mapM (fun c => t ← f c; Some (c, t)) l = Some rows -> map fst rows = l.
Proof.
  intros H%mapM_Some. induction H as [|c row l rows Hrow _ IH]; [reflexivity|].
  cbn [map]. rewrite IH. f_equal.
  destruct (f c); [|discriminate Hrow]. now injection Hrow as <-.
Qed.

(** X21: the comparison of one reference configuration fails with a
    TypeError exactly when its source class is a name the catalog object
    does not answer to, neither listed nor inherited (the three
    recommended classes and the two fixed classes of the storage and
    placement tiers are all listed); under an inherited name nothing is
    thrown and the node count and the monthly cost of the result are NaN;
    and the comparison table of the component is defined for every state
    and has the four rows Small, Medium, Large and X-Large in this order. *)
Theorem comparison_fails_only_on_missing_class (s : State) (c : PgConfig.t) :
  (getTidbEquivalentConfig s c = None
   <-> postgresInstanceTypes !! PgConfig.instanceType c = None
       /\ inherited (PgConfig.instanceType c) = false)
  /\ (inherited (PgConfig.instanceType c) = true ->
      exists r,
        getTidbEquivalentConfig s c = Some r
        /\ Equivalent.tidbNodes r = NaN
        /\ Equivalent.monthlyCost r = NaN)
  /\ exists rows,
       comparisonConfigs s = Some rows
       /\ map (fun row => PgConfig.name row.1) rows = ["Small"; "Medium"; "Large"; "X-Large"].
Proof.
  split; [|split].
  - split.
    + intros Hn. destruct (postgresInstanceTypes !! PgConfig.instanceType c) as [e|] eqn:E.
      * destruct (getTidbEquivalentConfig_eq s c e E) as (p & _ & _ & Hs).
        rewrite Hs in Hn. discriminate Hn.
      * split; [reflexivity|].
        destruct (inherited (PgConfig.instanceType c)) eqn:Hi; [|reflexivity].
        rewrite (getTidbEquivalentConfig_inherited s c Hi) in Hn. discriminate Hn.
    + intros [Hn Hi]. unfold getTidbEquivalentConfig.
      rewrite (strictField_unknown _ _ Spec.vCPU Hn Hi). reflexivity.
  - intros Hi. eexists. split; [exact (getTidbEquivalentConfig_inherited s c Hi)|].
    split; reflexivity.
  - assert (Hp : exists configs,
               pgConfigs = Some configs
               /\ map PgConfig.name configs = ["Small"; "Medium"; "Large"; "X-Large"]
               /\ Forall (fun c => is_Some (postgresInstanceTypes !! PgConfig.instanceType c))
                    configs).
    { eexists. split; [vm_compute; reflexivity|]. split; [reflexivity|].
      repeat constructor; eexists; vm_compute; reflexivity. }
    destruct Hp as (configs & Ep & En & Hall).
    unfold comparisonConfigs. rewrite Ep. cbn [mbind option_bind].
    assert (Hs : is_Some (mapM (fun c => tidb ← getTidbEquivalentConfig s c; Some (c, tidb))
                            configs)).
    { apply mapM_is_Some. eapply Forall_impl; [exact Hall|].
      intros c' [e He]. unfold compose.
      destruct (getTidbEquivalentConfig_eq s c' e He) as (p & _ & _ & ->).
      cbn. eauto. }
    destruct Hs as [rows Hrows]. exists rows. split; [exact Hrows|].
    apply mapM_pairs in Hrows. rewrite <- En, <- Hrows.
    now rewrite map_map.
Qed.

(** X22: the comparison does not guard its savings percentage against a
    source cost of 0: for a reference configuration with a catalog class and
    a monthly cost of 0 the percentage is minus infinity, where the summary
    of the calculator reports 0 for a source cost of 0. *)
Theorem comparison_percentage_unguarded (s : State) (c : PgConfig.t) (e : Spec.t) :
  postgresInstanceTypes !! PgConfig.instanceType c = Some e ->
  PgConfig.monthlyCost c ≃ ofZ 0 ->
  exists r,
    getTidbEquivalentConfig s c = Some r
    /\ Equivalent.savingsPercentage r = NegInfinity.
Proof.
  intros He Hc.
  destruct (getTidbEquivalentConfig_eq s c e He) as (p & (pq & -> & Hp) & _ & E).
  cbv zeta in E. eexists. split; [exact E|].
  cbn [Equivalent.savingsPercentage].
  destruct (PgConfig.monthlyCost c) as [x| | |]; simpl in Hc; try contradiction.
  change (inject_Z 0) with 0%Q in Hc.
  destruct (monitoring_positive s) as (mq & -> & Hm).
  destruct (estimate_whole (Spec.vCPU e) (ofZ 2)) as [_ (n & En & Hn)].
  { exact (positive_finite _ (proj1 (postgres_positive _ _ He))). }
  { now eexists. }
  rewrite En. unfold ofZ. rewrite !mul_Fin, !add_Fin, sub_Fin.
  set (total := (pq * n + inject_Z 998 * inject_Z 3 + inject_Z 278 * inject_Z 3 + mq)%Q).
  assert (Ht : (0 < total)%Q).
  { assert (Hpn : (0 < pq * n)%Q) by (apply Qmult_lt_0_compat; lra).
    unfold total. change (inject_Z 998 * inject_Z 3)%Q with 2994%Q.
    change (inject_Z 278 * inject_Z 3)%Q with 834%Q. lra. }
  clearbody total. unfold div. assert (Ez : Qeq_bool x 0 = true) by now apply Qeq_bool_iff.
  rewrite Ez.
  assert (El : (x + - total ?= 0)%Q = Lt).
  { apply -> Qlt_alt. rewrite Hc. lra. }
  rewrite El. reflexivity.
Qed.

Lemma comparison_percentage_unguarded_witness :
  exists r,
    getTidbEquivalentConfig initialState freeConfig = Some r
    /\ Equivalent.savingsPercentage r = NegInfinity.
Proof.
  eapply (comparison_percentage_unguarded initialState freeConfig).
  - vm_compute. reflexivity.
  - vm_compute. reflexivity.
Defined.

(** X23: the impact table and the topology deriver agree where they
    overlap: for a source class of the catalog, a number of primaries of
    at least one and at most a billion, no read replica and an SQL-tier
    class of 16 vCPU,
    the row of the impact table for the current source class estimates the
    CPU candidate of the deriver and recommends the class the deriver
    selects. *)
Theorem impact_row_matches_deriver (s : State) (e : Spec.t) :
  postgresInstanceTypes !! Postgres.instanceType (postgres s) = Some e ->
  atLeast 1 (Postgres.instanceCount (postgres s)) ->
  atMost 1000000000 (Postgres.instanceCount (postgres s)) ->
  Postgres.readReplicas (postgres s) ≃ ofZ 0 ->
  vcpuPerTidbNode s = ofZ 16 ->
  exists row,
    impactRow s (Postgres.instanceType (postgres s)) = Some row
    /\ Impact.tidbNodes row ≃ suggestedTidbNodesFromCpu s
    /\ Impact.instanceType row = Instances.tidbInstanceType (instances (recompute s)).
Proof.
  intros He (c & Ec & Hc) _ Hr Hv.
  destruct (impactRow_eq s _ e He) as (p & _ & _ & E).
  eexists. split; [exact E|].
  destruct (postgres_positive _ _ He) as ((v & Ev & Hvpos) & Hmem & _).
  assert (Epv : postgresVcpu s = Spec.vCPU e).
  { unfold postgresVcpu, field. rewrite He. apply orElse_positive. now exists v. }
  assert (Epm : postgresMemory s = Spec.memory e).
  { unfold postgresMemory, field. rewrite He. now apply orElse_positive. }
  cbn [Impact.tidbNodes Impact.instanceType]. split.
  - unfold suggestedTidbNodesFromCpu, effectivePostgresVcpu, readReplicaVcpu,
      totalPostgresVcpu. rewrite Hv, Epv, Ev, Ec.
    destruct (Postgres.readReplicas (postgres s)) as [r| | |]; simpl in Hr; try contradiction.
    assert (Hcnz : ~ (c == 0)%Q) by lra.
    unfold ofZ. rewrite (div_Fin r c Hcnz), !mul_Fin, add_Fin.
    rewrite !div_Fin by discriminate.
    apply max_eqv; [apply eqv_refl|]. apply ceil_eqv. simpl.
    rewrite Hr. field. exact Hcnz.
  - cbn [recompute instances updateInstances Instances.tidbInstanceType].
    unfold suggestedTidbInstanceType, recommendedInstanceType. now rewrite Epm.
Qed.

Lemma impact_row_matches_deriver_witness :
  exists row,
    impactRow noReplicaState (Postgres.instanceType (postgres noReplicaState)) = Some row
    /\ Impact.tidbNodes row ≃ suggestedTidbNodesFromCpu noReplicaState.
Proof.
  destruct (impact_row_matches_deriver noReplicaState (rds 4 16 437)) as (row & H1 & H2 & _).
  - vm_compute. reflexivity.
  - solve_atLeast.
  - solve_atLeast.
  - vm_compute. reflexivity.
  - vm_compute. reflexivity.
  - exists row. split; [exact H1 | exact H2].
Defined.

(** X24: the comparison is the impact table at two primaries plus the
    fixed part of the cluster: when the state has two primaries, a
    reference configuration gets the SQL node count and the class of the
    impact row of its source class, and its monthly cost is the SQL cost of
    that row plus three i3.4xlarge storage nodes, three m5.2xlarge
    placement nodes and the monitoring instance; its savings are the cost
    of the configuration less that monthly cost. *)
Theorem comparison_extends_impact_row (s : State) (c : PgConfig.t)
    (row : Impact.t) (r : Equivalent.t) :
  Postgres.instanceCount (postgres s) = ofZ 2 ->
  impactRow s (PgConfig.instanceType c) = Some row ->
  getTidbEquivalentConfig s c = Some r ->
  Equivalent.tidbNodes r = Impact.tidbNodes row
  /\ Equivalent.instanceType r = Impact.instanceType row
  /\ Equivalent.monthlyCost r
     = Impact.tidbCost row + ofZ 998 * ofZ 3 + ofZ 278 * ofZ 3
       + Cost.monitoringInstanceCost s
  /\ Equivalent.savings r = PgConfig.monthlyCost c - Equivalent.monthlyCost r.
Proof.
  intros H2 Hrow Hr.
  unfold impactRow in Hrow. unfold getTidbEquivalentConfig in Hr.
  destruct (strictField postgresInstanceTypes (PgConfig.instanceType c) Spec.vCPU)
    as [v|]; [|discriminate Hrow].
  destruct (strictField postgresInstanceTypes (PgConfig.instanceType c) Spec.memory)
    as [m|]; [|discriminate Hrow].
  cbn [mbind option_bind] in Hrow, Hr.
  destruct (strictField ec2InstanceTypes (recommendedInstanceType m) Spec.monthlyCost)
    as [p|]; [|discriminate Hrow].
  assert (E1 : strictField ec2InstanceTypes "i3.4xlarge" Spec.monthlyCost = Some (ofZ 998))
    by (vm_compute; reflexivity).
  assert (E2 : strictField ec2InstanceTypes "m5.2xlarge" Spec.monthlyCost = Some (ofZ 278))
    by (vm_compute; reflexivity).
  rewrite E1, E2 in Hr. cbn [mbind option_bind] in Hrow, Hr.
  injection Hrow as <-. injection Hr as <-.
  cbn [Equivalent.tidbNodes Equivalent.instanceType Equivalent.monthlyCost
       Equivalent.savings Impact.tidbNodes Impact.instanceType Impact.tidbCost].
  rewrite H2. repeat split.
Qed.

Lemma comparison_extends_impact_row_witness :
  exists row r,
    impactRow initialState "db.r5.xlarge" = Some row
    /\ getTidbEquivalentConfig initialState
         (PgConfig.Make "Medium" "db.r5.xlarge" (ofZ 4) (ofZ 32) (ofZ 552 * ofZ 2)) = Some r
    /\ Equivalent.tidbNodes r = Impact.tidbNodes row.
Proof.
  eexists. eexists.
  split; [vm_compute; reflexivity|]. split; [vm_compute; reflexivity|].
  eapply (comparison_extends_impact_row initialState
            (PgConfig.Make "Medium" "db.r5.xlarge" (ofZ 4) (ofZ 32) (ofZ 552 * ofZ 2))).
  - reflexivity.
  - vm_compute. reflexivity.
  - vm_compute. reflexivity.
Defined.

(** ** The resource mapping table *)

(** X25: the vCPU and memory cells of the mapping table read the catalog
    without a default: as soon as the class selected for the SQL, the
    storage or the placement tier is missing from the catalog both cells are
    NaN, whatever the node counts, while the cost model prices the missing
    class at its default (493, 998 or 278 a month). *)
Theorem mapping_is_NaN_on_missing_class (s : State) :
  ec2InstanceTypes !! Instances.tidbInstanceType (instances s) = None
  \/ ec2InstanceTypes !! Instances.tikvInstanceType (instances s) = None
  \/ ec2InstanceTypes !! Instances.pdInstanceType (instances s) = None ->
  mappingVcpu s = NaN
  /\ mappingMemory s = NaN
  /\ (ec2InstanceTypes !! Instances.tidbInstanceType (instances s) = None ->
      Cost.tidbInstanceCost s = ofZ 493)
  /\ (ec2InstanceTypes !! Instances.tikvInstanceType (instances s) = None ->
      Cost.tikvInstanceCost s = ofZ 998)
  /\ (ec2InstanceTypes !! Instances.pdInstanceType (instances s) = None ->
      Cost.pdInstanceCost s = ofZ 278).
Proof.
  intros H. unfold mappingVcpu, mappingMemory, Cost.tidbInstanceCost,
    Cost.tikvInstanceCost, Cost.pdInstanceCost, field.
  repeat split; try (intros ->; reflexivity);
    destruct H as [->|[->| ->]]; cbn [fmap option_fmap option_map toNumber];
    rewrite ?mul_NaN_l, ?add_NaN_l, ?add_NaN_r; try reflexivity.
Qed.

Lemma mapping_is_NaN_on_missing_class_witness :
  mappingVcpu unknownTikvState = NaN /\ Cost.tikvInstanceCost unknownTikvState = ofZ 998.
Proof.
  destruct (mapping_is_NaN_on_missing_class unknownTikvState) as (H1 & _ & _ & H2 & _).
  - right. left. reflexivity.
  - split; [exact H1 | apply H2; reflexivity].
Defined.

(** ** Volume prices in closed form *)

Lemma excess_charge (v base rate : Q) (cost : num) :
  (if gtb (Fin v) (Fin base) then cost + (Fin v - Fin base) * Fin rate else cost)
  ≃ cost + Fin (maxQ 0 (v - base) * rate).
Proof.
  destruct (gtb (Fin v) (Fin base)) eqn:G.
  - apply gtb_Fin in G. apply add_eqv; [apply eqv_refl|].
    rewrite sub_Fin, mul_Fin. simpl.
    destruct (maxQ_spec 0 (v - base)) as [[-> H]|[-> _]]; [|unfold Qminus; reflexivity].
    assert (E : (v + - base == 0)%Q) by lra. rewrite E. ring.
  - assert (H : (v <= base)%Q).
    { destruct (Qlt_le_dec base v) as [Hlt|Hle]; [|exact Hle].
      apply gtb_Fin in Hlt. congruence. }
    destruct (maxQ_spec 0 (v - base)) as [[-> _]|[-> Hm]]; [|lra].
    destruct cost as [c| | |]; simpl; try exact I. ring.
Qed.

(** X26: the price of a volume of non-zero size [x] in closed form.  A
    gp3 volume costs 0.08 per GB plus 0.005 for every IOPS above 3000 and
    0.04 for every MB/s of throughput above 125; an io1 or io2 volume costs
    0.125 per GB plus 0.065 for every requested IOPS, whatever the
    throughput. *)
Theorem ebs_price_closed_form (x i t : Q) :
  ~ (x == 0)%Q ->
  calculateEbsCost "gp3" (Fin x) (Fin i) (Fin t)
    ≃ Fin (x * (8 # 100) + maxQ 0 (i - 3000) * (5 # 1000) + maxQ 0 (t - 125) * (4 # 100))
  /\ calculateEbsCost "io1" (Fin x) (Fin i) (Fin t) ≃ Fin (x * (125 # 1000) + i * (65 # 1000))
  /\ calculateEbsCost "io2" (Fin x) (Fin i) (Fin t) ≃ Fin (x * (125 # 1000) + i * (65 # 1000)).
Proof.
  intros Hx. destruct ebsVolumeTypes_entries as (E1 & _ & E3 & E4).
  unfold calculateEbsCost.
  rewrite (strictEq_Fin_false x Hx), (ebsTypeOf_listed _ _ E1),
    (ebsTypeOf_listed _ _ E3), (ebsTypeOf_listed _ _ E4).
  change (String.eqb "gp3" "gp3") with true.
  change (String.eqb "gp3" "io1" || String.eqb "gp3" "io2") with false.
  change (String.eqb "io1" "gp3") with false.
  change (String.eqb "io2" "gp3") with false.
  change (String.eqb "io1" "io1" || String.eqb "io1" "io2") with true.
  change (String.eqb "io2" "io1" || String.eqb "io2" "io2") with true.
  cbn [andb fmap option_fmap option_map mbind option_bind]. unfold gp3.
  cbn [Ebs.basePrice Ebs.iopsPrice Ebs.throughputPrice toNumber]. unfold dec, ofZ.
  rewrite !mul_Fin. split; [|split].
  - eapply eqv_trans; [apply (excess_charge t 125 (4 # 100))|].
    eapply eqv_trans;
      [apply add_eqv; [apply (excess_charge i 3000 (5 # 1000)) | apply eqv_refl]|].
    rewrite !add_Fin. apply eqv_refl.
  - destruct (truthy (Fin i)) eqn:T; [rewrite add_Fin; apply eqv_refl|].
    simpl in T. apply negb_false_iff, Qeq_bool_iff in T. simpl. rewrite T. ring.
  - destruct (truthy (Fin i)) eqn:T; [rewrite add_Fin; apply eqv_refl|].
    simpl in T. apply negb_false_iff, Qeq_bool_iff in T. simpl. rewrite T. ring.
Qed.

Lemma ebs_price_closed_form_witness :
  calculateEbsCost "io1" (Fin 100) (Fin 4000) (Fin 125)
  ≃ Fin (100 * (125 # 1000) + 4000 * (65 # 1000)).
Proof.
  destruct (ebs_price_closed_form 100 4000 125) as (_ & H & _).
  - vm_compute. discriminate.
  - exact H.
Defined.

(** ** Zero primaries *)

(** X27: the deriver does not guard the division by the number of
    primaries.  With zero primaries and a rational number of read replicas
    the replica share is a division by zero, and the derived SQL node count
    and worker node count are NaN, whatever the catalog, the workload and
    the connections. *)
Theorem no_primaries_give_NaN (s : State) :
  Postgres.instanceCount (postgres s) ≃ ofZ 0 ->
  finite (Postgres.readReplicas (postgres s)) ->
  TidbCluster.tidbNodes (tidbCluster (recompute s)) = NaN
  /\ TidbCluster.k8sWorkerNodes (tidbCluster (recompute s)) = NaN.
Proof.
  intros Hc [r Hr].
  assert (E : effectivePostgresVcpu s = NaN).
  { unfold effectivePostgresVcpu, readReplicaVcpu, totalPostgresVcpu.
    destruct (postgresVcpu_finite s) as [v ->]. rewrite Hr.
    destruct (Postgres.instanceCount (postgres s)) as [c| | |]; simpl in Hc; try contradiction.
    change (inject_Z 0) with 0%Q in Hc.
    assert (Ez : Qeq_bool c 0 = true) by now apply Qeq_bool_iff.
    assert (Ecmp : (v * c ?= 0)%Q = Eq) by (apply Qeq_alt; rewrite Hc; ring).
    unfold div. rewrite Ez.
    destruct (r ?= 0)%Q; cbn [infinityOf];
      rewrite ?mul_Fin; unfold mul; cbn [sign]; rewrite ?Ecmp; reflexivity. }
  assert (Eb : baseTidbNodes s * spikeFactor s = NaN).
  { unfold baseTidbNodes, suggestedTidbNodesFromCpu. rewrite E.
    destruct (vcpuPerTidbNode s); cbn [div ceil max cmp];
      destruct (suggestedTidbNodesFromConn s); cbn [max cmp]; apply mul_NaN_l. }
  cbn [recompute tidbCluster updateTidbCluster TidbCluster.tidbNodes
       TidbCluster.k8sWorkerNodes].
  unfold suggestedWorkerNodes, totalComponents. rewrite Eb. cbn [ceil].
  rewrite !add_NaN_l. split; reflexivity.
Qed.

Lemma no_primaries_give_NaN_witness :
  TidbCluster.tidbNodes (tidbCluster (recompute noPrimariesState)) = NaN.
Proof.
  destruct (no_primaries_give_NaN noPrimariesState) as [H _].
  - vm_compute. reflexivity.
  - now eexists.
  - exact H.
Defined.

(** ** The instance store *)

(** X28: the instance-store check box only changes the storage figure of
    the mapping table.  For a storage class with local NVMe of positive
    size the figure counts that size per storage node when the box is
    ticked and nothing when it is not, a storage class without NVMe counts
    nothing either way, and the total monthly cost is the same whether the
    box is ticked or not: the additional EBS volume is charged in both
    cases. *)
Theorem instance_store_changes_no_cost (s : State) (e : Spec.t) :
  ec2InstanceTypes !! Instances.tikvInstanceType (instances s) = Some e ->
  (forall v, Spec.nvme e = Some v -> positive v ->
     tikvInstanceStorageSize (withInstanceStore true s) = v
     /\ tikvInstanceStorageSize (withInstanceStore false s) = ofZ 0)
  /\ (Spec.nvme e = None -> forall b, tikvInstanceStorageSize (withInstanceStore b s) = ofZ 0)
  /\ Cost.totalMonthlyCost (withInstanceStore true s)
     = Cost.totalMonthlyCost (withInstanceStore false s)
  /\ Cost.costBreakdownData (withInstanceStore true s)
     = Cost.costBreakdownData (withInstanceStore false s).
Proof.
  intros He. unfold tikvInstanceStorageSize, tikvUsingInstanceStore.
  cbn [withInstanceStore storage instances Storage.tikvUseInstanceStore].
  rewrite He. cbn [fmap option_fmap option_map mjoin option_join andb].
  split; [|split; [|split; reflexivity]].
  - intros v -> Hv. cbn [mjoin option_join]. split; [|reflexivity].
    destruct Hv as (q & -> & Hq). cbn [truthy orElse].
    assert (E : Qeq_bool q 0 = false).
    { destruct (Qeq_bool q 0) eqn:E; [|reflexivity].
      apply Qeq_bool_iff in E. rewrite E in Hq. now apply Qlt_irrefl in Hq. }
    now rewrite E.
  - intros -> b. cbn [mjoin option_join]. now rewrite andb_false_r.
Qed.

Lemma instance_store_changes_no_cost_witness :
  Cost.totalMonthlyCost (withInstanceStore true initialState)
  = Cost.totalMonthlyCost (withInstanceStore false initialState).
Proof.
  destruct (instance_store_changes_no_cost initialState
              (ec2nvme 16 122 998 3800 "High performance TiKV")) as (_ & _ & H & _).
  - vm_compute. reflexivity.
  - exact H.
Defined.
